(** * Batch normalisation and renorm kernels of ATen

    A shallow embedding of [aten/src/ATen/native/Normalization.cpp]:
    the per-channel statistics collector, the forward transform with its
    inference fast path, the backward kernel, the backend selector
    [_batch_norm_impl_index] with its reverse routing, the entry points
    [batch_norm] and [instance_norm], and the meta function and the
    implementation of [renorm].

    The kernels are templates over [scalar_t]; the embedding is written
    once over an interface [Scalar] of the arithmetic the kernels use and
    is read at two instances: binary64 ([double], the kernel's primitive
    floats, for which [at::acc_type<double, false>] is [double] again, so
    that [scalar_t] and [accscalar_t] coincide) and the real numbers
    (exact arithmetic, for the algebraic laws the comments of the source
    appeal to). *)

From Stdlib Require Import ZArith QArith Lia Lra Floats Reals.
From stdpp Require Import base list strings pretty.

Set Default Proof Using "Type".

(** ** Scalars *)

Declare Scope sc_scope.
Delimit Scope sc_scope with sc.

Class Scalar (T : Type) := {
  sc0 : T;                     (* the literal 0 *)
  sc1 : T;                     (* the literal 1 *)
  sadd : T → T → T;
  ssub : T → T → T;
  smul : T → T → T;
  sdiv : T → T → T;
  ssqrt : T → T;               (* std::sqrt *)
  sneqb : T → T → bool;        (* operator!= *)
  sltb : T → T → bool;         (* operator< *)
  sleb : T → T → bool;         (* operator<= *)
  of_int64 : Z → T;            (* the implicit conversion int64_t -> T *)
}.

Notation "x + y" := (sadd x y) : sc_scope.
Notation "x - y" := (ssub x y) : sc_scope.
Notation "x * y" := (smul x y) : sc_scope.
Notation "x / y" := (sdiv x y) : sc_scope.
Notation "x >? y" := (sltb y x) : sc_scope.
Notation "x >=? y" := (sleb y x) : sc_scope.

#[global] Instance scalar_inhabited `{Scalar T} : Inhabited T := populate sc0.

(** binary64: conversion of an integer rounds to nearest, ties to even. *)
Definition double_of_int64 (z : Z) : float :=
  SF2Prim (binary_normalize prec emax z 0 false).


#[global] Instance double_scalar : Scalar float := {|
  sc0 := 0%float;
  sc1 := 1%float;
  sadd := PrimFloat.add;
  ssub := PrimFloat.sub;
  smul := PrimFloat.mul;
  sdiv := PrimFloat.div;
  ssqrt := PrimFloat.sqrt;
  sneqb := fun x y => negb (PrimFloat.eqb x y);
  sltb := PrimFloat.ltb;
  sleb := PrimFloat.leb;
  of_int64 := double_of_int64;
|}.

(** Exact arithmetic.  Division by zero and the square root of a negative
    number have the conventional total values of the library. *)
#[global] Instance real_scalar : Scalar R := {|
  sc0 := 0%R;
  sc1 := 1%R;
  sadd := Rplus;
  ssub := Rminus;
  smul := Rmult;
  sdiv := Rdiv;
  ssqrt := R_sqrt.sqrt;
  sneqb := fun x y => if Req_dec_T x y then false else true;
  sltb := fun x y => if Rlt_dec x y then true else false;
  sleb := fun x y => if Rle_dec x y then true else false;
  of_int64 := IZR;
|}.

(** ** Failure

    [TORCH_CHECK], [AT_ERROR] and [TORCH_INTERNAL_ASSERT] throw; a call
    either yields a value or the message it was rejected with. *)

Inductive result (A : Type) : Type :=
| Ok (a : A)
| Err (msg : string).
Arguments Ok {A} a.
Arguments Err {A} msg.

Definition is_err {A} (r : result A) : bool :=
  match r with Ok _ => false | Err _ => true end.

#[global] Instance result_ret : MRet result := @Ok.
#[global] Instance result_bind : MBind result := fun A B k r =>
  match r with Ok a => k a | Err m => Err m end.
#[global] Instance result_fmap : FMap result := fun A B f r =>
  match r with Ok a => Ok (f a) | Err m => Err m end.

(** ** The variance transforms *)

Section VarTransform.
Context {T : Type} `{Scalar T}.

(** [struct InvStd]: the guard leaves [invstd = 0] when both the
    variance and epsilon compare equal to zero. *)
Definition InvStd (var epsilon : T) : T :=
  if sneqb var sc0 || sneqb epsilon sc0
  then (sc1 / ssqrt (var + epsilon))%sc
  else sc0.

(** [struct Var] *)
Definition Var (var epsilon : T) : T := var.
End VarTransform.

(** ** Tensors

    A tensor carries its shape, the device and element-type tags the
    backend selector inspects, a memory format and its elements.  Only
    the two dense formats the file distinguishes are represented
    physically: [data] is the buffer behind [data_ptr], row-major for
    [Contiguous] and channel-minor for [ChannelsLast]; a [Strided] tensor
    answers [false] to both contiguity queries and keeps its elements in
    row-major logical order.  An undefined tensor ([Tensor()], an absent
    optional) is [None].

    The channel axis is axis 1.  Coordinates are [(b, c, s)]: the position
    [b] on axis 0, the channel [c], and the row-major position [s] within
    the axes after the channel axis.  Sizes are non-negative and the
    element count of a tensor fits in memory, so index arithmetic does
    not wrap and is done on [nat].  An integer division by zero and a
    read outside a buffer, both undefined in the source, yield [0] in the
    embedding; the statements below assume tensors whose buffers have the
    length of their shape and divide by the sizes of non-empty axes. *)

Inductive MemoryFormat := Contiguous | ChannelsLast | Strided.

Inductive ScalarType := kByte | kHalf | kBFloat16 | kFloat | kDouble | Undefined.

#[global] Instance MemoryFormat_eq_dec : EqDecision MemoryFormat.
Proof. solve_decision. Defined.
#[global] Instance ScalarType_eq_dec : EqDecision ScalarType.
Proof. solve_decision. Defined.

Record Tensor (T : Type) := mkTensor {
  sizes : list nat;
  is_cuda : bool;
  scalar_type : ScalarType;
  format : MemoryFormat;
  data : list T;
}.
Arguments mkTensor {T}.
Arguments sizes {T}.
Arguments is_cuda {T}.
Arguments scalar_type {T}.
Arguments format {T}.
Arguments data {T}.

Section Tensors.
Context {T : Type} `{Scalar T}.

Definition numel (t : Tensor T) : nat := foldr Nat.mul 1 (sizes t).
Definition dim (t : Tensor T) : nat := length (sizes t).
(** [t.size(i)]; out of range the source throws or reads out of bounds,
    and every statement below assumes the axis exists. *)
Definition size (t : Tensor T) (i : nat) : nat := sizes t !!! i.
(** the number of elements of one channel at one position of axis 0 *)
Definition inner (t : Tensor T) : nat := foldr Nat.mul 1 (drop 2 (sizes t)).

Definition well_formed (t : Tensor T) : Prop :=
  2 ≤ dim t ∧ length (data t) = numel t.

(** [t.is_contiguous()] and
    [t.is_contiguous(MemoryFormat::ChannelsLast)], read off the layout
    tag of the tensor.  The tag stands for the strides: the source calls
    channels-last only a tensor of four axes, and a tensor with one
    channel or with an image of one element is contiguous in both
    formats at once, which one tag cannot say.  Statements about the
    channels-last path are therefore made for inputs of four axes with
    more than one channel and an image of more than one element, on
    which the tag and the strides agree. *)
Definition is_contiguous (t : Tensor T) : bool :=
  bool_decide (format t = Contiguous).
Definition is_contiguous_channels_last (t : Tensor T) : bool :=
  bool_decide (format t = ChannelsLast).

(** position in [data] of the element at [(b, c, s)] *)
Definition offset (t : Tensor T) (b c s : nat) : nat :=
  match format t with
  | ChannelsLast => (b * inner t + s) * size t 1 + c
  | _ => (b * size t 1 + c) * inner t + s
  end.

Definition get (t : Tensor T) (b c s : nat) : T := data t !!! offset t b c s.

Definition with_data (t : Tensor T) (d : list T) : Tensor T :=
  mkTensor (sizes t) (is_cuda t) (scalar_type t) (format t) d.

Definition put (t : Tensor T) (b c s : nat) (v : T) : Tensor T :=
  with_data t (<[offset t b c s := v]> (data t)).

(** 1-d accessors: [a[f]] and [a[f] = v].  Building the accessor,
    [t.accessor<scalar_t, 1>()], throws unless [t] has one axis and
    elements of type [scalar_t], and an index past the end is not
    checked; the embedding reads and writes the data of [t] as they
    are, and the statements about the kernels are made for tensors the
    accessor accepts, with an entry for every channel. *)
Definition at1 (t : Tensor T) (f : nat) : T := data t !!! f.
Definition set1 (t : Tensor T) (f : nat) (v : T) : Tensor T :=
  with_data t (<[f := v]> (data t)).

(** [conditional_accessor_1d]: the accessor of a defined tensor, with
    the checks above, and for an undefined tensor an accessor built on
    null pointers, which must not be read; the embedding reads [0]
    there, and the statements about the backward kernel are made for
    calls in which the statistics of the mode are defined. *)
Definition at1_opt (t : option (Tensor T)) (f : nat) : T :=
  match t with Some t => at1 t f | None => sc0 end.

(** Modelled from the spec: [at::empty(sizes, options)] and
    [at::empty_like] are allocation primitives of the tensor library,
    absent from the source at hand.  The contents of a fresh tensor are
    unspecified; the embedding fills it with [0]. *)
Definition empty (sz : list nat) (cuda : bool) (ty : ScalarType)
    (fmt : MemoryFormat) : Tensor T :=
  mkTensor sz cuda ty fmt (replicate (foldr Nat.mul 1 sz) sc0).
Definition empty_like (t : Tensor T) (fmt : MemoryFormat) : Tensor T :=
  empty (sizes t) (is_cuda t) (scalar_type t) fmt.

(** The coordinates [(b, s)] of the elements of one channel, in the
    order a serial iteration over [t.select(1, f)] visits them. *)
Definition channel_coords (t : Tensor T) : list (nat * nat) :=
  b ← seq 0 (size t 0); s ← seq 0 (inner t); [(b, s)].

(** Modelled from the spec: [at::sum(t, reduce_dims)] and
    [at::mean(t, reduce_dims)] over every axis but the channel axis are
    reductions of the tensor library, absent from the source at hand;
    [sum[c]] is the sum of the elements of channel [c] and the mean is
    that sum divided by the number of elements reduced. *)
Definition channel_sum (t : Tensor T) (c : nat) : T :=
  foldl (fun acc '(b, s) => (acc + get t b c s)%sc) sc0 (channel_coords t).
Definition channel_mean (t : Tensor T) (c : nat) : T :=
  (channel_sum t c / of_int64 (Z.of_nat (size t 0 * inner t)))%sc.

Definition vec (t : Tensor T) (f : nat → T) : Tensor T :=
  mkTensor [size t 1] (is_cuda t) (scalar_type t) Contiguous
           (f <$> seq 0 (size t 1)).
Definition at_sum (t : Tensor T) : Tensor T := vec t (channel_sum t).
Definition at_mean (t : Tensor T) : Tensor T := vec t (channel_mean t).
End Tensors.

(** ** Element-wise iteration over one channel

    [cpu_serial_kernel] over a [TensorIterator] built on
    [t.select(1, f)] visits the elements of channel [f] one by one. *)

Section ChannelKernels.
Context {T : Type} `{Scalar T}.

(** Modelled from the spec: the element-wise application and the serial
    reduction of the tensor library ([TensorIterator],
    [cpu_serial_kernel]) are absent from the source at hand.  With a
    [void] functor the kernel accumulates into the variables the functor
    captures, a left fold over the elements of the channel. *)
Definition serial_reduce (inp : Tensor T) (f : nat)
    (op : T → nat * nat → T) : T :=
  foldl op sc0 (channel_coords inp).

(** Modelled from the spec: [cpu_serial_kernel] on
    [TensorIterator::unary_op(out.select(1, f), inp.select(1, f))], of
    the tensor library: the functor is applied to each element of the
    channel and the result written to the output. *)
Definition serial_unary_op (out inp : Tensor T) (f : nat) (op : T → T)
    : Tensor T :=
  foldl (fun o '(b, s) => put o b f s (op (get inp b f s)))
        out (channel_coords inp).

(** Modelled from the spec: [cpu_serial_kernel] on
    [TensorIterator::borrowing_binary_op(out', out', other')], the
    channels [f] of [out] and [other], of the tensor library: the output
    is also the first input, and each element is read just before it is
    written. *)
Definition serial_binary_op_inplace (out other : Tensor T) (f : nat)
    (op : T → T → T) : Tensor T :=
  foldl (fun o '(b, s) => put o b f s (op (get o b f s) (get other b f s)))
        out (channel_coords other).
End ChannelKernels.

(** ** Inference fast path: fused coefficients *)

Section Inference.
Context {T : Type} `{Scalar T}.

(** the body of the loop of
    [batch_norm_cpu_inference_collect_linear_and_constant_terms] *)
Definition collect_channel (weight bias : option (Tensor T))
    (mean variance : Tensor T) (eps : T)
    (ab : list T * list T) (c : nat) : list T * list T :=
  let inv_var := (sc1 / ssqrt (data variance !!! c + eps))%sc in
  let weight_v := match weight with Some w => data w !!! c | None => sc1 end in
  let bias_v := match bias with Some b => data b !!! c | None => sc0 end in
  (<[c := (inv_var * weight_v)%sc]> ab.1,
   <[c := (bias_v - data mean !!! c * inv_var * weight_v)%sc]> ab.2).

Definition batch_norm_cpu_inference_collect_linear_and_constant_terms
    (alpha beta : list T) (n_channel : nat)
    (weight bias : option (Tensor T)) (mean variance : Tensor T) (eps : T)
    : list T * list T :=
  foldl (collect_channel weight bias mean variance eps)
        (alpha, beta) (seq 0 n_channel).

Definition batch_norm_cpu_inference_channels_last
    (output input : Tensor T) (weight bias : option (Tensor T))
    (mean variance : Tensor T) (eps : T) : Tensor T :=
  let n_batch := size input 0 in
  let n_channel := size input 1 in
  let image_size := numel input / n_batch / n_channel in
  let input_data := data input in
  let alpha := empty_like mean Contiguous in
  let beta := empty_like mean Contiguous in
  let '(alpha_data, beta_data) :=
    batch_norm_cpu_inference_collect_linear_and_constant_terms
      (data alpha) (data beta) n_channel weight bias mean variance eps in
  let output_data :=
    if bool_decide (n_channel ≠ 1) then
      foldl (fun out '(n, i, c) =>
               let offset := n * image_size * n_channel + i * n_channel + c in
               <[offset := (input_data !!! offset * alpha_data !!! c
                            + beta_data !!! c)%sc]> out)
            (data output)
            (n ← seq 0 n_batch; i ← seq 0 image_size;
             c ← seq 0 n_channel; [(n, i, c)])
    else
      foldl (fun out '(n, i) =>
               let offset := n * image_size + i in
               <[offset := (input_data !!! offset * alpha_data !!! 0
                            + beta_data !!! 0)%sc]> out)
            (data output)
            (n ← seq 0 n_batch; i ← seq 0 image_size; [(n, i)]) in
  with_data output output_data.

(** the element-wise functor of the generic path *)
Definition transform_element (input mean invstd weight bias : T) : T :=
  (((input - mean) * invstd) * weight + bias)%sc.
End Inference.

(** ** Forward transform, statistics and backward kernel

    [parallel_for] hands disjoint ranges of channels to worker threads,
    and the step for a channel reads and writes only the entries of that
    channel; the loops over the channels are embedded as sequential
    loops from channel [0] upwards. *)

Section Kernels.
Context {T : Type} `{Scalar T}.

(** [batch_norm_cpu_inference_contiguous_stub] is a dispatch stub whose
    kernel is registered elsewhere; it fills [output] from
    [(output, input, weight, bias, mean, variance, eps)]. *)
Variable batch_norm_cpu_inference_contiguous_stub :
  Tensor T → Tensor T → option (Tensor T) → option (Tensor T) →
  Tensor T → Tensor T → T → Tensor T.

Definition opt_contiguous (t : option (Tensor T)) : bool :=
  match t with Some t => is_contiguous t | None => true end.

(** [as_nd]: the view of a 1-d tensor that broadcasts along the channel
    axis.  It asserts that the tensor is defined and 1-d.  The iterator
    over the views and the input, whose output has the shape of the
    input, is built only for views that broadcast to that shape: a
    vector with one element per channel, or a vector of one element,
    which every channel reads; the embedding checks the shape here,
    where the view is made, and represents the broadcast of a
    one-element vector by the vector of its copies. *)
Definition as_nd (input : Tensor T) (t : option (Tensor T))
    : result (Tensor T) :=
  match t with
  | Some t =>
      if bool_decide (dim t = 1) then
        if bool_decide (size t 0 = size input 1) then Ok t
        else if bool_decide (size t 0 = 1) then
          Ok (mkTensor [size input 1] (is_cuda t) (scalar_type t)
                (format t) (replicate (size input 1) (at1 t 0)))
        else Err "shape mismatch"
      else Err "t.defined() && t.dim() == 1 INTERNAL ASSERT FAILED"
  | None => Err "t.defined() && t.dim() == 1 INTERNAL ASSERT FAILED"
  end.

(** [1 / at::sqrt(running_var + eps)], element by element *)
Definition inv_sqrt_plus (eps : T) (t : Tensor T) : Tensor T :=
  with_data t ((fun v => (sc1 / ssqrt (v + eps))%sc) <$> data t).

(** the running statistics when both are defined and contiguous; the
    contiguity query on an undefined tensor is not taken to select a
    fast path (either way such a call cannot succeed: the generic path
    asserts that the tensor is defined) *)
Definition contiguous_stats (running_mean running_var : option (Tensor T))
    : option (Tensor T * Tensor T) :=
  match running_mean, running_var with
  | Some rm, Some rv =>
      if is_contiguous rm && is_contiguous rv then Some (rm, rv) else None
  | _, _ => None
  end.

(** Modelled from the spec: [cpu_kernel] on a broadcasting
    [TensorIterator], of the tensor library.  On the iterator of the
    generic path the output, a fresh row-major tensor, is the functor
    applied at every coordinate, the per-channel operands broadcast along
    the channel axis. *)
Definition broadcast_kernel (input mean invstd : Tensor T)
    (w b : option (Tensor T)) : Tensor T :=
  let output := empty (sizes input) (is_cuda input) (scalar_type input)
                      Contiguous in
  with_data output
    ((fun j =>
        let c := (j / inner input) `mod` size input 1 in
        transform_element
          (get input (j / (size input 1 * inner input)) c (j `mod` inner input))
          (at1 mean c) (at1 invstd c)
          (match w with Some w => at1 w c | None => sc1 end)
          (match b with Some b => at1 b c | None => sc0 end))
     <$> seq 0 (numel input)).

Definition batch_norm_cpu_transform_input_template
    (input : Tensor T) (weight bias save_mean save_invstd
     running_mean running_var : option (Tensor T))
    (train : bool) (eps : T)
    : result (Tensor T * option (Tensor T) * option (Tensor T)) :=
  match (if negb train && is_contiguous input
            && opt_contiguous weight && opt_contiguous bias
         then contiguous_stats running_mean running_var else None) with
  | Some (rm, rv) =>
      let output := empty_like input Contiguous in
      Ok (batch_norm_cpu_inference_contiguous_stub
            output input weight bias rm rv eps, save_mean, save_invstd)
  | None =>
  match (if negb train && is_contiguous_channels_last input
            && opt_contiguous weight && opt_contiguous bias
         then contiguous_stats running_mean running_var else None) with
  | Some (rm, rv) =>
      let output := empty_like input ChannelsLast in
      Ok (batch_norm_cpu_inference_channels_last
            output input weight bias rm rv eps, save_mean, save_invstd)
  | None =>
      mean ← as_nd input (if train then save_mean else running_mean);
      invstd ← as_nd input (if train then save_invstd
                            else inv_sqrt_plus eps <$> running_var);
      w ← match weight with
          | Some _ => Some <$> as_nd input weight
          | None => Ok None
          end;
      b ← match bias with
          | Some _ => Some <$> as_nd input bias
          | None => Ok None
          end;
      Ok (broadcast_kernel input mean invstd w b, save_mean, save_invstd)
  end
  end.

(** *** Statistics *)

(** [var_sum] of channel [f]: the serial reduction
    [var_sum += (i - mean) * (i - mean)] *)
Definition var_sum (input : Tensor T) (mean : T) (f : nat) : T :=
  serial_reduce input f
    (fun acc '(b, s) =>
       (acc + (get input b f s - mean) * (get input b f s - mean))%sc).

(** The body of the loop over the channels; the state is
    [(save_var_transform, running_mean, running_var)].  In the source
    the mean read back, [var_sum] and the unbiased variance are of the
    accumulation type [accscalar_t] of the element type, [double] for
    [double] and for [float] alike; the embedding has one scalar type,
    so it is the instantiation at [double], and the statements about it
    are made for inputs of doubles. *)
Definition update_stats_channel (VarTransform : T → T → T)
    (input save_mean : Tensor T) (momentum eps : T) (n : Z)
    (st : Tensor T * option (Tensor T) * option (Tensor T)) (f : nat)
    : Tensor T * option (Tensor T) * option (Tensor T) :=
  let '(save_var_transform, running_mean, running_var) := st in
  let mean := at1 save_mean f in
  let var_sum := var_sum input mean f in
  let save_var_transform :=
    set1 save_var_transform f (VarTransform (var_sum / of_int64 n)%sc eps) in
  let running_mean :=
    (fun rm => set1 rm f (momentum * mean
                          + (sc1 - momentum) * at1 rm f)%sc)
      <$> running_mean in
  let running_var :=
    (fun rv =>
       let unbiased_var := (var_sum / of_int64 (n - 1))%sc in
       set1 rv f (momentum * unbiased_var
                  + (sc1 - momentum) * at1 rv f)%sc)
      <$> running_var in
  (save_var_transform, running_mean, running_var).

(** The result lists the returned pair [(save_mean, save_var_transform)]
    and then the running statistics as the call leaves them.  The
    quotient [n = input.numel() / n_input] is an integer division, which
    on an input without channels traps in the source and is [0] here;
    the statements are made for inputs with a channel. *)
Definition batch_norm_cpu_update_stats_template
    (VarTransform : T → T → T) (input : Tensor T)
    (running_mean running_var : option (Tensor T)) (momentum eps : T)
    : Tensor T * Tensor T * option (Tensor T) * option (Tensor T) :=
  let n_input := size input 1 in
  let n := (Z.of_nat (numel input) / Z.of_nat n_input)%Z in
  let save_mean := at_mean input in
  let save_var_transform : Tensor T :=
    empty [n_input] (is_cuda input) (scalar_type input) Contiguous in
  let '(save_var_transform, running_mean, running_var) :=
    foldl (update_stats_channel VarTransform input save_mean momentum eps n)
          (save_var_transform, running_mean, running_var)
          (seq 0 n_input) in
  (save_mean, save_var_transform, running_mean, running_var).

(** *** Backward *)

(** [dotp] of channel [f]: the serial reduction
    [dotp += (i - mean) * go] *)
Definition dotp (input grad_out : Tensor T) (mean : T) (f : nat) : T :=
  serial_reduce input f
    (fun acc '(b, s) =>
       (acc + (get input b f s - mean) * get grad_out b f s)%sc).

(** The body of the loop over the channels; the state is
    [(grad_input, grad_weight, grad_bias)].  In the source [dotp] is of
    the accumulation type [accscalar_t], [double] for [double] and for
    [float] alike, and the inverse standard deviation of evaluation
    mode is computed in [double]; the embedding has one scalar type, so
    it is the instantiation at [double]. *)
Definition backward_channel (grad_out_ input : Tensor T)
    (weight running_mean running_var save_mean save_invstd
     : option (Tensor T))
    (train : bool) (eps : T) (grad_input_mask : bool * bool * bool)
    (n : Z) (sum : Tensor T)
    (st : option (Tensor T) * option (Tensor T) * option (Tensor T))
    (f : nat)
    : option (Tensor T) * option (Tensor T) * option (Tensor T) :=
  let '(grad_input, grad_weight, grad_bias) := st in
  let '(mask0, mask1, mask2) := grad_input_mask in
  let w := match weight with Some wt => at1 wt f | None => sc1 end in
  let '(mean, invstd) :=
    if train then (at1_opt save_mean f, at1_opt save_invstd f)
    else (at1_opt running_mean f,
          (sc1 / ssqrt (at1_opt running_var f + eps))%sc) in
  let dotp := dotp input grad_out_ mean f in
  let grad_input :=
    if mask0 then
      (fun grad_input =>
         if train then
           let k := (dotp * invstd * invstd / of_int64 n)%sc in
           let grad_input :=
             serial_unary_op grad_input input f
               (fun i => ((i - mean) * k)%sc) in
           let grad_mean := (at1 sum f / of_int64 n)%sc in
           serial_binary_op_inplace grad_input grad_out_ f
             (fun gi go => ((go - grad_mean - gi) * invstd * w)%sc)
         else
           serial_unary_op grad_input grad_out_ f
             (fun i => (i * invstd * w)%sc))
        <$> grad_input
    else grad_input in
  let grad_weight :=
    if mask1 then (fun gw => set1 gw f (dotp * invstd)%sc) <$> grad_weight
    else grad_weight in
  let grad_bias :=
    if mask2 then (fun gb => set1 gb f (at1 sum f)) <$> grad_bias
    else grad_bias in
  (grad_input, grad_weight, grad_bias).

(** Modelled from the spec: [at::empty_like], of the tensor library and
    absent from the source at hand, on an optional tensor.  An undefined
    tensor has neither shape nor options to copy: the call is rejected,
    and no gradient is produced for an absent weight. *)
Definition empty_like_opt (t : option (Tensor T)) : result (Tensor T) :=
  match t with
  | Some t => Ok (empty_like t Contiguous)
  | None => Err "empty_like: expected a defined tensor"
  end.

(** The kernel hands every per-channel operand to
    [conditional_accessor_1d], whatever the mode, and divides
    [input.numel()] by the number of channels; see [at1], [at1_opt] and
    the statistics routine for what the embedding makes of operands the
    accessor rejects, of undefined statistics and of an input without
    channels. *)
Definition batch_norm_backward_cpu_template
    (grad_out_ input : Tensor T)
    (weight running_mean running_var save_mean save_invstd
     : option (Tensor T))
    (train : bool) (eps : T) (grad_input_mask : bool * bool * bool)
    : result (option (Tensor T) * option (Tensor T) * option (Tensor T)) :=
  let '(mask0, mask1, mask2) := grad_input_mask in
  let grad_input :=
    if mask0 then Some (empty_like input Contiguous) else None in
  grad_weight ← (if mask1 then Some <$> empty_like_opt weight else Ok None);
  grad_bias ← (if mask2 then Some <$> empty_like_opt weight else Ok None);
  let n_input := size input 1 in
  let n := (Z.of_nat (numel input) / Z.of_nat n_input)%Z in
  let sum := at_sum grad_out_ in
  Ok (foldl (backward_channel grad_out_ input weight running_mean
               running_var save_mean save_invstd train eps
               grad_input_mask n sum)
            (grad_input, grad_weight, grad_bias) (seq 0 n_input)).

(** *** Entry points on the CPU *)

(** [AT_DISPATCH_FLOATING_TYPES] instantiates the body for [float] and
    [double] and rejects every other element type. *)
Definition floating_type (ty : ScalarType) : bool :=
  match ty with kFloat | kDouble => true | _ => false end.

(** [checkBackend(name, tensors, Backend::CPU)]: every defined tensor
    must live on the CPU. *)
Definition checkBackend (name : string) (ts : list (option (Tensor T)))
    : result unit :=
  if forallb (fun t => match t with Some t => negb (is_cuda t)
                                  | None => true end) ts
  then Ok ()
  else Err (name +:+ ": expected a tensor on the CPU backend").

Definition batch_norm_update_stats_cpu (self : Tensor T)
    (running_mean running_var : option (Tensor T)) (momentum : T)
    : result (Tensor T * Tensor T)
      * (option (Tensor T) * option (Tensor T)) :=
  if floating_type (scalar_type self) then
    let '(save_mean, save_var, running_mean, running_var) :=
      batch_norm_cpu_update_stats_template Var self running_mean
        running_var momentum sc0 in
    (Ok (save_mean, save_var), (running_mean, running_var))
  else (Err "batch_norm_update_stats_cpu not implemented for this type",
        (running_mean, running_var)).

Definition batch_norm_cpu (self : Tensor T)
    (weight bias running_mean running_var : option (Tensor T))
    (train : bool) (momentum eps : T)
    : result (Tensor T * option (Tensor T) * option (Tensor T))
      * (option (Tensor T) * option (Tensor T)) :=
  match checkBackend "batch_norm_cpu"
          [Some self; weight; bias; running_mean; running_var] with
  | Err m => (Err m, (running_mean, running_var))
  | Ok _ =>
      if floating_type (scalar_type self) then
        if negb train then
          (batch_norm_cpu_transform_input_template self weight bias
             None None running_mean running_var train eps,
           (running_mean, running_var))
        else
          let '(save_mean, save_invstd, running_mean, running_var) :=
            batch_norm_cpu_update_stats_template InvStd self running_mean
              running_var momentum eps in
          (batch_norm_cpu_transform_input_template self weight bias
             (Some save_mean) (Some save_invstd) running_mean running_var
             train eps,
           (running_mean, running_var))
      else (Err "batch_norm not implemented for this type",
            (running_mean, running_var))
  end.

Definition batch_norm_backward_cpu (grad_out self : Tensor T)
    (weight running_mean running_var save_mean save_invstd
     : option (Tensor T))
    (train : bool) (eps : T) (grad_input_mask : bool * bool * bool)
    : result (option (Tensor T) * option (Tensor T) * option (Tensor T)) :=
  if floating_type (scalar_type self) then
    batch_norm_backward_cpu_template grad_out self weight running_mean
      running_var save_mean save_invstd train eps grad_input_mask
  else Err "batch_norm_backward_cpu not implemented for this type".
End Kernels.

(** ** Backend selection *)

Definition MIOPEN_DIM_MAX : nat := 5.

Section Selector.
Context {T : Type} `{Scalar T}.

(** What a forward strategy yields: its tensors, or the failure it
    raised, and the running statistics as it leaves them (they are
    updated in place). *)
Definition running (T : Type) : Type :=
  (option (Tensor T) * option (Tensor T))%type.
Definition forward3 : Type :=
  (result (Tensor T * option (Tensor T) * option (Tensor T)) * running T)%type.
Definition forward4 : Type :=
  (result (Tensor T * option (Tensor T) * option (Tensor T) * Tensor T)
   * running T)%type.
Definition backward3 : Type :=
  result (option (Tensor T) * option (Tensor T) * option (Tensor T)).

(** The capabilities [detail::getCUDAHooks()] reports, and the kernels
    of the accelerated and CUDA backends: all live outside this file. *)
Variable compiledWithCuDNN : bool.
Variable batchnormMinEpsilonCuDNN : T.
Variable versionCuDNN : Z.
Variable compiledWithMIOpen : bool.
Variable batch_norm_cpu_inference_contiguous_stub :
  Tensor T → Tensor T → option (Tensor T) → option (Tensor T) →
  Tensor T → Tensor T → T → Tensor T.
Variable cudnn_batch_norm :
  Tensor T → Tensor T → Tensor T → option (Tensor T) → option (Tensor T) →
  bool → T → T → forward4.
Variable miopen_batch_norm :
  Tensor T → Tensor T → Tensor T → option (Tensor T) → option (Tensor T) →
  bool → T → T → forward3.
Variable batch_norm_cuda :
  Tensor T → option (Tensor T) → option (Tensor T) →
  option (Tensor T) → option (Tensor T) → bool → T → T → forward3.
Variable batch_norm_backward_cuda :
  Tensor T → Tensor T → option (Tensor T) → option (Tensor T) →
  option (Tensor T) → option (Tensor T) → option (Tensor T) →
  bool → T → bool * bool * bool → backward3.
Variable cudnn_batch_norm_backward :
  Tensor T → Tensor T → option (Tensor T) → option (Tensor T) →
  option (Tensor T) → option (Tensor T) → option (Tensor T) →
  T → Tensor T → backward3.
Variable miopen_batch_norm_backward :
  Tensor T → Tensor T → option (Tensor T) → option (Tensor T) →
  option (Tensor T) → option (Tensor T) → option (Tensor T) →
  T → backward3.

(** [at::native_batch_norm] and [at::native_batch_norm_backward] go
    through the dispatcher: the kernels of this file for a CPU input,
    the CUDA kernels otherwise. *)
Definition native_batch_norm (input : Tensor T)
    (weight bias running_mean running_var : option (Tensor T))
    (training : bool) (momentum eps : T) : forward3 :=
  if is_cuda input then
    batch_norm_cuda input weight bias running_mean running_var
      training momentum eps
  else
    batch_norm_cpu batch_norm_cpu_inference_contiguous_stub
      input weight bias running_mean running_var training momentum eps.

Definition native_batch_norm_backward (grad_out input : Tensor T)
    (weight running_mean running_var save_mean save_invstd
     : option (Tensor T))
    (train : bool) (eps : T) (output_mask : bool * bool * bool)
    : backward3 :=
  if is_cuda input then
    batch_norm_backward_cuda grad_out input weight running_mean
      running_var save_mean save_invstd train eps output_mask
  else
    batch_norm_backward_cpu grad_out input weight running_mean
      running_var save_mean save_invstd train eps output_mask.

Definition check_dims_match_num_input_features (arg_name : string)
    (expected actual : nat) : result unit :=
  if bool_decide (actual = expected) then Ok ()
  else Err (arg_name +:+ " should contain " +:+ pretty expected
            +:+ " elements not " +:+ pretty actual).

Definition opt_scalar_type (t : option (Tensor T)) : ScalarType :=
  match t with Some t => scalar_type t | None => Undefined end.
Definition defined (t : option (Tensor T)) : bool :=
  match t with Some _ => true | None => false end.

(** Modelled from the spec: [t.contiguous(fmt)], of the tensor library,
    yields the same elements laid out in format [fmt]. *)
Definition contiguous (t : Tensor T) (fmt : MemoryFormat) : Tensor T :=
  if bool_decide (format t = fmt) then t
  else
    let C := size t 1 in
    let S := inner t in
    mkTensor (sizes t) (is_cuda t) (scalar_type t) fmt
      ((fun j =>
          match fmt with
          | ChannelsLast => get t (j / (S * C)) (j `mod` C) ((j / C) `mod` S)
          | _ => get t (j / (C * S)) ((j / S) `mod` C) (j `mod` S)
          end) <$> seq 0 (numel t)).
Definition suggest_memory_format (t : Tensor T) : MemoryFormat :=
  match format t with ChannelsLast => ChannelsLast | _ => Contiguous end.

(** the checks at the head of [_batch_norm_impl_index] *)
Definition check_parameters (input : Tensor T)
    (weight bias running_mean running_var : option (Tensor T))
    (training : bool) : result unit :=
  let num_features := size input 1 in
  _ ← match running_mean with
      | Some rm => check_dims_match_num_input_features
                     "running_mean" num_features (numel rm)
      | None => if negb training
                then Err "running_mean must be defined in evaluation mode"
                else Ok ()
      end;
  _ ← match running_var with
      | Some rv => check_dims_match_num_input_features
                     "running_var" num_features (numel rv)
      | None => if negb training
                then Err "running_var must be defined in evaluation mode"
                else Ok ()
      end;
  _ ← match weight with
      | Some w => check_dims_match_num_input_features
                    "weight" num_features (numel w)
      | None => Ok ()
      end;
  match bias with
  | Some b => check_dims_match_num_input_features
                "bias" num_features (numel b)
  | None => Ok ()
  end.

Definition use_cudnn (input : Tensor T)
    (weight bias running_mean running_var : option (Tensor T))
    (training : bool) (eps : T) (cudnn_enabled : bool) : bool :=
  is_cuda input
  && negb (bool_decide (scalar_type input = kBFloat16))
  && negb (bool_decide (opt_scalar_type weight = kBFloat16))
  && (negb (bool_decide (scalar_type input = kHalf))
      || bool_decide (opt_scalar_type weight = kFloat))
  && defined weight && defined bias
  && ((defined running_mean && defined running_var)
      || (negb (defined running_mean) && negb (defined running_var)
          && training))
  && bool_decide (3 ≤ dim input)
  && ((bool_decide (Z.of_nat (size input 0) ≤ 880801)%Z && training)
      || (bool_decide (Z.of_nat (size input 0) ≤ 65535)%Z && negb training))
  && compiledWithCuDNN
  && (eps >=? batchnormMinEpsilonCuDNN)%sc
  && cudnn_enabled && bool_decide (5110 ≤ versionCuDNN)%Z.

Definition use_miopen (input : Tensor T)
    (weight bias running_mean running_var : option (Tensor T))
    (training : bool) (cudnn_enabled : bool) : bool :=
  is_cuda input
  && bool_decide (dim input ≤ MIOPEN_DIM_MAX)
  && negb (bool_decide (scalar_type input = kDouble))
  && negb (bool_decide (scalar_type input = kBFloat16))
  && negb (bool_decide (opt_scalar_type weight = kHalf))
  && defined weight && defined bias
  && ((defined running_mean && defined running_var)
      || (negb (defined running_mean) && negb (defined running_var)
          && training))
  && compiledWithMIOpen
  && cudnn_enabled.

Definition _batch_norm_impl_index (input : Tensor T)
    (weight bias running_mean running_var : option (Tensor T))
    (training : bool) (momentum eps : T) (cudnn_enabled : bool)
    : result (Tensor T * option (Tensor T) * option (Tensor T)
              * Tensor T * Z)
      * running T :=
  match check_parameters input weight bias running_mean running_var
          training with
  | Err m => (Err m, (running_mean, running_var))
  | Ok _ =>
  match (if use_cudnn input weight bias running_mean running_var
              training eps cudnn_enabled
         then weight ≫= fun w => bias ≫= fun b => Some (w, b)
         else None) with
  | Some (weight, bias) =>
      let input_c := contiguous input (suggest_memory_format input) in
      let weight_c := contiguous weight Contiguous in
      let bias_c := contiguous bias Contiguous in
      let rmean_c := (fun t => contiguous t Contiguous) <$> running_mean in
      let rvar_c := (fun t => contiguous t Contiguous) <$> running_var in
      let '(r, st) :=
        cudnn_batch_norm input_c weight_c bias_c rmean_c rvar_c
          training momentum eps in
      ('(output, save_mean, save_var, reserve) ← r;
       Ok (output, save_mean, save_var, reserve, 1%Z), st)
  | None =>
  let reserve : Tensor T := empty [0] (is_cuda input) kByte Contiguous in
  match (if use_miopen input weight bias running_mean running_var
              training cudnn_enabled
         then weight ≫= fun w => bias ≫= fun b => Some (w, b)
         else None) with
  | Some (weight, bias) =>
      let '(r, st) :=
        miopen_batch_norm
          (contiguous input Contiguous) (contiguous weight Contiguous)
          (contiguous bias Contiguous)
          ((fun t => contiguous t Contiguous) <$> running_mean)
          ((fun t => contiguous t Contiguous) <$> running_var)
          training momentum eps in
      ('(output, save_mean, save_var) ← r;
       Ok (output, save_mean, save_var, reserve, 2%Z), st)
  | None =>
      let '(r, st) :=
        native_batch_norm input weight bias running_mean running_var
          training momentum eps in
      ('(output, save_mean, save_var) ← r;
       Ok (output, save_mean, save_var, reserve, 0%Z), st)
  end
  end
  end.

Definition _batch_norm_impl_index_backward (impl_index : Z)
    (input grad_output : Tensor T)
    (weight running_mean running_var save_mean save_var_transform
     : option (Tensor T))
    (train : bool) (epsilon : T) (output_mask : bool * bool * bool)
    (reservedSpace : Tensor T) : backward3 :=
  if bool_decide (impl_index = 0%Z) then
    native_batch_norm_backward grad_output input weight running_mean
      running_var save_mean save_var_transform train epsilon output_mask
  else if bool_decide (impl_index = 1%Z) then
    cudnn_batch_norm_backward input grad_output weight running_mean
      running_var save_mean save_var_transform epsilon reservedSpace
  else if bool_decide (impl_index = 2%Z) then
    miopen_batch_norm_backward input grad_output weight running_mean
      running_var save_mean save_var_transform epsilon
  else
    Err ("Unsupported impl_index in _batch_norm_impl_index_backward: "
         +:+ pretty impl_index).
End Selector.
Arguments forward3 T : clear implicits.
Arguments forward4 T : clear implicits.
Arguments backward3 T : clear implicits.

(** ** renorm *)

(** [c10::Scalar]: a tagged union of a double, an integer, a complex
    number and a boolean. *)
Inductive c10_Scalar (T : Type) : Type :=
| ScalarDouble (v : T)
| ScalarLong (v : Z)
| ScalarComplex (re im : T)
| ScalarBool (v : bool).
Arguments ScalarDouble {T} v.
Arguments ScalarLong {T} v.
Arguments ScalarComplex {T} re im.
Arguments ScalarBool {T} v.

Section Renorm.
Context {T : Type} `{Scalar T}.

Definition isComplex (s : c10_Scalar T) : bool :=
  match s with ScalarComplex _ _ => true | _ => false end.

(** [Scalar::toDouble]: a checked conversion, which throws on a complex
    number with a non-zero imaginary part. *)
Definition toDouble (s : c10_Scalar T) : result T :=
  match s with
  | ScalarDouble v => Ok v
  | ScalarLong v => Ok (of_int64 v)
  | ScalarComplex re im =>
      if sneqb im sc0
      then Err "value cannot be converted to type double without overflow"
      else Ok re
  | ScalarBool v => Ok (if v then sc1 else sc0)
  end.

Definition TORCH_CHECK (cond : bool) (msg : string) : result unit :=
  if cond then Ok () else Err msg.

(** [TORCH_META_FUNC(renorm)]; [set_output] records the shape of the
    output, which is the value of a successful call. *)
Definition renorm_meta (self : Tensor T) (p : c10_Scalar T) (dim_ : Z)
    (maxnorm : c10_Scalar T) : result (list nat) :=
  _ ← TORCH_CHECK (negb (isComplex p)) "renorm: p must be real-valued";
  pd ← toDouble p;
  _ ← TORCH_CHECK (pd >? sc0)%sc "renorm: non-positive-norm not supported";
  _ ← TORCH_CHECK (negb (isComplex maxnorm))
        "renorm: maxnorm must be real-valued";
  md ← toDouble maxnorm;
  _ ← TORCH_CHECK (md >=? sc0)%sc
        "renorm: expected maxnorm to be >= 0 but got ";
  let ndim := dim self in
  _ ← TORCH_CHECK (bool_decide (1 < ndim))
        "renorm: input needs at least 2 dimensions, got ";
  Ok (sizes self).

End Renorm.

(** ** The entry points [batch_norm] and [instance_norm] *)

Section EntryPoints.
Context {T : Type} `{Scalar T}.

Variable compiledWithCuDNN : bool.
Variable batchnormMinEpsilonCuDNN : T.
Variable versionCuDNN : Z.
Variable compiledWithMIOpen : bool.
Variable batch_norm_cpu_inference_contiguous_stub :
  Tensor T → Tensor T → option (Tensor T) → option (Tensor T) →
  Tensor T → Tensor T → T → Tensor T.
Variable cudnn_batch_norm :
  Tensor T → Tensor T → Tensor T → option (Tensor T) → option (Tensor T) →
  bool → T → T → forward4 T.
Variable miopen_batch_norm :
  Tensor T → Tensor T → Tensor T → option (Tensor T) → option (Tensor T) →
  bool → T → T → forward3 T.
Variable batch_norm_cuda :
  Tensor T → option (Tensor T) → option (Tensor T) →
  option (Tensor T) → option (Tensor T) → bool → T → T → forward3 T.

(** Indexing [t[0]] and the broadcasting arithmetic [a * b], [a + b] of
    the tensor library; each may throw. *)
Variable index0 : Tensor T → result (Tensor T).
Variable at_mul : Tensor T → Tensor T → result (Tensor T).
Variable at_add : Tensor T → Tensor T → result (Tensor T).

(** [batch_norm]: an input without elements is cloned and scaled and
    shifted by the first entries of the affine parameters; every other
    input goes to [_batch_norm_impl_index], of whose results the first is
    kept.  As a value, the clone is the input.  The second component
    lists the running statistics as the call leaves them. *)
Definition batch_norm (input : Tensor T)
    (weight bias running_mean running_var : option (Tensor T))
    (training : bool) (momentum eps : T) (cudnn_enabled : bool)
    : result (Tensor T) * running T :=
  if bool_decide (numel input = 0) then
    (let out := input in
     out ← match weight with
           | Some w => w0 ← index0 w; at_mul out w0
           | None => Ok out
           end;
     match bias with
     | Some b => b0 ← index0 b; at_add out b0
     | None => Ok out
     end,
     (running_mean, running_var))
  else
    let '(r, st) :=
      _batch_norm_impl_index compiledWithCuDNN batchnormMinEpsilonCuDNN
        versionCuDNN compiledWithMIOpen
        batch_norm_cpu_inference_contiguous_stub cudnn_batch_norm
        miopen_batch_norm batch_norm_cuda
        input weight bias running_mean running_var training momentum eps
        cudnn_enabled in
    ((fun r5 : Tensor T * option (Tensor T) * option (Tensor T)
               * Tensor T * Z => r5.1.1.1.1) <$> r, st).

(** Modelled from the spec: [t.repeat(b)], of the tensor library, with
    one repeat count: a tensor of at most one axis is laid out [b] times
    in a row, and a tensor of more axes is rejected. *)
Definition repeat (t : Tensor T) (b : nat) : result (Tensor T) :=
  if bool_decide (dim t ≤ 1) then
    Ok (mkTensor [b * numel t] (is_cuda t) (scalar_type t) Contiguous
          (mjoin (replicate b (data t))))
  else Err "Number of dimensions of repeat dims can not be smaller than number of dimensions of tensor".

Definition repeat_if_defined (t : option (Tensor T)) (b : nat)
    : result (option (Tensor T)) :=
  match t with
  | Some t => Some <$> repeat t b
  | None => Ok None
  end.

(** Modelled from the spec: [t.view(sizes)], of the tensor library, a
    reshape without copy.  The embedding admits the views of row-major
    tensors, which the library grants whenever the element counts agree,
    and rejects every other. *)
Definition view (t : Tensor T) (sz : list nat) : result (Tensor T) :=
  if is_contiguous t && bool_decide (foldr Nat.mul 1 sz = numel t) then
    Ok (mkTensor sz (is_cuda t) (scalar_type t) Contiguous (data t))
  else Err "view: shape is invalid for the input".

(** Modelled from the spec: [t.mean(0, false)] of a 2-d row-major tensor
    of shape [(b, c)], of the tensor library: entry [j] is the sum over
    axis 0, accumulated from the first row on, divided by [b]. *)
Definition column_sum (t : Tensor T) (j : nat) : T :=
  foldl (fun acc i => let k := i * size t 1 + j in (acc + data t !!! k)%sc)
        sc0 (seq 0 (size t 0)).

Definition mean0 (t : Tensor T) : Tensor T :=
  let b := size t 0 in
  let c := size t 1 in
  mkTensor [c] (is_cuda t) (scalar_type t) Contiguous
    ((fun j => (column_sum t j / of_int64 (Z.of_nat b))%sc) <$> seq 0 c).

(** Modelled from the spec: [at::alias(dst).copy_(src)], of the tensor
    library, for a 1-d source: the source must broadcast to the shape of
    the destination, which it does when the shapes agree or when the
    source has one element and the destination one axis. *)
Definition copy_ (dst src : Tensor T) : result (Tensor T) :=
  if bool_decide (sizes src = sizes dst) then Ok (with_data dst (data src))
  else if bool_decide (sizes src = [1]) && bool_decide (dim dst = 1) then
    Ok (with_data dst (replicate (numel dst) (data src !!! 0)))
  else Err "copy_: the source does not broadcast to the destination".

(** [stat.copy_(stat_.view({b, c}).mean(0, false))] when [stat] is
    defined; [stat_] is the repeated statistic as [batch_norm] left it *)
Definition update_from_repeated (b c : nat) (stat stat_ : option (Tensor T))
    : result (option (Tensor T)) :=
  match stat with
  | None => Ok None
  | Some t =>
      match stat_ with
      | Some t_ =>
          v ← view t_ [b; c];
          t' ← copy_ t (mean0 v);
          Ok (Some t')
      | None => Err "view of an undefined tensor"
      end
  end.

(** the input seen as one batch entry of [b * c] channels:
    [input.contiguous().view(shape)] with [shape[1] = b * c] and
    [shape[0] = 1] *)
Definition instance_view (input : Tensor T) : result (Tensor T) :=
  let b := size input 0 in
  let c := size input 1 in
  let shape := <[0 := 1]> (<[1 := b * c]> (sizes input)) in
  view (contiguous input Contiguous) shape.

Definition instance_norm (input : Tensor T)
    (weight bias running_mean running_var : option (Tensor T))
    (use_input_stats : bool) (momentum eps : T) (cudnn_enabled : bool)
    : result (Tensor T) * running T :=
  let unchanged := (running_mean, running_var) in
  if negb (use_input_stats || (defined running_mean && defined running_var))
  then (Err "Expected running_mean and running_var to be defined when use_input_stats is false",
        unchanged)
  else if bool_decide (dim input < 2) then
    (Err "Dimension out of range", unchanged)
  else
    let b := size input 0 in
    let c := size input 1 in
    match (weight_ ← repeat_if_defined weight b;
           bias_ ← repeat_if_defined bias b;
           running_mean_ ← repeat_if_defined running_mean b;
           running_var_ ← repeat_if_defined running_var b;
           input_reshaped ← instance_view input;
           Ok (weight_, bias_, running_mean_, running_var_, input_reshaped))
    with
    | Err m => (Err m, unchanged)
    | Ok (weight_, bias_, running_mean_, running_var_, input_reshaped) =>
        let '(r, (running_mean_, running_var_)) :=
          batch_norm input_reshaped weight_ bias_ running_mean_
            running_var_ use_input_stats momentum eps cudnn_enabled in
        match r with
        | Err m => (Err m, unchanged)
        | Ok out =>
            match update_from_repeated b c running_mean running_mean_ with
            | Err m => (Err m, unchanged)
            | Ok running_mean' =>
                match update_from_repeated b c running_var running_var_ with
                | Err m => (Err m, (running_mean', running_var))
                | Ok running_var' =>
                    (view out (sizes input), (running_mean', running_var'))
                end
            end
        end
    end.
End EntryPoints.

(** ** The axes the reductions run over *)

(** [reduce_dims] of the statistics and backward kernels: a vector of
    [ndim - 1] zeros, then [reduce_dims[0] = 0] and
    [reduce_dims[i - 1] = i] for [i] from [2] to [ndim - 1]. *)
Definition batch_norm_reduce_dims (ndim : nat) : list Z :=
  let reduce_dims := replicate (ndim - 1) 0%Z in
  let reduce_dims := <[0 := 0%Z]> reduce_dims in
  foldl (fun rd i => <[i - 1 := Z.of_nat i]> rd) reduce_dims
        (seq 2 (ndim - 2)).

(** Modelled from the spec: [c10::maybe_wrap_dim(dim, ndim)], of the core
    library, for a tensor of at least one axis: an axis in
    [[-ndim, ndim - 1]] is accepted, a negative one counted from the
    last axis, and every other is rejected. *)
Definition maybe_wrap_dim (dim_ : Z) (ndim : nat) : result nat :=
  if bool_decide (- Z.of_nat ndim ≤ dim_ < Z.of_nat ndim)%Z then
    Ok (Z.to_nat (if bool_decide (dim_ < 0)%Z
                  then dim_ + Z.of_nat ndim else dim_)%Z)
  else Err "Dimension out of range".

(** [reduce_dims] of [renorm_out]: [std::iota] over the axes, then the
    wrapped [dim] erased. *)
Definition renorm_reduce_dims (dim_ : Z) (ndim : nat) : result (list Z) :=
  d ← maybe_wrap_dim dim_ ndim;
  let reduce_dims := Z.of_nat <$> seq 0 ndim in
  Ok (delete d reduce_dims).

Section RenormOut.
Context {T : Type} `{Scalar T}.

(** [at::toAccumulateType(dtype, true)] and [c10::toValueType], tables
    of the core library; the vector norm
    [at::linalg_vector_norm(self, p, dims, keepdim, dtype)], the kernel
    behind [renorm_scale_factor_stub], which fills [factor] from [norm]
    and [maxnorm], and [at::mul_outf(self, factor, out)]. *)
Variable toAccumulateType : ScalarType → ScalarType.
Variable toValueType : ScalarType → ScalarType.
Variable linalg_vector_norm :
  Tensor T → T → list Z → bool → option ScalarType → result (Tensor T).
Variable renorm_scale_factor_stub : Tensor T → Tensor T → T → Tensor T.
Variable mul_outf : Tensor T → Tensor T → Tensor T → result (Tensor T).

(** [TORCH_IMPL_FUNC(renorm_out)] *)
Definition renorm_out_impl (self : Tensor T) (p : c10_Scalar T) (dim_ : Z)
    (maxnorm : c10_Scalar T) (out : Tensor T) : result (Tensor T) :=
  reduce_dims ← renorm_reduce_dims dim_ (length (sizes self));
  let dtype := scalar_type self in
  let acc_type := toAccumulateType dtype in
  pd ← toDouble p;
  norm ← (if negb (bool_decide (acc_type = dtype)) then
            linalg_vector_norm self pd reduce_dims true (Some acc_type)
          else linalg_vector_norm self pd reduce_dims true None);
  let factor :=
    if bool_decide (acc_type = toValueType dtype) then norm
    else empty (sizes norm) (is_cuda self) (scalar_type self) Contiguous in
  md ← toDouble maxnorm;
  let factor := renorm_scale_factor_stub factor norm md in
  mul_outf self factor out.

(** The structured operator [renorm]: the meta function checks the
    arguments and declares the output, of the shape and options of
    [self]; then [TORCH_IMPL_FUNC(renorm_out)] fills that output. *)
Definition renorm (self : Tensor T) (p : c10_Scalar T) (dim_ : Z)
    (maxnorm : c10_Scalar T) : result (Tensor T) :=
  sz ← renorm_meta self p dim_ maxnorm;
  renorm_out_impl self p dim_ maxnorm
    (empty sz (is_cuda self) (scalar_type self) Contiguous).
End RenormOut.

(** * Vocabulary of the statements

    Shapes, loop steps and per-channel quantities the statements below
    speak of, and the concrete tensors of the scenarios. *)

Section Vocabulary.
Context {T : Type} `{Scalar T}.

(** a tensor laid out row-major: the layout of every tensor the kernels
    allocate with the legacy contiguous format *)
Definition row_major (t : Tensor T) : Prop := format t ≠ ChannelsLast.

(** what the kernels need of the tensor they write: row-major, at least
    two axes, a buffer of the right length *)
Definition writable (g : Tensor T) : Prop :=
  row_major g ∧ 2 ≤ dim g ∧ length (data g) = numel g.

(** a writable tensor of shape [sz] *)
Definition fillable (sz : list nat) (g : Tensor T) : Prop :=
  writable g ∧ sizes g = sz.

(** One step of an element-wise kernel writing channel [f] of [o]. *)
Definition put_step (f : nat) (F : nat * nat → T → T)
    (o : Tensor T) (x : nat * nat) : Tensor T :=
  put o x.1 f x.2 (F x (get o x.1 f x.2)).

(** One step of a loop over the channels writing entry [f] of a
    per-channel vector. *)
Definition set_step (G : nat → T → T) (t : Tensor T) (f : nat)
    : Tensor T :=
  set1 t f (G f (at1 t f)).

(** the per-channel statistics the backward kernel resolves from the
    mode *)
Definition mean_of (running_mean save_mean : option (Tensor T))
    (train : bool) (f : nat) : T :=
  if train then at1_opt save_mean f else at1_opt running_mean f.
Definition invstd_of (running_var save_invstd : option (Tensor T))
    (train : bool) (eps : T) (f : nat) : T :=
  if train then at1_opt save_invstd f
  else (sc1 / ssqrt (at1_opt running_var f + eps))%sc.
Definition weight_of (weight : option (Tensor T)) (f : nat) : T :=
  match weight with Some wt => at1 wt f | None => sc1 end.

(** what one step of the backward loop does to [grad_input] *)
Definition grad_input_channel (grad_out_ input : Tensor T)
    (weight running_mean running_var save_mean save_invstd
     : option (Tensor T))
    (train : bool) (eps : T) (n : Z) (sum : Tensor T) (f : nat)
    (g : Tensor T) : Tensor T :=
  let mean := mean_of running_mean save_mean train f in
  let invstd := invstd_of running_var save_invstd train eps f in
  let w := weight_of weight f in
  if train then
    serial_binary_op_inplace
      (serial_unary_op g input f
         (fun i => ((i - mean)
                    * (dotp input grad_out_ mean f
                       * invstd * invstd / of_int64 n))%sc))
      grad_out_ f
      (fun gi go => ((go - at1 sum f / of_int64 n - gi) * invstd * w)%sc)
  else
    serial_unary_op g grad_out_ f (fun i => (i * invstd * w)%sc).

(** the fused coefficients as the collecting loop computes them *)
Definition inv_var_of (variance : Tensor T) (eps : T) (c : nat) : T :=
  (sc1 / ssqrt (data variance !!! c + eps))%sc.
Definition weight_v_of (weight : option (Tensor T)) (c : nat) : T :=
  match weight with Some w => data w !!! c | None => sc1 end.
Definition bias_v_of (bias : option (Tensor T)) (c : nat) : T :=
  match bias with Some b => data b !!! c | None => sc0 end.
Definition fused_alpha (weight : option (Tensor T)) (variance : Tensor T)
    (eps : T) (c : nat) : T :=
  (inv_var_of variance eps c * weight_v_of weight c)%sc.
Definition fused_beta (weight bias : option (Tensor T))
    (mean variance : Tensor T) (eps : T) (c : nat) : T :=
  (bias_v_of bias c
   - data mean !!! c * inv_var_of variance eps c * weight_v_of weight c)%sc.

(** an optional per-channel parameter the generic path accepts: absent,
    or a CPU vector with one element per channel *)
Definition channel_vector (input : Tensor T) (w : option (Tensor T))
    : Prop :=
  match w with
  | None => True
  | Some t => is_cuda t = false ∧ dim t = 1 ∧ size t 0 = size input 1
              ∧ length (data t) = numel t
  end.

(** optional running statistics on the CPU with room for every channel *)
Definition running_vector (input : Tensor T) (w : option (Tensor T))
    : Prop :=
  match w with
  | None => True
  | Some t => is_cuda t = false ∧ size input 1 ≤ length (data t)
  end.

(** an optional per-channel vector that, when present, has an entry for
    every channel *)
Definition opt_entries (input : Tensor T) (w : option (Tensor T))
    : Prop :=
  match w with
  | None => True
  | Some t => size input 1 ≤ length (data t)
  end.

(** a present parameter whose element count is not the channel count *)
Definition count_mismatch (input : Tensor T) (t : option (Tensor T))
    : Prop :=
  match t with Some t => numel t ≠ size input 1 | None => False end.

(** a running statistic that evaluation mode needs and does not find *)
Definition missing_in_evaluation (training : bool)
    (t : option (Tensor T)) : Prop :=
  training = false ∧ t = None.

(** An optional per-channel operand as the kernels take it: absent, or a
    CPU tensor of exactly one axis, of the element type of the input,
    with one entry for every channel.  The statistics and backward
    kernels read such operands through [accessor<scalar_t, 1>], which
    throws on a tensor of another rank or element type and is indexed
    without a bounds check; the inference kernels read them through
    typed data pointers, and the iterator of the generic path wants one
    element type. *)
Definition accessor_vector (input : Tensor T) (w : option (Tensor T))
    : Prop :=
  match w with
  | None => True
  | Some t => is_cuda t = false ∧ scalar_type t = scalar_type input
              ∧ dim t = 1 ∧ size t 0 = size input 1
              ∧ length (data t) = numel t
  end.

(** The sum of [g b s] over the elements [(b, s)] of one channel, axis
    [0] outermost, written out on the coordinates. *)
Definition over_channel (t : Tensor T) (g : nat → nat → T) : T :=
  foldl (fun acc b =>
           foldl (fun acc s => (acc + g b s)%sc) acc (seq 0 (inner t)))
        sc0 (seq 0 (size t 0)).
(** the sum and the mean of the elements of channel [c] *)
Definition sum_over_channel (t : Tensor T) (c : nat) : T :=
  over_channel t (fun b s => get t b c s).
Definition mean_over_channel (t : Tensor T) (c : nat) : T :=
  (sum_over_channel t c / of_int64 (Z.of_nat (size t 0 * inner t)))%sc.
(** the sum of the squared deviations of channel [c] from [mean] *)
Definition squares_over_channel (t : Tensor T) (mean : T) (c : nat) : T :=
  over_channel t
    (fun b s => ((get t b c s - mean) * (get t b c s - mean))%sc).
(** the sum over channel [c] of [(input - mean) * grad_out] *)
Definition dot_over_channel (input grad_out : Tensor T) (mean : T)
    (c : nat) : T :=
  over_channel input
    (fun b s => ((get input b c s - mean) * get grad_out b c s)%sc).

(** the operands the backward kernel runs on in its instantiation at
    [double]: the input and the output gradient are CPU tensors of
    doubles of one shape with at least two axes, and each of the five
    per-channel operands, all of which the kernel hands to
    [conditional_accessor_1d], is absent or accepted by the accessor *)
Definition backward_operands (grad_out_ input : Tensor T)
    (weight running_mean running_var save_mean save_invstd
     : option (Tensor T)) : Prop :=
  well_formed input ∧ is_cuda input = false ∧ scalar_type input = kDouble
  ∧ well_formed grad_out_ ∧ is_cuda grad_out_ = false
  ∧ scalar_type grad_out_ = kDouble ∧ sizes grad_out_ = sizes input
  ∧ accessor_vector input weight
  ∧ accessor_vector input running_mean ∧ accessor_vector input running_var
  ∧ accessor_vector input save_mean ∧ accessor_vector input save_invstd.

(** a multiplication kernel that writes into the output it is given: a
    successful call returns a tensor of the shape of that output *)
Definition writes_into_out
    (mul_outf : Tensor T → Tensor T → Tensor T → result (Tensor T))
    : Prop :=
  ∀ a b out r, mul_outf a b out = Ok r → sizes r = sizes out.

(** the value of a real-valued [c10::Scalar] as a double *)
Definition scalar_value (s : c10_Scalar T) : T :=
  match s with
  | ScalarDouble v => v
  | ScalarLong v => of_int64 v
  | ScalarComplex re _ => re
  | ScalarBool v => if v then sc1 else sc0
  end.
End Vocabulary.

(** One step of a loop that writes position [idx x] of a buffer. *)
Definition write_step {A B : Type} `{Inhabited A} (idx : B → nat)
    (F : B → A → A) (d : list A) (x : B) : list A :=
  <[idx x := F x (d !!! idx x)]> d.

Set Warnings "-inexact-float".

(** A CPU tensor of doubles in row-major layout. *)
Definition cpu_double (sz : list nat) (d : list float) : Tensor float :=
  mkTensor sz false kDouble Contiguous d.

(** A CPU tensor of doubles in channels-last layout. *)
Definition channels_last_double (sz : list nat) (d : list float)
    : Tensor float :=
  mkTensor sz false kDouble ChannelsLast d.

(** A CPU tensor of exact reals in channels-last layout. *)
Definition channels_last_real (sz : list nat) (d : list R) : Tensor R :=
  mkTensor sz false kDouble ChannelsLast d.

(** A CPU tensor of exact reals in row-major layout. *)
Definition cpu_real (sz : list nat) (d : list R) : Tensor R :=
  mkTensor sz false kDouble Contiguous d.


(** A batch of three values of one channel whose squared deviations
    underflow to the smallest positive doubles. *)
Definition underflowing_batch : Tensor float :=
  cpu_double [3; 1; 1] [0; 0; 0x1p-536]%float.

Section FurtherVocabulary.
Context {T : Type} `{Scalar T}.

(** the operands the inference fast paths need in row-major layout *)
Definition operands_contiguous
    (weight bias running_mean running_var : option (Tensor T)) : bool :=
  opt_contiguous weight && opt_contiguous bias
  && opt_contiguous running_mean && opt_contiguous running_var.

(** the sum of the elements of instance [(i, j)]: entry [i] of the
    batch, channel [j] *)
Definition instance_sum (input : Tensor T) (i j : nat) : T :=
  foldl (fun acc s => (acc + get input i j s)%sc) sc0
        (seq 0 (inner input)).
Definition instance_mean (input : Tensor T) (i j : nat) : T :=
  (instance_sum input i j / of_int64 (Z.of_nat (inner input)))%sc.
(** the sum of the squared deviations of instance [(i, j)] from [mean] *)
Definition instance_var_sum (input : Tensor T) (mean : T) (i j : nat) : T :=
  foldl (fun acc s =>
           (acc + (get input i j s - mean) * (get input i j s - mean))%sc)
        sc0 (seq 0 (inner input)).

(** the reshaped input of [instance_norm], when the reshape succeeds *)
Definition as_instances (input : Tensor T) : Tensor T :=
  mkTensor (1 :: size input 0 * size input 1 :: drop 2 (sizes input))
    (is_cuda input) (scalar_type input) Contiguous
    (data (contiguous input Contiguous)).

(** a per-channel vector laid out [b] times in a row *)
Definition repeated (b : nat) (t : Tensor T) : Tensor T :=
  mkTensor [b * numel t] (is_cuda t) (scalar_type t) Contiguous
    (mjoin (replicate b (data t))).

(** the mean over the batch of the values [f 0], ..., [f (b - 1)],
    accumulated from [f 0] on *)
Definition batch_average (b : nat) (f : nat → T) : T :=
  (foldl (fun acc i => (acc + f i)%sc) sc0 (seq 0 b)
   / of_int64 (Z.of_nat b))%sc.

(** Stand-ins for the kernels outside the file, for the scenarios: a
    contiguous inference kernel that leaves its output as allocated, and
    accelerated strategies, indexing and arithmetic that fail. *)
Definition stub_keeps_output
    : Tensor T → Tensor T → option (Tensor T) → option (Tensor T) →
      Tensor T → Tensor T → T → Tensor T :=
  fun out _ _ _ _ _ _ => out.
Definition cudnn_unavailable
    : Tensor T → Tensor T → Tensor T → option (Tensor T) →
      option (Tensor T) → bool → T → T → forward4 T :=
  fun _ _ _ rm rv _ _ _ => (Err "cudnn", (rm, rv)).
Definition miopen_unavailable
    : Tensor T → Tensor T → Tensor T → option (Tensor T) →
      option (Tensor T) → bool → T → T → forward3 T :=
  fun _ _ _ rm rv _ _ _ => (Err "miopen", (rm, rv)).
Definition cuda_unavailable
    : Tensor T → option (Tensor T) → option (Tensor T) →
      option (Tensor T) → option (Tensor T) → bool → T → T → forward3 T :=
  fun _ _ _ rm rv _ _ _ => (Err "cuda", (rm, rv)).
Definition backward_unavailable
    : Tensor T → Tensor T → option (Tensor T) → option (Tensor T) →
      option (Tensor T) → option (Tensor T) → option (Tensor T) →
      bool → T → bool * bool * bool → backward3 T :=
  fun _ _ _ _ _ _ _ _ _ _ => Err "cuda".
Definition cudnn_backward_unavailable
    : Tensor T → Tensor T → option (Tensor T) → option (Tensor T) →
      option (Tensor T) → option (Tensor T) → option (Tensor T) →
      T → Tensor T → backward3 T :=
  fun _ _ _ _ _ _ _ _ _ => Err "cudnn".
Definition miopen_backward_unavailable
    : Tensor T → Tensor T → option (Tensor T) → option (Tensor T) →
      option (Tensor T) → option (Tensor T) → option (Tensor T) →
      T → backward3 T :=
  fun _ _ _ _ _ _ _ _ => Err "miopen".
Definition index_unavailable : Tensor T → result (Tensor T) :=
  fun _ => Err "index".
Definition arithmetic_unavailable
    : Tensor T → Tensor T → result (Tensor T) :=
  fun _ _ => Err "arithmetic".
End FurtherVocabulary.


(** [_batch_norm_impl_index], [batch_norm] and [instance_norm] on doubles
    with the stand-ins: cuDNN and MIOpen compiled in, every accelerated
    strategy failing. *)
Definition impl_index_cpu_double :=
  _batch_norm_impl_index (T := float) true 0%float 8000%Z true
    stub_keeps_output cudnn_unavailable miopen_unavailable
    cuda_unavailable.
Definition batch_norm_cpu_double :=
  batch_norm (T := float) true 0%float 8000%Z true stub_keeps_output
    cudnn_unavailable miopen_unavailable cuda_unavailable
    index_unavailable arithmetic_unavailable arithmetic_unavailable.
Definition instance_norm_cpu_double :=
  instance_norm (T := float) true 0%float 8000%Z true stub_keeps_output
    cudnn_unavailable miopen_unavailable cuda_unavailable
    index_unavailable arithmetic_unavailable arithmetic_unavailable.

(** * Properties *)

(** ** Loops that write one buffer position per step *)

Section Buffers.
Context {A : Type} `{Inhabited A} {B : Type}.
Variable idx : B → nat.
Variable F : B → A → A.

Lemma foldl_write_length (cs : list B) (d : list A) :
  length (foldl (write_step idx F) d cs) = length d.
Proof.
  revert d. induction cs as [|x cs IH]; intros d; simpl; [done|].
  rewrite IH. unfold write_step. by rewrite length_insert.
Qed.

Lemma foldl_write_other (cs : list B) (d : list A) (j : nat) :
  j ∉ idx <$> cs → foldl (write_step idx F) d cs !!! j = d !!! j.
Proof.
  revert d. induction cs as [|x cs IH]; intros d Hj; simpl; [done|].
  rewrite fmap_cons in Hj. apply not_elem_of_cons in Hj as [Hne Hj].
  rewrite IH by done. unfold write_step.
  by rewrite list_lookup_total_insert_ne.
Qed.

Lemma foldl_write_at (cs : list B) (d : list A) (x : B) :
  NoDup (idx <$> cs) → x ∈ cs → idx x < length d →
  foldl (write_step idx F) d cs !!! idx x = F x (d !!! idx x).
Proof.
  revert d. induction cs as [|y cs IH]; intros d Hnd Hx Hlt; simpl.
  { by apply elem_of_nil in Hx. }
  rewrite fmap_cons in Hnd. apply NoDup_cons in Hnd as [Hy Hnd].
  destruct (decide (idx y = idx x)) as [Heq|Hne].
  - rewrite foldl_write_other by (by rewrite <- Heq).
    unfold write_step. rewrite Heq.
    rewrite list_lookup_total_insert_eq by done.
    apply elem_of_cons in Hx as [->|Hx]; [done|].
    exfalso. apply Hy. rewrite Heq. by apply list_elem_of_fmap_2.
  - apply elem_of_cons in Hx as [->|Hx]; [done|].
    rewrite IH; [|done|done|].
    + unfold write_step. by rewrite list_lookup_total_insert_ne.
    + unfold write_step. by rewrite length_insert.
Qed.
End Buffers.

(** ** Shapes and offsets *)

Lemma foldl_ext_eq {A B} (f g : A → B → A) (a : A) (l : list B) :
  (∀ a b, f a b = g a b) → foldl f a l = foldl g a l.
Proof.
  intros Hfg. revert a. induction l as [|x l IH]; intros a; simpl; [done|].
  by rewrite Hfg, IH.
Qed.

Lemma row_major_lt (N C S b c s : nat) :
  b < N → c < C → s < S → (b * C + c) * S + s < N * C * S.
Proof.
  intros Hb Hc Hs.
  assert (b * C + c + 1 ≤ N * C) by nia.
  assert ((b * C + c) * S + S ≤ N * C * S) by nia.
  lia.
Qed.

Lemma mul_add_inj (S x s x' s' : nat) :
  s < S → s' < S → x * S + s = x' * S + s' → x = x' ∧ s = s'.
Proof.
  intros Hs Hs' Heq.
  destruct (lt_eq_lt_dec x x') as [[Hlt|Heq']|Hgt]; [nia| |nia].
  subst x'. split; [done|lia].
Qed.

Lemma row_major_inj (C S b c s b' c' s' : nat) :
  c < C → c' < C → s < S → s' < S →
  (b * C + c) * S + s = (b' * C + c') * S + s' →
  b = b' ∧ c = c' ∧ s = s'.
Proof.
  intros Hc Hc' Hs Hs' Heq.
  apply mul_add_inj in Heq as [Heq ->]; [|done..].
  apply mul_add_inj in Heq as [-> ->]; done.
Qed.

Section TensorFacts.
Context {T : Type} `{Scalar T}.
Implicit Types t o : Tensor T.

Lemma numel_split t :
  2 ≤ dim t → numel t = size t 0 * size t 1 * inner t.
Proof.
  unfold dim, numel, size, inner.
  destruct (sizes t) as [|a [|b l]]; simpl; intros; try lia.
  rewrite drop_0. lia.
Qed.

Lemma elem_of_channel_coords t b s :
  (b, s) ∈ channel_coords t ↔ b < size t 0 ∧ s < inner t.
Proof.
  unfold channel_coords. rewrite list_elem_of_bind. split.
  - intros (b' & Hs & Hb). apply list_elem_of_bind in Hs as (s' & Hx & Hs).
    apply list_elem_of_singleton in Hx. inversion Hx; subst.
    apply elem_of_seq in Hb, Hs. lia.
  - intros [Hb Hs]. exists b. split; [|apply elem_of_seq; lia].
    apply list_elem_of_bind. exists s.
    split; [by apply list_elem_of_singleton|apply elem_of_seq; lia].
Qed.

Lemma NoDup_channel_coords t : NoDup (channel_coords t).
Proof.
  unfold channel_coords. apply NoDup_bind; [| |apply NoDup_seq].
  - intros b1 b2 [b s] _ _ H1 H2.
    apply list_elem_of_bind in H1 as (? & Hx1 & _).
    apply list_elem_of_bind in H2 as (? & Hx2 & _).
    apply list_elem_of_singleton in Hx1, Hx2. congruence.
  - intros b _. apply NoDup_bind; [| |apply NoDup_seq].
    + intros s1 s2 y _ _ H1 H2.
      apply list_elem_of_singleton in H1, H2. congruence.
    + intros s _. apply NoDup_singleton.
Qed.

Lemma offset_row_major t b c s :
  row_major t → offset t b c s = (b * size t 1 + c) * inner t + s.
Proof. unfold row_major, offset. by destruct (format t). Qed.

Lemma offset_lt t b c s :
  row_major t → 2 ≤ dim t →
  b < size t 0 → c < size t 1 → s < inner t →
  offset t b c s < numel t.
Proof.
  intros Hrm Hd Hb Hc Hs. rewrite offset_row_major, numel_split by done.
  by apply row_major_lt.
Qed.

Lemma offset_inj t b c s b' c' s' :
  row_major t → c < size t 1 → c' < size t 1 →
  s < inner t → s' < inner t →
  offset t b c s = offset t b' c' s' → b = b' ∧ c = c' ∧ s = s'.
Proof.
  intros Hrm Hc Hc' Hs Hs'. rewrite !offset_row_major by done.
  by apply row_major_inj.
Qed.

Lemma foldl_put_step_data f F o cs :
  foldl (put_step f F) o cs
  = with_data o (foldl (write_step (fun x => offset o x.1 f x.2) F)
                       (data o) cs).
Proof.
  revert o. induction cs as [|x cs IH]; intros o; simpl.
  { by destruct o. }
  rewrite IH. by destruct o.
Qed.

Lemma foldl_put_step_shape f F o cs :
  let o' := foldl (put_step f F) o cs in
  sizes o' = sizes o ∧ format o' = format o
  ∧ length (data o') = length (data o).
Proof.
  simpl. rewrite foldl_put_step_data. simpl.
  by rewrite foldl_write_length.
Qed.

Lemma foldl_put_step_at f F o cs b s :
  row_major o → 2 ≤ dim o → length (data o) = numel o →
  f < size o 1 →
  NoDup cs → (∀ x, x ∈ cs → x.1 < size o 0 ∧ x.2 < inner o) →
  (b, s) ∈ cs →
  get (foldl (put_step f F) o cs) b f s = F (b, s) (get o b f s).
Proof.
  intros Hrm Hd Hlen Hf Hnd Hin Hx.
  rewrite foldl_put_step_data. unfold get. simpl.
  change (offset (with_data o ?d) b f s) with (offset o b f s).
  apply (foldl_write_at (fun x : nat * nat => offset o x.1 f x.2) F
           cs (data o) (b, s)); [|done|].
  - apply NoDup_fmap_2_strong; [|done].
    intros [b1 s1] [b2 s2] H1 H2 Heq. simpl in Heq.
    apply Hin in H1, H2. simpl in *.
    apply offset_inj in Heq as (-> & _ & ->); [done|done|lia..].
  - simpl. rewrite Hlen. apply Hin in Hx. simpl in Hx.
    apply offset_lt; [done|done|lia..].
Qed.

Lemma foldl_put_step_other f F o cs b c s :
  row_major o → f < size o 1 →
  (∀ x, x ∈ cs → x.2 < inner o) →
  c < size o 1 → s < inner o → c ≠ f →
  get (foldl (put_step f F) o cs) b c s = get o b c s.
Proof.
  intros Hrm Hf Hin Hc Hs Hne.
  rewrite foldl_put_step_data. unfold get. simpl.
  change (offset (with_data o ?d) b c s) with (offset o b c s).
  apply foldl_write_other.
  intros Hel. apply list_elem_of_fmap in Hel as ([b' s'] & Heq & Hel').
  simpl in Heq. apply Hin in Hel'. simpl in Hel'.
  apply offset_inj in Heq as (_ & ? & _); done.
Qed.
End TensorFacts.

(** ** Loops over the channels that write one per-channel entry *)

Section PerChannel.
Context {T : Type} `{Scalar T}.
Implicit Types t : Tensor T.

Lemma foldl_set_step_data G t l :
  foldl (set_step G) t l
  = with_data t (foldl (write_step (@Datatypes.id nat) G) (data t) l).
Proof.
  revert t. induction l as [|x l IH]; intros t; simpl.
  { by destruct t. }
  rewrite IH. by destruct t.
Qed.

Lemma foldl_set_step_at G t n c :
  c < n → c < length (data t) →
  at1 (foldl (set_step G) t (seq 0 n)) c = G c (at1 t c).
Proof.
  intros Hc Hlen. rewrite foldl_set_step_data. unfold at1. simpl.
  apply (foldl_write_at (@Datatypes.id nat) G (seq 0 n) (data t) c); [|by apply elem_of_seq; lia|done].
  rewrite list_fmap_id. apply NoDup_seq.
Qed.

Lemma foldl_set_step_shape G t l :
  sizes (foldl (set_step G) t l) = sizes t
  ∧ length (data (foldl (set_step G) t l)) = length (data t).
Proof.
  rewrite foldl_set_step_data. simpl. by rewrite foldl_write_length.
Qed.

Lemma vec_at1 t (g : nat → T) c :
  c < size t 1 → at1 (vec t g) c = g c.
Proof.
  intros Hc. unfold at1, vec. simpl.
  rewrite (list_lookup_total_fmap g (seq 0 (size t 1)) c)
    by (rewrite length_seq; lia).
  by rewrite lookup_total_seq_lt.
Qed.

Lemma at_mean_at1 t c : c < size t 1 → at1 (at_mean t) c = channel_mean t c.
Proof. apply vec_at1. Qed.

Lemma at_sum_at1 t c : c < size t 1 → at1 (at_sum t) c = channel_sum t c.
Proof. apply vec_at1. Qed.

(** *** The statistics loop, component by component *)

Lemma update_stats_fold VT input save_mean momentum eps n svt rm rv l :
  foldl (update_stats_channel VT input save_mean momentum eps n)
        (svt, rm, rv) l
  = (foldl (set_step (fun f _ =>
               VT (var_sum input (at1 save_mean f) f / of_int64 n)%sc eps))
           svt l,
     (fun rm => foldl (set_step (fun f old =>
                  (momentum * at1 save_mean f
                   + (sc1 - momentum) * old)%sc)) rm l) <$> rm,
     (fun rv => foldl (set_step (fun f old =>
                  (momentum * (var_sum input (at1 save_mean f) f
                               / of_int64 (n - 1))
                   + (sc1 - momentum) * old)%sc)) rv l) <$> rv).
Proof.
  revert svt rm rv. induction l as [|f l IH]; intros svt rm rv; simpl.
  { by destruct rm, rv. }
  rewrite IH. by destruct rm, rv.
Qed.

(** What [batch_norm_cpu_update_stats_template] leaves for channel [c]:
    the batch mean, the transformed biased variance, and the blended
    running statistics (absent ones stay absent). *)
Lemma update_stats_template_spec VT input rm rv momentum eps c :
  c < size input 1 →
  (∀ t, rm = Some t → size input 1 ≤ length (data t)) →
  (∀ t, rv = Some t → size input 1 ≤ length (data t)) →
  let n := (Z.of_nat (numel input) / Z.of_nat (size input 1))%Z in
  let mean := channel_mean input c in
  let vs := var_sum input mean c in
  let r := batch_norm_cpu_update_stats_template VT input rm rv
             momentum eps in
  at1 r.1.1.1 c = mean
  ∧ at1 r.1.1.2 c = VT (vs / of_int64 n)%sc eps
  ∧ (fun t => at1 t c) <$> r.1.2
    = (fun t => (momentum * mean + (sc1 - momentum) * at1 t c)%sc) <$> rm
  ∧ (fun t => at1 t c) <$> r.2
    = (fun t => (momentum * (vs / of_int64 (n - 1))
                 + (sc1 - momentum) * at1 t c)%sc) <$> rv.
Proof.
  intros Hc Hrm Hrv n mean vs r. subst r.
  unfold batch_norm_cpu_update_stats_template.
  rewrite update_stats_fold. fold n. simpl.
  split; [by apply at_mean_at1|].
  split.
  { rewrite foldl_set_step_at; [|done|].
    - by rewrite at_mean_at1.
    - simpl. rewrite length_replicate. lia. }
  split.
  - destruct rm as [t|]; simpl; [|done]. f_equal.
    rewrite foldl_set_step_at; [|done|].
    + by rewrite at_mean_at1.
    + specialize (Hrm t eq_refl). lia.
  - destruct rv as [t|]; simpl; [|done]. f_equal.
    rewrite foldl_set_step_at; [|done|].
    + by rewrite at_mean_at1.
    + specialize (Hrv t eq_refl). lia.
Qed.
End PerChannel.

(** ** Per-channel vectors and sums over a channel *)

Lemma foldl_ext_in {A B} (f g : A → B → A) (l : list B) (a : A) :
  (∀ a x, x ∈ l → f a x = g a x) → foldl f a l = foldl g a l.
Proof.
  revert a. induction l as [|x l IH]; intros a Hfg; [done|]. simpl.
  rewrite Hfg by left. apply IH. intros a' y Hy. apply Hfg. by right.
Qed.

Lemma channel_vector_running {T} `{Scalar T} (input : Tensor T) t :
  channel_vector input t → running_vector input t.
Proof.
  destruct t as [t|]; [|done]. intros (Hc & Hd & Hs & Hl).
  split; [done|]. rewrite Hl, <- Hs. unfold numel, size, dim in *.
  destruct (sizes t) as [|a [|b l]]; simpl in *; try lia.
Qed.

Lemma channel_vector_numel {T} `{Scalar T} (input : Tensor T) t :
  channel_vector input (Some t) → numel t = size input 1.
Proof.
  intros (Hc & Hd & Hs & Hl). rewrite <- Hs. unfold numel, size, dim in *.
  destruct (sizes t) as [|a [|b l]]; simpl in *; try lia.
Qed.

Lemma accessor_vector_channel {T} `{Scalar T} (input : Tensor T) t :
  accessor_vector input t → channel_vector input t.
Proof. destruct t as [t|]; [|done]. by intros (? & ? & ? & ? & ?). Qed.

Lemma accessor_vector_running {T} `{Scalar T} (input : Tensor T) t :
  accessor_vector input t → running_vector input t.
Proof. intros Ht. by apply channel_vector_running, accessor_vector_channel. Qed.

Lemma accessor_vector_length {T} `{Scalar T} (input : Tensor T) t t' :
  accessor_vector input t → t = Some t' →
  size input 1 ≤ length (data t').
Proof.
  intros Ht ->. by destruct (accessor_vector_running input _ Ht).
Qed.

Lemma double_is_floating ty : ty = kDouble → floating_type ty = true.
Proof. by intros ->. Qed.

Lemma foldl_coords_nested {A} (f : A → nat * nat → A) (a : A)
    (l m : list nat) :
  foldl f a (b ← l; s ← m; [(b, s)])
  = foldl (fun acc b => foldl (fun acc s => f acc (b, s)) acc m) a l.
Proof.
  revert a. induction l as [|b l IH]; intros a; [done|].
  rewrite bind_cons, foldl_app, IH. simpl. f_equal.
  clear IH. revert a. induction m as [|s m IH]; intros a; [done|].
  rewrite bind_cons. simpl. apply IH.
Qed.

Section OverChannel.
Context {T : Type} `{Scalar T}.
Implicit Types t input grad_out : Tensor T.

Lemma channel_sum_over t c : channel_sum t c = sum_over_channel t c.
Proof. unfold channel_sum, channel_coords. apply foldl_coords_nested. Qed.

Lemma channel_mean_over t c : channel_mean t c = mean_over_channel t c.
Proof. unfold channel_mean, mean_over_channel. by rewrite channel_sum_over. Qed.

Lemma var_sum_over t mean c :
  var_sum t mean c = squares_over_channel t mean c.
Proof.
  unfold var_sum, serial_reduce, channel_coords.
  apply foldl_coords_nested.
Qed.

Lemma dotp_over input grad_out mean c :
  dotp input grad_out mean c = dot_over_channel input grad_out mean c.
Proof.
  unfold dotp, serial_reduce, channel_coords.
  apply foldl_coords_nested.
Qed.
End OverChannel.

(** ** Statistics: the variance estimators and the running averages *)



(** Nor is overflow the only way: for the batch [underflowing_batch] the
    reduction count is [3], [var_sum] is the finite double [2^-1073],
    and both quotients round to the smallest positive double, which the
    statistics entry point returns as the biased variance and, with
    momentum [1], leaves in the running variance as the unbiased one. *)
Lemma biased_unbiased_coincide_on_underflow :
  let n := (Z.of_nat (numel underflowing_batch)
            / Z.of_nat (size underflowing_batch 1))%Z in
  let vs := squares_over_channel underflowing_batch
              (mean_over_channel underflowing_batch 0) 0 in
  let r := batch_norm_update_stats_cpu underflowing_batch None
             (Some (cpu_double [1] [0]%float)) 1%float in
  n = 3%Z ∧ vs = 0x1p-1073%float
  ∧ (vs / of_int64 n)%sc = 0x1p-1074%float
  ∧ (vs / of_int64 (n - 1))%sc = 0x1p-1074%float
  ∧ (fun '(_, save_var) => data save_var) <$> r.1 = Ok [0x1p-1074%float]
  ∧ data <$> r.2.2 = Some [0x1p-1074%float].
Proof. vm_compute. repeat split; reflexivity. Qed.



(** C3.  With running mean present, the statistics routine leaves in
    each channel [c] of the running mean exactly
    [momentum * batchMean[c] + (1 - momentum) * runningMean[c]], where
    [batchMean[c]], the returned batch mean, is the mean of the elements
    of the channel; a present running variance is blended the same way
    with the unbiased batch variance, the sum of the squared deviations
    from the batch mean divided by [n - 1], and absent running
    statistics stay absent.  On doubles, momentum [0.1], running mean
    [[0]] and a batch of mean [4] leave the running mean [[0.4]].  The
    statement is for the instantiation at [double] and for running
    statistics that the accessor of the routine accepts. *)
Theorem running_mean_blend :
  (∀ (T : Type) (HT : Scalar T) (VarTransform : T → T → T)
     (input : Tensor T) (running_mean running_var : option (Tensor T))
     (momentum eps : T) (c : nat),
     well_formed input →
     is_cuda input = false → scalar_type input = kDouble →
     c < size input 1 →
     accessor_vector input running_mean →
     accessor_vector input running_var →
     let n := (Z.of_nat (numel input) / Z.of_nat (size input 1))%Z in
     let r := batch_norm_cpu_update_stats_template VarTransform input
                running_mean running_var momentum eps in
     let batchMean := at1 r.1.1.1 c in
     let unbiased_var :=
       (squares_over_channel input batchMean c / of_int64 (n - 1))%sc in
     batchMean = mean_over_channel input c
     ∧ (fun t => at1 t c) <$> r.1.2
       = (fun t => (momentum * batchMean
                    + (sc1 - momentum) * at1 t c)%sc) <$> running_mean
     ∧ (fun t => at1 t c) <$> r.2
       = (fun t => (momentum * unbiased_var
                    + (sc1 - momentum) * at1 t c)%sc) <$> running_var)
  ∧ (let input := cpu_double [2; 1; 1] [3; 5]%float in
     let running_mean := cpu_double [1] [0]%float in
     let r := batch_norm_update_stats_cpu input (Some running_mean) None
                0.1%float in
     (fun '(save_mean, _) => data save_mean) <$> r.1 = Ok [4%float]
     ∧ data <$> r.2.1 = Some [0.4%float]).
Proof.
  split.
  - intros T HT VT input rm rv momentum eps c Hwf Hcpu Hty Hc Hrm Hrv n r
      batchMean ub.
    destruct (update_stats_template_spec VT input rm rv momentum eps c
                Hc (fun t => accessor_vector_length input rm t Hrm)
                (fun t => accessor_vector_length input rv t Hrv))
      as (Hmean & _ & Hrm' & Hrv').
    cbv zeta in Hmean, Hrm', Hrv'.
    rewrite channel_mean_over in Hmean, Hrm', Hrv'.
    rewrite var_sum_over in Hrv'.
    subst batchMean ub r. rewrite Hmean. split; [done|]. split; [exact Hrm'|exact Hrv'].
  - vm_compute. split; reflexivity.
Qed.

Lemma running_mean_blend_witness :
  let input := cpu_double [1; 2; 2] [1; 2; 10; 20]%float in
  let running_mean := cpu_double [2] [0; 8]%float in
  let running_var := cpu_double [2] [1; 1]%float in
  let r := batch_norm_cpu_update_stats_template InvStd input
             (Some running_mean) (Some running_var) 0.5%float 0%float in
  let batchMean := at1 r.1.1.1 1 in
  let unbiased_var :=
    (squares_over_channel input batchMean 1 / of_int64 (2 - 1))%sc in
  batchMean = mean_over_channel input 1
  ∧ (fun t => at1 t 1) <$> r.1.2
    = Some (0.5%float * batchMean
            + (sc1 - 0.5%float) * at1 running_mean 1)%sc
  ∧ (fun t => at1 t 1) <$> r.2
    = Some (0.5%float * unbiased_var
            + (sc1 - 0.5%float) * at1 running_var 1)%sc.
Proof.
  apply (proj1 running_mean_blend float _ InvStd
           (cpu_double [1; 2; 2] [1; 2; 10; 20]%float)
           (Some (cpu_double [2] [0; 8]%float))
           (Some (cpu_double [2] [1; 1]%float)) 0.5%float 0%float 1).
  - split; vm_compute; [lia|reflexivity].
  - reflexivity.
  - reflexivity.
  - vm_compute. lia.
  - vm_compute. repeat split; reflexivity.
  - vm_compute. repeat split; reflexivity.
Defined.

(** C10.  When the running variance is present and the reduction count
    is [n = 1], the statistics routine still returns, and the running
    variance of each channel is blended with [var_sum / (n - 1)], a
    division by the integer zero converted to the scalar type: the
    update is neither skipped nor rejected.  On doubles that divisor is
    [0.0], and a one-element batch leaves a NaN in the running
    variance.  The statement is for the instantiation at [double] and
    for running statistics that the accessor of the routine accepts. *)
Theorem running_var_unguarded_division :
  (∀ (T : Type) (HT : Scalar T) (VarTransform : T → T → T)
     (input : Tensor T) (running_mean : option (Tensor T))
     (running_var : Tensor T) (momentum eps : T) (c : nat),
     well_formed input →
     is_cuda input = false → scalar_type input = kDouble →
     c < size input 1 →
     accessor_vector input running_mean →
     accessor_vector input (Some running_var) →
     (Z.of_nat (numel input) / Z.of_nat (size input 1) = 1)%Z →
     let vs := squares_over_channel input (mean_over_channel input c) c in
     let r := batch_norm_cpu_update_stats_template VarTransform input
                running_mean (Some running_var) momentum eps in
     ∃ running_var', r.2 = Some running_var'
       ∧ at1 running_var' c
         = (momentum * (vs / of_int64 (1 - 1))
            + (sc1 - momentum) * at1 running_var c)%sc)
  ∧ (of_int64 (1 - 1) = 0%float
     ∧ let input := cpu_double [1; 1; 1] [7]%float in
       let r := batch_norm_update_stats_cpu input None
                  (Some (cpu_double [1] [1]%float)) 0.1%float in
       is_err r.1 = false
       ∧ (fun t => is_nan (at1 t 0)) <$> r.2.2 = Some true).
Proof.
  split.
  - intros T HT VT input rm rv momentum eps c Hwf Hcpu Hty Hc Hrm Hrv Hn vs r.
    destruct (update_stats_template_spec VT input rm (Some rv) momentum
                eps c Hc (fun t => accessor_vector_length input rm t Hrm)
                (fun t => accessor_vector_length input (Some rv) t Hrv))
      as (_ & _ & _ & Hrv').
    rewrite channel_mean_over, var_sum_over in Hrv'.
    fold r in Hrv'. rewrite Hn in Hrv'. fold vs in Hrv'.
    destruct r.2 as [rv'|]; [|discriminate].
    exists rv'. split; [done|]. simpl in Hrv'. by injection Hrv'.
  - vm_compute. repeat split; reflexivity.
Qed.

Lemma running_var_unguarded_division_witness :
  let input := cpu_double [1; 2; 1] [7; 9]%float in
  let r := batch_norm_cpu_update_stats_template Var input None
             (Some (cpu_double [2] [1; 1]%float)) 0.5%float 0%float in
  ∃ running_var', r.2 = Some running_var'
    ∧ at1 running_var' 1
      = (0.5%float
         * (squares_over_channel input (mean_over_channel input 1) 1
            / of_int64 (1 - 1))
         + (sc1 - 0.5%float) * at1 (cpu_double [2] [1; 1]%float) 1)%sc.
Proof.
  apply (proj1 running_var_unguarded_division float _ Var
           (cpu_double [1; 2; 1] [7; 9]%float) None
           (cpu_double [2] [1; 1]%float) 0.5%float 0%float 1).
  - split; vm_compute; [lia|reflexivity].
  - reflexivity.
  - reflexivity.
  - vm_compute. lia.
  - exact I.
  - vm_compute. repeat split; reflexivity.
  - vm_compute. reflexivity.
Defined.

(** ** The variance transform of each entry point *)

Lemma update_stats_template_shapes {T} `{Scalar T} VT (input : Tensor T)
    rm rv momentum eps :
  let r := batch_norm_cpu_update_stats_template VT input rm rv momentum eps in
  r.1.1.1 = at_mean input ∧ sizes r.1.1.2 = [size input 1].
Proof.
  simpl. unfold batch_norm_cpu_update_stats_template.
  rewrite update_stats_fold. simpl. split; [done|].
  by destruct (foldl_set_step_shape
    (fun f _ => VT (var_sum input (at1 (at_mean input) f) f
                    / of_int64 (Z.of_nat (numel input)
                                / Z.of_nat (size input 1)))%sc eps)
    (empty [size input 1] (is_cuda input) (scalar_type input) Contiguous)
    (seq 0 (size input 1))) as [-> _].
Qed.

(** A training call of [batch_norm_cpu] on well-shaped CPU operands
    succeeds: it returns the output of the generic path together with the
    statistics the statistics routine computed with [InvStd]. *)
Lemma batch_norm_cpu_train {T} `{Scalar T} stub (input : Tensor T)
    weight bias rm rv momentum eps :
  is_cuda input = false → floating_type (scalar_type input) = true →
  channel_vector input weight → channel_vector input bias →
  running_vector input rm → running_vector input rv →
  let r := batch_norm_cpu_update_stats_template InvStd input rm rv
             momentum eps in
  batch_norm_cpu stub input weight bias rm rv true momentum eps
  = (Ok (broadcast_kernel input r.1.1.1 r.1.1.2 weight bias,
         Some r.1.1.1, Some r.1.1.2), (r.1.2, r.2)).
Proof.
  intros Hcpu Hty Hw Hb Hrm Hrv r.
  destruct (update_stats_template_shapes InvStd input rm rv momentum eps)
    as [Hmean Hsz]. fold r in Hmean, Hsz.
  unfold batch_norm_cpu, checkBackend.
  assert (forallb (fun t : option (Tensor T) =>
            match t with Some t => negb (is_cuda t) | None => true end)
            [Some input; weight; bias; rm; rv] = true) as ->.
  { simpl. rewrite Hcpu. simpl.
    destruct weight as [w|], bias as [b|], rm as [m|], rv as [v|];
      simpl in *; repeat match goal with
                         | Hx : _ ∧ _ |- _ => destruct Hx as [-> ?]
                         end; done. }
  rewrite Hty. simpl negb. cbv iota.
  fold r. destruct r as [[[save_mean save_invstd] rm'] rv'] eqn:Er.
  simpl in Hmean, Hsz. simpl.
  unfold batch_norm_cpu_transform_input_template. simpl.
  unfold as_nd at 1 2.
  assert (dim save_mean = 1 ∧ size save_mean 0 = size input 1) as [-> ->].
  { subst save_mean. done. }
  assert (dim save_invstd = 1 ∧ size save_invstd 0 = size input 1)
    as [-> ->].
  { unfold dim, size. by rewrite Hsz. }
  rewrite !bool_decide_eq_true_2 by done. simpl.
  destruct weight as [w|], bias as [b|]; simpl in *;
    repeat match goal with
           | Hx : _ ∧ _ ∧ _ ∧ _ |- _ => destruct Hx as (_ & -> & -> & _)
           end;
    rewrite ?bool_decide_eq_true_2 by done; done.
Qed.

Lemma broadcast_kernel_at {T} `{Scalar T} (input mean invstd : Tensor T)
    (w b : option (Tensor T)) (n c s : nat) :
  2 ≤ dim input →
  n < size input 0 → c < size input 1 → s < inner input →
  get (broadcast_kernel input mean invstd w b) n c s
  = transform_element (get input n c s) (at1 mean c) (at1 invstd c)
      (match w with Some w => at1 w c | None => sc1 end)
      (match b with Some b => at1 b c | None => sc0 end).
Proof.
  intros Hd Hn Hc Hs. unfold get at 1.
  set (out := broadcast_kernel input mean invstd w b).
  assert (sizes out = sizes input) as Hsz by reflexivity.
  rewrite offset_row_major by (unfold row_major; by subst out).
  unfold size at 1, inner at 1. rewrite Hsz.
  fold (size input 1) (inner input).
  set (C := size input 1) in *. set (S := inner input) in *.
  subst out. unfold broadcast_kernel. simpl. fold C S.
  assert ((n * C + c) * S + s < numel input) as Hlt.
  { rewrite numel_split by done. by apply row_major_lt. }
  erewrite (list_lookup_total_fmap _ (seq 0 (numel input)))
    by (by rewrite length_seq).
  rewrite lookup_total_seq_lt by done. simpl.
  assert (((n * C + c) * S + s) / S = n * C + c) as ->.
  { symmetry. apply (Nat.div_unique _ S _ s); lia. }
  assert ((n * C + c) `mod` C = c) as ->.
  { symmetry. apply (Nat.mod_unique _ C n c); lia. }
  assert (((n * C + c) * S + s) `mod` S = s) as ->.
  { symmetry. apply (Nat.mod_unique _ S (n * C + c) s); lia. }
  assert (((n * C + c) * S + s) / (C * S) = n) as ->.
  { symmetry. apply (Nat.div_unique _ (C * S) _ (c * S + s)); nia. }
  done.
Qed.

(** X2.  A training call of [batch_norm_cpu] on well-shaped CPU operands
    returns the batch mean and [InvStd] of the biased batch variance as
    saved statistics, and its output at every element is
    [((x - mean[c]) * invstd[c]) * weight[c] + bias[c]] with these batch
    statistics, weight [1] and bias [0] when absent.  The statement is
    for a [double] input, whose accumulation type is [double] again, and
    for parameters and running statistics that are CPU vectors of the
    type of the input with one axis and one element per channel, as the
    accessor of the statistics routine and the iterator of the
    transform want them. *)
Theorem training_forward (T : Type) (HT : Scalar T)
    (stub : Tensor T → Tensor T → option (Tensor T) → option (Tensor T) →
            Tensor T → Tensor T → T → Tensor T)
    (input : Tensor T) (weight bias running_mean running_var
     : option (Tensor T)) (momentum eps : T) (n c s : nat) :
  well_formed input →
  is_cuda input = false → scalar_type input = kDouble →
  accessor_vector input weight → accessor_vector input bias →
  accessor_vector input running_mean → accessor_vector input running_var →
  n < size input 0 → c < size input 1 → s < inner input →
  let count := (Z.of_nat (numel input) / Z.of_nat (size input 1))%Z in
  let mean := mean_over_channel input c in
  let invstd :=
    InvStd (squares_over_channel input mean c / of_int64 count)%sc eps in
  ∃ output save_mean save_invstd,
    (batch_norm_cpu stub input weight bias running_mean running_var true
       momentum eps).1
    = Ok (output, Some save_mean, Some save_invstd)
    ∧ at1 save_mean c = mean ∧ at1 save_invstd c = invstd
    ∧ get output n c s
      = transform_element (get input n c s) mean invstd
          (match weight with Some w => at1 w c | None => sc1 end)
          (match bias with Some b => at1 b c | None => sc0 end).
Proof.
  intros [Hd Hlen] Hcpu Hty Hw Hb Hrm Hrv Hn Hc Hs count mean invstd.
  apply accessor_vector_channel in Hw, Hb.
  rewrite (batch_norm_cpu_train stub input weight bias running_mean
             running_var momentum eps)
    by auto using double_is_floating, accessor_vector_running.
  destruct (update_stats_template_spec InvStd input running_mean
              running_var momentum eps c Hc
              (fun t => accessor_vector_length input running_mean t Hrm)
              (fun t => accessor_vector_length input running_var t Hrv))
    as (Hmean & Hsvt & _).
  cbv zeta in Hmean, Hsvt.
  rewrite channel_mean_over in Hmean, Hsvt. rewrite var_sum_over in Hsvt.
  simpl. eexists _, _, _. split; [reflexivity|].
  split; [exact Hmean|]. split; [exact Hsvt|].
  rewrite broadcast_kernel_at by done. by rewrite Hmean, Hsvt.
Qed.

Lemma training_forward_witness :
  let input := cpu_double [2; 1; 1] [3; 5]%float in
  let weight := Some (cpu_double [1] [2]%float) in
  let running_mean := Some (cpu_double [1] [0]%float) in
  let mean := mean_over_channel input 0 in
  let invstd :=
    InvStd (squares_over_channel input mean 0 / of_int64 2)%sc 0%float in
  ∃ output save_mean save_invstd,
    (batch_norm_cpu (fun out _ _ _ _ _ _ => out) input weight None
       running_mean None true 0.5%float 0%float).1
    = Ok (output, Some save_mean, Some save_invstd)
    ∧ at1 save_mean 0 = mean ∧ at1 save_invstd 0 = invstd
    ∧ get output 1 0 0
      = transform_element (get input 1 0 0) mean invstd 2%float sc0.
Proof.
  apply (training_forward float _ (fun out _ _ _ _ _ _ => out)
           (cpu_double [2; 1; 1] [3; 5]%float)
           (Some (cpu_double [1] [2]%float)) None
           (Some (cpu_double [1] [0]%float)) None 0.5%float
           0%float 1 0 0).
  - split; vm_compute; [lia|reflexivity].
  - reflexivity.
  - reflexivity.
  - vm_compute. repeat split; reflexivity.
  - exact I.
  - vm_compute. repeat split; reflexivity.
  - exact I.
  - vm_compute. lia.
  - vm_compute. lia.
  - vm_compute. lia.
Defined.

(** C4, as stated, fails on doubles: with variance and epsilon both zero
    the guard of [InvStd] yields [0], while [1 / sqrt(0 + 0)] is
    infinite. *)
Lemma InvStd_zero_variance_zero_epsilon :
  InvStd 0%float 0%float = 0%float
  ∧ (sc1 / ssqrt (0%float + 0%float))%sc = infinity
  ∧ InvStd 0%float 0%float ≠ (sc1 / ssqrt (0%float + 0%float))%sc.
Proof.
  split; [reflexivity|]. split; [reflexivity|].
  intros Heq. apply (f_equal is_zero) in Heq. vm_compute in Heq.
  discriminate.
Qed.

(** C4, amended.  [InvStd] yields [1 / sqrt(var + eps)] unless the
    variance and epsilon both compare equal to zero, in which case it
    yields [0]; [Var] yields the variance itself.  The standalone
    statistics entry point returns, for every channel, the biased
    variance unchanged (identity policy), and a training call of the
    forward entry point returns, for every channel, [InvStd] of the
    biased variance, the statistic the forward transform is fed with.
    The two entry points are taken at a [double] input, whose
    accumulation type is [double] again, with parameters and running
    statistics that are CPU vectors of the type of the input with one
    axis and one element per channel. *)
Theorem var_transform_policies (T : Type) (HT : Scalar T)
    (stub : Tensor T → Tensor T → option (Tensor T) → option (Tensor T) →
            Tensor T → Tensor T → T → Tensor T)
    (input : Tensor T) (weight bias running_mean running_var
     : option (Tensor T)) (momentum eps : T) (c : nat) :
  well_formed input → c < size input 1 →
  is_cuda input = false → scalar_type input = kDouble →
  accessor_vector input weight → accessor_vector input bias →
  accessor_vector input running_mean → accessor_vector input running_var →
  let n := (Z.of_nat (numel input) / Z.of_nat (size input 1))%Z in
  let biased_var :=
    (squares_over_channel input (mean_over_channel input c) c
     / of_int64 n)%sc in
  (∀ var epsilon : T,
     InvStd var epsilon
     = if sneqb var sc0 || sneqb epsilon sc0
       then (sc1 / ssqrt (var + epsilon))%sc else sc0)
  ∧ (∀ var epsilon : T, Var var epsilon = var)
  ∧ (fun p : Tensor T * Tensor T => at1 p.2 c)
      <$> (batch_norm_update_stats_cpu input running_mean running_var
             momentum).1
    = Ok biased_var
  ∧ (fun p : Tensor T * option (Tensor T) * option (Tensor T) =>
        (fun t => at1 t c) <$> p.2)
      <$> (batch_norm_cpu stub input weight bias running_mean running_var
             true momentum eps).1
    = Ok (Some (if sneqb biased_var sc0 || sneqb eps sc0
                then (sc1 / ssqrt (biased_var + eps))%sc else sc0)).
Proof.
  intros Hwf Hc Hcpu Hty Hw Hb Hrm Hrv n biased_var.
  apply accessor_vector_channel in Hw, Hb.
  pose proof (fun t => accessor_vector_length input running_mean t Hrm)
    as Hrm'.
  pose proof (fun t => accessor_vector_length input running_var t Hrv)
    as Hrv'.
  subst biased_var. rewrite <- channel_mean_over, <- var_sum_over.
  split; [done|]. split; [done|]. split.
  - unfold batch_norm_update_stats_cpu.
    rewrite (double_is_floating _ Hty).
    destruct (update_stats_template_spec Var input running_mean
                running_var momentum sc0 c Hc Hrm' Hrv')
      as (_ & Hsvt & _).
    destruct (batch_norm_cpu_update_stats_template Var input running_mean
                running_var momentum sc0) as [[[sm sv] rm'] rv'].
    simpl in *. by rewrite Hsvt.
  - rewrite (batch_norm_cpu_train stub input weight bias running_mean
               running_var momentum eps)
      by auto using double_is_floating, accessor_vector_running.
    destruct (update_stats_template_spec InvStd input running_mean
                running_var momentum eps c Hc Hrm' Hrv')
      as (_ & Hsvt & _).
    simpl. by rewrite Hsvt.
Qed.

Lemma var_transform_policies_witness :
  let input := cpu_double [2; 1; 1] [3; 3]%float in
  let biased_var :=
    (squares_over_channel input (mean_over_channel input 0) 0
     / of_int64 2)%sc in
  (∀ var epsilon : float,
     InvStd var epsilon
     = if sneqb var sc0 || sneqb epsilon sc0
       then (sc1 / ssqrt (var + epsilon))%sc else sc0)
  ∧ (∀ var epsilon : float, Var var epsilon = var)
  ∧ (fun p : Tensor float * Tensor float => at1 p.2 0)
      <$> (batch_norm_update_stats_cpu input None None 0.5%float).1
    = Ok biased_var
  ∧ (fun p : Tensor float * option (Tensor float) * option (Tensor float) =>
        (fun t => at1 t 0) <$> p.2)
      <$> (batch_norm_cpu (fun out _ _ _ _ _ _ => out) input None None
             None None true 0.5%float 0%float).1
    = Ok (Some (if sneqb biased_var sc0 || sneqb 0%float sc0
                then (sc1 / ssqrt (biased_var + 0%float))%sc else sc0)).
Proof.
  apply (var_transform_policies float _ (fun out _ _ _ _ _ _ => out)
           (cpu_double [2; 1; 1] [3; 3]%float) None None None None
           0.5%float 0%float 0).
  - split; vm_compute; [lia|reflexivity].
  - vm_compute. lia.
  - reflexivity.
  - reflexivity.
  - exact I.
  - exact I.
  - exact I.
  - exact I.
Defined.

(** ** renorm: the checks of the meta function *)

(** C9, as stated, fails on doubles: a NaN [p] is neither complex nor
    [<= 0], [maxnorm = 1] is neither complex nor negative and the input
    has two axes, yet the call is rejected. *)
Lemma renorm_rejects_nan_p :
  let self := cpu_double [2; 2] [1; 2; 3; 4]%float in
  let p := ScalarDouble nan in
  let maxnorm := ScalarDouble 1%float in
  isComplex p = false ∧ sleb (scalar_value p) sc0 = false
  ∧ isComplex maxnorm = false ∧ sltb (scalar_value maxnorm) sc0 = false
  ∧ 2 ≤ dim self
  ∧ renorm_meta self p 0 maxnorm
    = Err "renorm: non-positive-norm not supported".
Proof. vm_compute. repeat split; reflexivity || lia. Qed.

(** Nor does every call that passes the checks return: the meta function
    does not look at [dim], and an axis outside [[-ndim, ndim - 1]] is
    rejected by the implementation, whatever the kernels are. *)
Lemma renorm_rejects_axis_out_of_range
    (toAccumulateType toValueType : ScalarType → ScalarType)
    (linalg_vector_norm : Tensor float → float → list Z → bool →
                          option ScalarType → result (Tensor float))
    (renorm_scale_factor_stub : Tensor float → Tensor float → float →
                                Tensor float)
    (mul_outf : Tensor float → Tensor float → Tensor float →
                result (Tensor float)) :
  let self := cpu_double [2; 2] [1; 2; 3; 4]%float in
  let p := ScalarDouble 2%float in
  let maxnorm := ScalarDouble 1%float in
  renorm_meta self p 5 maxnorm = Ok [2; 2]
  ∧ renorm toAccumulateType toValueType linalg_vector_norm
      renorm_scale_factor_stub mul_outf self p 5 maxnorm
    = Err "Dimension out of range".
Proof. split; reflexivity. Qed.

Section RenormChecks.
Context {T : Type} `{Scalar T}.
Variable toAccumulateType : ScalarType → ScalarType.
Variable toValueType : ScalarType → ScalarType.
Variable linalg_vector_norm :
  Tensor T → T → list Z → bool → option ScalarType → result (Tensor T).
Variable renorm_scale_factor_stub : Tensor T → Tensor T → T → Tensor T.
Variable mul_outf : Tensor T → Tensor T → Tensor T → result (Tensor T).

Lemma renorm_meta_spec (self : Tensor T) (p : c10_Scalar T) (dim_ : Z)
    (maxnorm : c10_Scalar T) :
  if negb (isComplex p) && (scalar_value p >? sc0)%sc
     && negb (isComplex maxnorm) && (scalar_value maxnorm >=? sc0)%sc
     && bool_decide (2 ≤ dim self)
  then renorm_meta self p dim_ maxnorm = Ok (sizes self)
  else ∃ msg, renorm_meta self p dim_ maxnorm = Err msg.
Proof.
  assert (bool_decide (1 < dim self) = bool_decide (2 ≤ dim self)) as Hd.
  { apply bool_decide_ext. lia. }
  unfold renorm_meta, TORCH_CHECK. rewrite Hd.
  destruct p as [pv|pz|pre pim|pb]; simpl; eauto.
  all: match goal with
       | |- context [sltb sc0 ?v] => destruct (sltb sc0 v); simpl
       end; eauto.
  all: destruct maxnorm as [mv|mz|mre mim|mb]; simpl; eauto.
  all: match goal with
       | |- context [sleb sc0 ?v] => destruct (sleb sc0 v); simpl
       end; eauto.
  all: destruct (bool_decide (2 ≤ dim self)); simpl; eauto.
Qed.

Lemma renorm_out_impl_range (self : Tensor T) (p : c10_Scalar T)
    (dim_ : Z) (maxnorm : c10_Scalar T) (out : Tensor T) :
  ¬ (- Z.of_nat (dim self) ≤ dim_ < Z.of_nat (dim self))%Z →
  is_err (renorm_out_impl toAccumulateType toValueType linalg_vector_norm
            renorm_scale_factor_stub mul_outf self p dim_ maxnorm out)
  = true.
Proof.
  intros Hr. unfold renorm_out_impl, renorm_reduce_dims, maybe_wrap_dim.
  fold (dim self).
  by rewrite (bool_decide_eq_false_2
                (- Z.of_nat (dim self) ≤ dim_ < Z.of_nat (dim self))%Z).
Qed.

Lemma renorm_out_impl_shape (self : Tensor T) (p : c10_Scalar T)
    (dim_ : Z) (maxnorm : c10_Scalar T) (out r : Tensor T) :
  writes_into_out mul_outf →
  renorm_out_impl toAccumulateType toValueType linalg_vector_norm
    renorm_scale_factor_stub mul_outf self p dim_ maxnorm out = Ok r →
  sizes r = sizes out.
Proof.
  intros Hmul. unfold renorm_out_impl.
  destruct (renorm_reduce_dims dim_ (length (sizes self))) as [rd|];
    simpl; [|discriminate].
  destruct (toDouble p) as [pd|]; simpl; [|discriminate].
  destruct (if negb (bool_decide
                       (toAccumulateType (scalar_type self)
                        = scalar_type self))
            then linalg_vector_norm self pd rd true
                   (Some (toAccumulateType (scalar_type self)))
            else linalg_vector_norm self pd rd true None) as [norm|];
    simpl; [|discriminate].
  destruct (toDouble maxnorm) as [md|]; simpl; [|discriminate].
  apply Hmul.
Qed.

(** C9, amended.  [renorm] is rejected by its meta function, with the
    failure of that function and whatever the kernels that compute the
    norms are, whenever [p] is complex or the comparison [p > 0] does
    not hold ([p <= 0] or [p] is a NaN), or [maxnorm] is complex or the
    comparison [maxnorm >= 0] does not hold (negative or a NaN), or the
    input has fewer than two axes.  Otherwise the meta function declares
    an output of the shape of the input and the call is the call of the
    implementation on that output: it is rejected when [dim] is outside
    [[-ndim, ndim - 1]], and when it succeeds with a multiplication
    kernel that writes into the output it is given, its result has the
    shape of the input. *)
Theorem renorm_checks (self : Tensor T) (p : c10_Scalar T) (dim_ : Z)
    (maxnorm : c10_Scalar T) :
  let accepted :=
    negb (isComplex p) && (scalar_value p >? sc0)%sc
    && negb (isComplex maxnorm) && (scalar_value maxnorm >=? sc0)%sc
    && bool_decide (2 ≤ dim self) in
  let ndim := Z.of_nat (dim self) in
  let out :=
    empty (sizes self) (is_cuda self) (scalar_type self) Contiguous in
  let run :=
    renorm toAccumulateType toValueType linalg_vector_norm
      renorm_scale_factor_stub mul_outf self p dim_ maxnorm in
  (accepted = false →
     ∃ msg, renorm_meta self p dim_ maxnorm = Err msg ∧ run = Err msg)
  ∧ (accepted = true →
     renorm_meta self p dim_ maxnorm = Ok (sizes self)
     ∧ run = renorm_out_impl toAccumulateType toValueType
               linalg_vector_norm renorm_scale_factor_stub mul_outf
               self p dim_ maxnorm out
     ∧ (¬ (- ndim ≤ dim_ < ndim)%Z → is_err run = true)
     ∧ (writes_into_out mul_outf →
        ∀ result, run = Ok result → sizes result = sizes self)).
Proof.
  intros accepted ndim out run.
  pose proof (renorm_meta_spec self p dim_ maxnorm) as Hmeta.
  fold accepted in Hmeta. subst run. unfold renorm.
  destruct accepted; (split; [intros Ha|intros Ha]); try discriminate.
  - rewrite Hmeta. simpl. fold out. split; [done|]. split; [done|].
    split; [apply renorm_out_impl_range|].
    intros Hmul result Hrun.
    by rewrite (renorm_out_impl_shape _ _ _ _ _ _ Hmul Hrun).
  - destruct Hmeta as [msg Hmeta]. exists msg. by rewrite Hmeta.
Qed.
End RenormChecks.

Lemma renorm_checks_witness :
  let self := cpu_double [2; 2] [1; 2; 3; 4]%float in
  let p := ScalarDouble 2%float in
  let maxnorm := ScalarDouble 1%float in
  let out := empty [2; 2] false kDouble Contiguous in
  let norm := fun (t : Tensor float) (_ : float) (_ : list Z) (_ : bool)
                  (_ : option ScalarType) => Ok t in
  let scale := fun (factor _ : Tensor float) (_ : float) => factor in
  let mul := fun (a _ out : Tensor float) => Ok (with_data out (data a)) in
  let run := renorm (fun ty => ty) (fun ty => ty) norm scale mul
               self p 1 maxnorm in
  renorm_meta self p 1 maxnorm = Ok (sizes self)
  ∧ run = renorm_out_impl (fun ty => ty) (fun ty => ty) norm scale mul
            self p 1 maxnorm out
  ∧ (¬ (- Z.of_nat (dim self) ≤ 1 < Z.of_nat (dim self))%Z →
     is_err run = true)
  ∧ (writes_into_out mul →
     ∀ result, run = Ok result → sizes result = sizes self).
Proof.
  apply (proj2 (renorm_checks (fun ty => ty) (fun ty => ty)
           (fun t _ _ _ _ => Ok t) (fun factor _ _ => factor)
           (fun a _ out => Ok (with_data out (data a)))
           (cpu_double [2; 2] [1; 2; 3; 4]%float) (ScalarDouble 2%float)
           1%Z (ScalarDouble 1%float))).
  vm_compute. reflexivity.
Defined.

(** ** The backend selector *)

(** C8.  [_batch_norm_impl_index_backward] routes tag [0] to the native
    backward (on a CPU input, the backward kernel of this file), tag [1]
    to the cuDNN backward, tag [2] to the MIOpen backward, and fails its
    internal assertion, computing nothing, on every other tag. *)
Theorem backward_routing (T : Type) (HT : Scalar T)
    (batch_norm_backward_cuda :
       Tensor T → Tensor T → option (Tensor T) → option (Tensor T) →
       option (Tensor T) → option (Tensor T) → option (Tensor T) →
       bool → T → bool * bool * bool → backward3 T)
    (cudnn_batch_norm_backward :
       Tensor T → Tensor T → option (Tensor T) → option (Tensor T) →
       option (Tensor T) → option (Tensor T) → option (Tensor T) →
       T → Tensor T → backward3 T)
    (miopen_batch_norm_backward :
       Tensor T → Tensor T → option (Tensor T) → option (Tensor T) →
       option (Tensor T) → option (Tensor T) → option (Tensor T) →
       T → backward3 T)
    (impl_index : Z) (input grad_output : Tensor T)
    (weight running_mean running_var save_mean save_var_transform
     : option (Tensor T))
    (train : bool) (epsilon : T) (output_mask : bool * bool * bool)
    (reservedSpace : Tensor T) :
  let r := _batch_norm_impl_index_backward batch_norm_backward_cuda
             cudnn_batch_norm_backward miopen_batch_norm_backward
             impl_index input grad_output weight running_mean running_var
             save_mean save_var_transform train epsilon output_mask
             reservedSpace in
  (impl_index = 0%Z →
     r = native_batch_norm_backward batch_norm_backward_cuda
           grad_output input weight running_mean running_var save_mean
           save_var_transform train epsilon output_mask
     ∧ (is_cuda input = false →
        r = batch_norm_backward_cpu grad_output input weight running_mean
              running_var save_mean save_var_transform train epsilon
              output_mask))
  ∧ (impl_index = 1%Z →
     r = cudnn_batch_norm_backward input grad_output weight running_mean
           running_var save_mean save_var_transform epsilon reservedSpace)
  ∧ (impl_index = 2%Z →
     r = miopen_batch_norm_backward input grad_output weight running_mean
           running_var save_mean save_var_transform epsilon)
  ∧ (impl_index ≠ 0%Z → impl_index ≠ 1%Z → impl_index ≠ 2%Z →
     r = Err ("Unsupported impl_index in _batch_norm_impl_index_backward: "
              +:+ pretty impl_index)).
Proof.
  intros r. subst r. unfold _batch_norm_impl_index_backward.
  split; [|split; [|split]].
  - intros ->. split; [done|].
    intros Hcpu. simpl. unfold native_batch_norm_backward.
    by rewrite Hcpu.
  - intros ->. done.
  - intros ->. done.
  - intros H0 H1 H2. by rewrite !bool_decide_eq_false_2.
Qed.

Section SelectorFacts.
Context {T : Type} `{Scalar T}.

Lemma check_dims_ok name expected actual :
  actual = expected →
  check_dims_match_num_input_features name expected actual = Ok ().
Proof.
  intros ->. unfold check_dims_match_num_input_features.
  by rewrite bool_decide_eq_true_2.
Qed.

Lemma check_dims_err name expected actual :
  actual ≠ expected →
  ∃ msg, check_dims_match_num_input_features name expected actual
         = Err msg.
Proof.
  intros Hne. unfold check_dims_match_num_input_features.
  rewrite bool_decide_eq_false_2 by done. eauto.
Qed.

Lemma check_parameters_spec (input : Tensor T)
    (weight bias running_mean running_var : option (Tensor T))
    (training : bool) :
  let rejected :=
    count_mismatch input weight ∨ count_mismatch input bias
    ∨ count_mismatch input running_mean ∨ count_mismatch input running_var
    ∨ missing_in_evaluation training running_mean
    ∨ missing_in_evaluation training running_var in
  (rejected →
     ∃ msg, check_parameters input weight bias running_mean running_var
              training = Err msg)
  ∧ (¬ rejected →
     check_parameters input weight bias running_mean running_var training
     = Ok ()).
Proof.
  intros rejected. subst rejected.
  unfold check_parameters, missing_in_evaluation, count_mismatch.
  destruct running_mean as [rm|], running_var as [rv|], weight as [w|],
    bias as [b|], training;
    repeat match goal with
    | |- context [check_dims_match_num_input_features ?n ?e ?a] =>
        destruct (decide (a = e));
        [ rewrite (check_dims_ok n e a) by done
        | let m := fresh "m" in
          destruct (check_dims_err n e a) as [m ->]; [done|] ]
    end;
    simpl;
    (split;
     [ intros Hr; first [by eauto | exfalso; intuition congruence]
     | intros Hn; first [done | exfalso; apply Hn; intuition congruence] ]).
Qed.

Variable compiledWithCuDNN : bool.
Variable batchnormMinEpsilonCuDNN : T.
Variable versionCuDNN : Z.
Variable compiledWithMIOpen : bool.
Variable batch_norm_cpu_inference_contiguous_stub :
  Tensor T → Tensor T → option (Tensor T) → option (Tensor T) →
  Tensor T → Tensor T → T → Tensor T.
Variable cudnn_batch_norm :
  Tensor T → Tensor T → Tensor T → option (Tensor T) → option (Tensor T) →
  bool → T → T → forward4 T.
Variable miopen_batch_norm :
  Tensor T → Tensor T → Tensor T → option (Tensor T) → option (Tensor T) →
  bool → T → T → forward3 T.
Variable batch_norm_cuda :
  Tensor T → option (Tensor T) → option (Tensor T) →
  option (Tensor T) → option (Tensor T) → bool → T → T → forward3 T.


(** C7.  Whenever one of [weight], [bias], [running_mean], [running_var]
    is present with an element count other than [input.sizes()[1]], or
    evaluation mode is requested without [running_mean] or without
    [running_var], [_batch_norm_impl_index] fails with the message of the
    parameter check, whatever the capabilities and the strategies are,
    and hands the running statistics back as it received them: no
    strategy ran and nothing was allocated for one.  In every other case
    the parameter check passes. *)
Theorem validation_precedes_strategies (input : Tensor T)
    (weight bias running_mean running_var : option (Tensor T))
    (training : bool) (momentum eps : T) (cudnn_enabled : bool) :
  2 ≤ dim input →
  let rejected :=
    count_mismatch input weight ∨ count_mismatch input bias
    ∨ count_mismatch input running_mean ∨ count_mismatch input running_var
    ∨ missing_in_evaluation training running_mean
    ∨ missing_in_evaluation training running_var in
  (rejected →
     ∃ msg,
       check_parameters input weight bias running_mean running_var
         training = Err msg
       ∧ _batch_norm_impl_index compiledWithCuDNN batchnormMinEpsilonCuDNN
           versionCuDNN compiledWithMIOpen
           batch_norm_cpu_inference_contiguous_stub cudnn_batch_norm
           miopen_batch_norm batch_norm_cuda
           input weight bias running_mean running_var training momentum
           eps cudnn_enabled
         = (Err msg, (running_mean, running_var)))
  ∧ (¬ rejected →
     check_parameters input weight bias running_mean running_var training
     = Ok ()).
Proof.
  intros Hd rejected.
  destruct (check_parameters_spec input weight bias running_mean
              running_var training) as [Hrej Hok].
  split; [|exact Hok].
  intros Hr. destruct (Hrej Hr) as [msg Hmsg]. exists msg.
  split; [exact Hmsg|].
  unfold _batch_norm_impl_index. by rewrite Hmsg.
Qed.
End SelectorFacts.

(** ** Element-wise kernels over one channel *)

Section SerialKernels.
Context {T : Type} `{Scalar T}.
Implicit Types g inp : Tensor T.

Lemma channel_coords_sizes g inp :
  sizes inp = sizes g → channel_coords inp = channel_coords g.
Proof. unfold channel_coords, size, inner. by intros ->. Qed.

Lemma serial_unary_op_put_step g inp f op :
  serial_unary_op g inp f op
  = foldl (put_step f (fun x _ => op (get inp x.1 f x.2))) g
          (channel_coords inp).
Proof.
  unfold serial_unary_op. apply foldl_ext_eq. by intros o [b s].
Qed.

Lemma serial_binary_op_inplace_put_step g inp f op :
  serial_binary_op_inplace g inp f op
  = foldl (put_step f (fun x old => op old (get inp x.1 f x.2))) g
          (channel_coords inp).
Proof.
  unfold serial_binary_op_inplace. apply foldl_ext_eq. by intros o [b s].
Qed.

Lemma put_step_writable f F g cs :
  writable g →
  writable (foldl (put_step f F) g cs)
  ∧ sizes (foldl (put_step f F) g cs) = sizes g.
Proof.
  intros (Hrm & Hd & Hlen).
  destruct (foldl_put_step_shape f F g cs) as (Hsz & Hfmt & Hl).
  split; [|done]. unfold writable, row_major, dim, numel in *.
  rewrite Hsz, Hfmt, Hl. done.
Qed.

Lemma channel_pass_at f F g inp b s :
  writable g → sizes inp = sizes g → f < size g 1 →
  b < size g 0 → s < inner g →
  get (foldl (put_step f F) g (channel_coords inp)) b f s
  = F (b, s) (get g b f s).
Proof.
  intros (Hrm & Hd & Hlen) Hsz Hf Hb Hs.
  rewrite (channel_coords_sizes g inp Hsz).
  apply foldl_put_step_at; try done.
  - apply NoDup_channel_coords.
  - intros [b' s'] Hx. by apply elem_of_channel_coords in Hx.
  - by apply elem_of_channel_coords.
Qed.

Lemma channel_pass_other f F g inp b c s :
  writable g → sizes inp = sizes g → f < size g 1 →
  c < size g 1 → s < inner g → c ≠ f →
  get (foldl (put_step f F) g (channel_coords inp)) b c s = get g b c s.
Proof.
  intros (Hrm & Hd & Hlen) Hsz Hf Hc Hs Hne.
  rewrite (channel_coords_sizes g inp Hsz).
  apply foldl_put_step_other; try done.
  intros [b' s'] Hx. by apply elem_of_channel_coords in Hx as [_ ?].
Qed.
End SerialKernels.

(** ** A loop over the channels that fills one channel per step *)

Section ChannelLoop.
Context {T : Type} `{Scalar T}.
Variable step : nat → Tensor T → Tensor T.
Variable V : nat → nat → nat → T.
Variable sz : list nat.

Hypothesis step_fillable : ∀ f g, fillable sz g → fillable sz (step f g).
Hypothesis step_at : ∀ f g b s,
  fillable sz g → f < size g 1 → b < size g 0 → s < inner g →
  get (step f g) b f s = V f b s.
Hypothesis step_other : ∀ f g b c s,
  fillable sz g → f < size g 1 → c < size g 1 → s < inner g → c ≠ f →
  get (step f g) b c s = get g b c s.

Lemma channel_loop_fillable g k :
  fillable sz g → fillable sz (foldl (fun g f => step f g) g (seq 0 k)).
Proof using step_fillable.
  intros Hg. induction k as [|k IH]; [done|].
  rewrite seq_S, foldl_snoc. by apply step_fillable.
Qed.

Lemma channel_loop_at g k b c s :
  fillable sz g → k ≤ size g 1 → c < k → b < size g 0 → s < inner g →
  get (foldl (fun g f => step f g) g (seq 0 k)) b c s = V c b s.
Proof using step_fillable step_at step_other.
  intros Hg Hk Hc Hb Hs. induction k as [|k IH]; [lia|].
  rewrite seq_S, foldl_snoc. simpl.
  pose proof (channel_loop_fillable g k Hg) as Hfill.
  assert (size (foldl (fun g f => step f g) g (seq 0 k)) 1 = size g 1
          ∧ size (foldl (fun g f => step f g) g (seq 0 k)) 0 = size g 0
          ∧ inner (foldl (fun g f => step f g) g (seq 0 k)) = inner g)
    as (E1 & E0 & Ei).
  { destruct Hfill as [_ Es], Hg as [_ Eg]. unfold size, inner.
    by rewrite Es, Eg. }
  destruct (decide (c = k)) as [->|Hne].
  - apply step_at; [done|lia..].
  - rewrite step_other; [|done|lia..|done]. apply IH; lia.
Qed.
End ChannelLoop.

(** ** The backward kernel *)

Section BackwardFacts.
Context {T : Type} `{Scalar T}.
Variables grad_out_ input : Tensor T.
Variables weight running_mean running_var save_mean save_invstd
  : option (Tensor T).
Variable train : bool.
Variable eps : T.

Lemma backward_channel_components n sum m0 m1 m2 gi gw gb f :
  backward_channel grad_out_ input weight running_mean running_var
    save_mean save_invstd train eps (m0, m1, m2) n sum (gi, gw, gb) f
  = (if m0 then grad_input_channel grad_out_ input weight running_mean running_var
    save_mean save_invstd train eps n sum f <$> gi else gi,
     if m1 then (fun g => set_step (fun f _ =>
                   (dotp input grad_out_ (mean_of running_mean save_mean train f) f * invstd_of running_var save_invstd train eps f)%sc)
                   g f) <$> gw
     else gw,
     if m2 then (fun g => set_step (fun f _ => at1 sum f) g f) <$> gb
     else gb).
Proof.
  unfold backward_channel, grad_input_channel, mean_of, invstd_of,
    weight_of, set_step.
  by destruct train, m0, m1, m2, gi, gw, gb.
Qed.

Lemma backward_fold n sum m0 m1 m2 gi gw gb l :
  foldl (backward_channel grad_out_ input weight running_mean running_var
           save_mean save_invstd train eps (m0, m1, m2) n sum)
        (gi, gw, gb) l
  = (if m0 then (fun g => foldl (fun g f => grad_input_channel grad_out_ input weight running_mean running_var
    save_mean save_invstd train eps n sum f g)
                            g l) <$> gi
     else gi,
     if m1 then (fun g => foldl (set_step (fun f _ =>
                   (dotp input grad_out_ (mean_of running_mean save_mean train f) f * invstd_of running_var save_invstd train eps f)%sc))
                   g l) <$> gw
     else gw,
     if m2 then (fun g => foldl (set_step (fun f _ => at1 sum f)) g l)
                  <$> gb
     else gb).
Proof.
  revert gi gw gb. induction l as [|f l IH]; intros gi gw gb.
  { by destruct m0, m1, m2, gi, gw, gb. }
  change (foldl ?F ?a (f :: l)) with (foldl F (F a f) l).
  rewrite backward_channel_components, IH.
  by destruct m0, m1, m2, gi, gw, gb.
Qed.

Hypothesis same_shape : sizes grad_out_ = sizes input.

Lemma grad_input_channel_fillable n sum f g :
  fillable (sizes input) g →
  fillable (sizes input) (grad_input_channel grad_out_ input weight running_mean running_var
    save_mean save_invstd train eps n sum f g).
Proof.
  intros [Hw Hsz]. unfold grad_input_channel, fillable.
  rewrite serial_binary_op_inplace_put_step, !serial_unary_op_put_step.
  destruct train.
  - edestruct (put_step_writable f) as [Hw1 Hsz1]; [exact Hw|].
    edestruct (put_step_writable f) as [Hw2 Hsz2]; [exact Hw1|].
    split; [exact Hw2|]. rewrite Hsz2, Hsz1. done.
  - edestruct (put_step_writable f) as [Hw1 Hsz1]; [exact Hw|].
    split; [exact Hw1|]. by rewrite Hsz1.
Qed.

Lemma grad_input_channel_other n sum f g b c s :
  fillable (sizes input) g →
  f < size g 1 → c < size g 1 → s < inner g → c ≠ f →
  get (grad_input_channel grad_out_ input weight running_mean running_var
    save_mean save_invstd train eps n sum f g) b c s = get g b c s.
Proof using same_shape.
  intros [Hw Hsz] Hf Hc Hs Hne. unfold grad_input_channel.
  rewrite serial_binary_op_inplace_put_step, !serial_unary_op_put_step.
  destruct train.
  - edestruct (put_step_writable f) as [Hw1 Hsz1]; [exact Hw|].
    rewrite channel_pass_other; [| exact Hw1 | by rewrite Hsz1, same_shape
      | unfold size, inner in *; by rewrite Hsz1 ..| done].
    apply channel_pass_other; done.
  - apply channel_pass_other; try done. by rewrite same_shape.
Qed.

Lemma grad_input_channel_train_at n sum f g b s :
  train = true →
  fillable (sizes input) g →
  f < size g 1 → b < size g 0 → s < inner g →
  get (grad_input_channel grad_out_ input weight running_mean running_var
    save_mean save_invstd train eps n sum f g) b f s
  = ((get grad_out_ b f s - at1 sum f / of_int64 n
      - (get input b f s - mean_of running_mean save_mean train f)
        * (dotp input grad_out_ (mean_of running_mean save_mean train f) f
           * invstd_of running_var save_invstd train eps f * invstd_of running_var save_invstd train eps f / of_int64 n))
     * invstd_of running_var save_invstd train eps f * weight_of weight f)%sc.
Proof using same_shape.
  intros Htrain [Hw Hsz] Hf Hb Hs. unfold grad_input_channel.
  rewrite Htrain.
  rewrite serial_binary_op_inplace_put_step, !serial_unary_op_put_step.
  edestruct (put_step_writable f) as [Hw1 Hsz1]; [exact Hw|].
  rewrite channel_pass_at; [| exact Hw1 | by rewrite Hsz1, same_shape
    | unfold size, inner in *; by rewrite Hsz1 ..].
  simpl. rewrite channel_pass_at; done.
Qed.

Lemma grad_input_channel_eval_at n sum f g b s :
  train = false →
  fillable (sizes input) g →
  f < size g 1 → b < size g 0 → s < inner g →
  get (grad_input_channel grad_out_ input weight running_mean running_var
    save_mean save_invstd train eps n sum f g) b f s
  = (get grad_out_ b f s * invstd_of running_var save_invstd train eps f * weight_of weight f)%sc.
Proof using same_shape.
  intros Htrain [Hw Hsz] Hf Hb Hs. unfold grad_input_channel.
  rewrite Htrain, serial_unary_op_put_step.
  rewrite channel_pass_at; try done. by rewrite same_shape.
Qed.
End BackwardFacts.

Lemma empty_like_fillable {T} `{Scalar T} (input : Tensor T) :
  2 ≤ dim input → fillable (sizes input) (empty_like input Contiguous).
Proof.
  intros Hd. unfold fillable, writable, row_major, empty_like, empty,
    dim, numel. simpl. rewrite length_replicate. done.
Qed.

(** C1.  In a training-mode backward call with the input gradient
    selected, the call succeeds and the input gradient at every element
    [(b, c, s)] of every channel [c] is
    [((go - sum[c]/n) - (x - mean[c]) * (dotp[c]*invstd[c]*invstd[c]/n))
      * invstd[c] * w[c]],
    where [mean[c]] and [invstd[c]] are the saved batch statistics,
    [sum[c]] is the sum of the output gradient over the channel,
    [dotp[c]] the sum of [(x - mean[c]) * go] over the channel, [n] the
    per-channel reduction count and [w[c]] the weight, [1] when the
    weight is absent.  The statement is for the instantiation at
    [double], whose accumulation type is [double] again, on operands the
    accessors of the kernel accept, and for a mask that selects the
    weight or the bias gradient only when the weight is present. *)
Theorem training_input_gradient (T : Type) (HT : Scalar T)
    (grad_out_ input : Tensor T)
    (weight running_mean running_var : option (Tensor T))
    (save_mean save_invstd : Tensor T) (eps : T) (mask1 mask2 : bool)
    (b c s : nat) :
  backward_operands grad_out_ input weight running_mean running_var
    (Some save_mean) (Some save_invstd) →
  (mask1 || mask2 = true → is_Some weight) →
  b < size input 0 → c < size input 1 → s < inner input →
  let n := of_int64 (Z.of_nat (numel input) / Z.of_nat (size input 1)) in
  let mean := at1 save_mean c in
  let invstd := at1 save_invstd c in
  let w := match weight with Some wt => at1 wt c | None => sc1 end in
  let sum_c := sum_over_channel grad_out_ c in
  let dotp_c := dot_over_channel input grad_out_ mean c in
  ∃ grad_input grad_weight grad_bias,
    batch_norm_backward_cpu_template grad_out_ input weight running_mean
      running_var (Some save_mean) (Some save_invstd) true eps
      (true, mask1, mask2)
    = Ok (Some grad_input, grad_weight, grad_bias)
    ∧ sizes grad_input = sizes input
    ∧ get grad_input b c s
      = (((get grad_out_ b c s - sum_c / n)
          - (get input b c s - mean) * (dotp_c * invstd * invstd / n))
         * invstd * w)%sc.
Proof.
  intros ([Hd Hlen] & _ & _ & [Hdg Hleng] & _ & _ & Hsz & _) Hmask Hb Hc Hs
    n mean invstd w sum_c dotp_c.
  subst sum_c dotp_c. rewrite <- channel_sum_over, <- dotp_over.
  unfold batch_norm_backward_cpu_template.
  assert (∃ gw gb,
    (if mask1 then Some <$> empty_like_opt weight else Ok None) = Ok gw
    ∧ (if mask2 then Some <$> empty_like_opt weight else Ok None) = Ok gb)
    as (gw & gb & -> & ->).
  { destruct weight as [wt|].
    - destruct mask1, mask2; simpl; eauto.
    - destruct mask1, mask2; simpl in *; eauto;
        destruct Hmask as [? ?]; done. }
  simpl. rewrite backward_fold. simpl.
  eexists _, _, _. split; [reflexivity|].
  pose proof (empty_like_fillable input Hd) as Hfill.
  set (step := grad_input_channel grad_out_ input weight running_mean
                 running_var (Some save_mean) (Some save_invstd) true eps
                 (Z.of_nat (numel input) / Z.of_nat (size input 1))
                 (at_sum grad_out_)).
  assert (∀ g : Tensor T, fillable (sizes input) g →
            size g 1 = size input 1 ∧ size g 0 = size input 0
            ∧ inner g = inner input) as Hdims.
  { intros g [_ Eg]. unfold size, inner. by rewrite Eg. }
  split.
  { apply (channel_loop_fillable step (sizes input)); [|done].
    intros f g. apply grad_input_channel_fillable. }
  rewrite (channel_loop_at step
             (fun f b s =>
                ((get grad_out_ b f s
                  - at1 (at_sum grad_out_) f
                    / of_int64 (Z.of_nat (numel input)
                                / Z.of_nat (size input 1))
                  - (get input b f s - at1 save_mean f)
                    * (dotp input grad_out_ (at1 save_mean f) f
                       * at1 save_invstd f * at1 save_invstd f
                       / of_int64 (Z.of_nat (numel input)
                                   / Z.of_nat (size input 1))))
                 * at1 save_invstd f
                 * match weight with Some wt => at1 wt f | None => sc1 end)%sc)
             (sizes input)).
  - rewrite at_sum_at1; [done|]. unfold size. by rewrite Hsz.
  - intros f g. apply grad_input_channel_fillable.
  - intros f g b' s' Hg Hf Hb' Hs'. subst step.
    rewrite grad_input_channel_train_at; done.
  - intros f g b' c' s' Hg Hf Hc' Hs' Hne. subst step.
    apply grad_input_channel_other; done.
  - done.
  - destruct (Hdims _ Hfill) as (-> & _ & _). done.
  - done.
  - destruct (Hdims _ Hfill) as (_ & -> & _). done.
  - destruct (Hdims _ Hfill) as (_ & _ & ->). done.
Qed.

Lemma training_input_gradient_witness :
  let grad_out_ := cpu_double [2; 2; 1] [1; 0; 0; 1]%float in
  let input := cpu_double [2; 2; 1] [1; 2; 3; 4]%float in
  let weight := cpu_double [2] [2; 3]%float in
  let save_mean := cpu_double [2] [2; 3]%float in
  let save_invstd := cpu_double [2] [1; 2]%float in
  let n := of_int64 (Z.of_nat (numel input) / Z.of_nat (size input 1)) in
  let mean := at1 save_mean 1 in
  let invstd := at1 save_invstd 1 in
  let w := at1 weight 1 in
  let sum_c := sum_over_channel grad_out_ 1 in
  let dotp_c := dot_over_channel input grad_out_ mean 1 in
  ∃ grad_input grad_weight grad_bias,
    batch_norm_backward_cpu_template grad_out_ input (Some weight) None
      None (Some save_mean) (Some save_invstd) true 0%float
      (true, true, false)
    = Ok (Some grad_input, grad_weight, grad_bias)
    ∧ sizes grad_input = sizes input
    ∧ get grad_input 1 1 0
      = (((get grad_out_ 1 1 0 - sum_c / n)
          - (get input 1 1 0 - mean) * (dotp_c * invstd * invstd / n))
         * invstd * w)%sc.
Proof.
  apply (training_input_gradient float _
           (cpu_double [2; 2; 1] [1; 0; 0; 1]%float)
           (cpu_double [2; 2; 1] [1; 2; 3; 4]%float)
           (Some (cpu_double [2] [2; 3]%float)) None None
           (cpu_double [2] [2; 3]%float) (cpu_double [2] [1; 2]%float)
           0%float true false 1 1 0).
  - vm_compute. repeat split; reflexivity || lia.
  - intros _. eexists. reflexivity.
  - vm_compute. lia.
  - vm_compute. lia.
  - vm_compute. lia.
Defined.

(** X1.  In an evaluation-mode backward call with the input gradient
    selected, the statistics are constants and the input gradient at
    every element is [go * invstd[c] * w[c]] with
    [invstd[c] = 1 / sqrt(running_var[c] + eps)].  The statement is for
    the instantiation at [double], where that quotient is computed in
    the element type, on operands the accessors of the kernel accept,
    and for a mask that selects the weight or the bias gradient only
    when the weight is present. *)
Theorem evaluation_input_gradient (T : Type) (HT : Scalar T)
    (grad_out_ input : Tensor T)
    (weight save_mean save_invstd : option (Tensor T))
    (running_mean running_var : Tensor T) (eps : T) (mask1 mask2 : bool)
    (b c s : nat) :
  backward_operands grad_out_ input weight (Some running_mean)
    (Some running_var) save_mean save_invstd →
  (mask1 || mask2 = true → is_Some weight) →
  b < size input 0 → c < size input 1 → s < inner input →
  let invstd := (sc1 / ssqrt (at1 running_var c + eps))%sc in
  let w := match weight with Some wt => at1 wt c | None => sc1 end in
  ∃ grad_input grad_weight grad_bias,
    batch_norm_backward_cpu_template grad_out_ input weight
      (Some running_mean) (Some running_var) save_mean save_invstd false
      eps (true, mask1, mask2)
    = Ok (Some grad_input, grad_weight, grad_bias)
    ∧ sizes grad_input = sizes input
    ∧ get grad_input b c s = (get grad_out_ b c s * invstd * w)%sc.
Proof.
  intros ([Hd Hlen] & _ & _ & [Hdg Hleng] & _ & _ & Hsz & _) Hmask Hb Hc Hs
    invstd w.
  unfold batch_norm_backward_cpu_template.
  assert (∃ gw gb,
    (if mask1 then Some <$> empty_like_opt weight else Ok None) = Ok gw
    ∧ (if mask2 then Some <$> empty_like_opt weight else Ok None) = Ok gb)
    as (gw & gb & -> & ->).
  { destruct weight as [wt|].
    - destruct mask1, mask2; simpl; eauto.
    - destruct mask1, mask2; simpl in *; eauto;
        destruct Hmask as [? ?]; done. }
  simpl. rewrite backward_fold. simpl.
  eexists _, _, _. split; [reflexivity|].
  pose proof (empty_like_fillable input Hd) as Hfill.
  set (step := grad_input_channel grad_out_ input weight
                 (Some running_mean) (Some running_var) save_mean
                 save_invstd false eps
                 (Z.of_nat (numel input) / Z.of_nat (size input 1))
                 (at_sum grad_out_)).
  assert (∀ g : Tensor T, fillable (sizes input) g →
            size g 1 = size input 1 ∧ size g 0 = size input 0
            ∧ inner g = inner input) as Hdims.
  { intros g [_ Eg]. unfold size, inner. by rewrite Eg. }
  split.
  { apply (channel_loop_fillable step (sizes input)); [|done].
    intros f g. apply grad_input_channel_fillable. }
  rewrite (channel_loop_at step
             (fun f b s =>
                (get grad_out_ b f s
                 * (sc1 / ssqrt (at1 running_var f + eps))
                 * match weight with Some wt => at1 wt f | None => sc1 end)%sc)
             (sizes input)).
  - done.
  - intros f g. apply grad_input_channel_fillable.
  - intros f g b' s' Hg Hf Hb' Hs'. subst step.
    rewrite grad_input_channel_eval_at; done.
  - intros f g b' c' s' Hg Hf Hc' Hs' Hne. subst step.
    apply grad_input_channel_other; done.
  - done.
  - destruct (Hdims _ Hfill) as (-> & _ & _). done.
  - done.
  - destruct (Hdims _ Hfill) as (_ & -> & _). done.
  - destruct (Hdims _ Hfill) as (_ & _ & ->). done.
Qed.

Lemma evaluation_input_gradient_witness :
  let grad_out_ := cpu_double [2; 2; 1] [1; 0; 0; 1]%float in
  let input := cpu_double [2; 2; 1] [1; 2; 3; 4]%float in
  let running_var := cpu_double [2] [1; 4]%float in
  let invstd := (sc1 / ssqrt (at1 running_var 1 + 0%float))%sc in
  ∃ grad_input grad_weight grad_bias,
    batch_norm_backward_cpu_template grad_out_ input None
      (Some (cpu_double [2] [2; 3]%float)) (Some running_var) None None
      false 0%float (true, false, false)
    = Ok (Some grad_input, grad_weight, grad_bias)
    ∧ sizes grad_input = sizes input
    ∧ get grad_input 1 1 0 = (get grad_out_ 1 1 0 * invstd * sc1)%sc.
Proof.
  apply (evaluation_input_gradient float _
           (cpu_double [2; 2; 1] [1; 0; 0; 1]%float)
           (cpu_double [2; 2; 1] [1; 2; 3; 4]%float) None None None
           (cpu_double [2] [2; 3]%float) (cpu_double [2] [1; 4]%float)
           0%float false false 1 1 0).
  - vm_compute. repeat split; reflexivity || lia.
  - intros Hm. discriminate.
  - vm_compute. lia.
  - vm_compute. lia.
  - vm_compute. lia.
Defined.




(** ** The channels-last fast path *)

Section FastPath.
Context {T : Type} `{Scalar T}.
Variables weight bias : option (Tensor T).
Variables mean variance : Tensor T.
Variable eps : T.

Lemma collect_fold alpha beta l :
  foldl (collect_channel weight bias mean variance eps) (alpha, beta) l
  = (foldl (write_step (@Datatypes.id nat) (fun c _ => fused_alpha weight variance eps c))
           alpha l,
     foldl (write_step (@Datatypes.id nat) (fun c _ => fused_beta weight bias mean variance eps c))
           beta l).
Proof.
  revert alpha beta. induction l as [|c l IH]; intros alpha beta; [done|].
  change (foldl ?F ?a (c :: l)) with (foldl F (F a c) l).
  unfold collect_channel at 2. simpl. by rewrite IH.
Qed.

Lemma collect_at alpha beta n_channel c :
  c < n_channel → n_channel ≤ length alpha → n_channel ≤ length beta →
  let ab := batch_norm_cpu_inference_collect_linear_and_constant_terms
              alpha beta n_channel weight bias mean variance eps in
  ab.1 !!! c = fused_alpha weight variance eps c ∧ ab.2 !!! c = fused_beta weight bias mean variance eps c.
Proof.
  intros Hc Ha Hb. simpl.
  unfold batch_norm_cpu_inference_collect_linear_and_constant_terms.
  rewrite collect_fold. simpl.
  assert (NoDup (@Datatypes.id nat <$> seq 0 n_channel)) as Hnd.
  { rewrite list_fmap_id. apply NoDup_seq. }
  assert (c ∈ seq 0 n_channel) as Hin by (apply elem_of_seq; lia).
  split.
  - apply (foldl_write_at (@Datatypes.id nat) (fun c _ => fused_alpha weight variance eps c)
             (seq 0 n_channel) alpha c Hnd Hin). simpl. lia.
  - apply (foldl_write_at (@Datatypes.id nat) (fun c _ => fused_beta weight bias mean variance eps c)
             (seq 0 n_channel) beta c Hnd Hin). simpl. lia.
Qed.
End FastPath.

Lemma elem_of_coords3 (N S C n i c : nat) :
  (n, i, c) ∈ (n ← seq 0 N; i ← seq 0 S; c ← seq 0 C; [(n, i, c)])
  ↔ n < N ∧ i < S ∧ c < C.
Proof.
  rewrite list_elem_of_bind. split.
  - intros (n' & Hx & Hn). apply list_elem_of_bind in Hx as (i' & Hx & Hi).
    apply list_elem_of_bind in Hx as (c' & Hx & Hc).
    apply list_elem_of_singleton in Hx. inversion Hx; subst.
    apply elem_of_seq in Hn, Hi, Hc. lia.
  - intros (Hn & Hi & Hc). exists n. split; [|apply elem_of_seq; lia].
    apply list_elem_of_bind. exists i. split; [|apply elem_of_seq; lia].
    apply list_elem_of_bind. exists c. split; [|apply elem_of_seq; lia].
    by apply list_elem_of_singleton.
Qed.

Lemma NoDup_coords3 (N S C : nat) :
  NoDup (n ← seq 0 N; i ← seq 0 S; c ← seq 0 C; [(n, i, c)]).
Proof.
  apply NoDup_bind; [| |apply NoDup_seq].
  - intros n1 n2 [[n i] c] _ _ H1 H2.
    apply list_elem_of_bind in H1 as (? & H1 & _).
    apply list_elem_of_bind in H1 as (? & H1 & _).
    apply list_elem_of_bind in H2 as (? & H2 & _).
    apply list_elem_of_bind in H2 as (? & H2 & _).
    apply list_elem_of_singleton in H1, H2. congruence.
  - intros n _. apply NoDup_bind; [| |apply NoDup_seq].
    + intros i1 i2 [[n' i] c] _ _ H1 H2.
      apply list_elem_of_bind in H1 as (? & H1 & _).
      apply list_elem_of_bind in H2 as (? & H2 & _).
      apply list_elem_of_singleton in H1, H2. congruence.
    + intros i _. apply NoDup_bind; [| |apply NoDup_seq].
      * intros c1 c2 y _ _ H1 H2.
        apply list_elem_of_singleton in H1, H2. congruence.
      * intros c _. apply NoDup_singleton.
Qed.

Lemma elem_of_coords2 (N S n i : nat) :
  (n, i) ∈ (n ← seq 0 N; i ← seq 0 S; [(n, i)]) ↔ n < N ∧ i < S.
Proof.
  rewrite list_elem_of_bind. split.
  - intros (n' & Hx & Hn). apply list_elem_of_bind in Hx as (i' & Hx & Hi).
    apply list_elem_of_singleton in Hx. inversion Hx; subst.
    apply elem_of_seq in Hn, Hi. lia.
  - intros (Hn & Hi). exists n. split; [|apply elem_of_seq; lia].
    apply list_elem_of_bind. exists i. split; [|apply elem_of_seq; lia].
    by apply list_elem_of_singleton.
Qed.

Lemma NoDup_coords2 (N S : nat) :
  NoDup (n ← seq 0 N; i ← seq 0 S; [(n, i)]).
Proof.
  apply NoDup_bind; [| |apply NoDup_seq].
  - intros n1 n2 [n i] _ _ H1 H2.
    apply list_elem_of_bind in H1 as (? & H1 & _).
    apply list_elem_of_bind in H2 as (? & H2 & _).
    apply list_elem_of_singleton in H1, H2. congruence.
  - intros n _. apply NoDup_bind; [| |apply NoDup_seq].
    + intros i1 i2 y _ _ H1 H2.
      apply list_elem_of_singleton in H1, H2. congruence.
    + intros i _. apply NoDup_singleton.
Qed.

Lemma image_size_inner {T} `{Scalar T} (input : Tensor T) :
  2 ≤ dim input → 0 < size input 0 → 0 < size input 1 →
  numel input / size input 0 / size input 1 = inner input.
Proof.
  intros Hd HN HC. rewrite numel_split by done.
  rewrite <- Nat.mul_assoc, Nat.mul_comm, Nat.div_mul by lia.
  rewrite Nat.mul_comm, Nat.div_mul by lia. done.
Qed.

(** Every element the channels-last fast path writes is
    [input * alpha[c] + beta[c]], with the coefficients the collecting
    loop computed. *)
Lemma channels_last_at {T} `{Scalar T} (output input : Tensor T)
    weight bias mean variance eps n c i :
  2 ≤ dim input → length (data output) = numel input →
  size input 1 ≤ numel mean →
  n < size input 0 → c < size input 1 → i < inner input →
  let off := (n * inner input + i) * size input 1 + c in
  data (batch_norm_cpu_inference_channels_last output input weight bias
          mean variance eps) !!! off
  = (data input !!! off * fused_alpha weight variance eps c
     + fused_beta weight bias mean variance eps c)%sc.
Proof.
  intros Hd Hlen Hmean Hn Hc Hi off.
  unfold batch_norm_cpu_inference_channels_last.
  rewrite image_size_inner by (done || lia).
  set (N := size input 0) in *. set (C := size input 1) in *.
  set (S := inner input) in *.
  assert (length (data (empty_like mean Contiguous)) = numel mean) as Hel.
  { unfold empty_like, empty, numel. simpl. by rewrite length_replicate. }
  assert (C ≤ length (data (empty_like mean Contiguous))) as Hal
    by (rewrite Hel; lia).
  pose proof (collect_at weight bias mean variance eps
                (data (empty_like mean Contiguous))
                (data (empty_like mean Contiguous)) C c Hc Hal Hal) as Hab.
  destruct (batch_norm_cpu_inference_collect_linear_and_constant_terms
              (data (empty_like mean Contiguous))
              (data (empty_like mean Contiguous)) C weight bias mean
              variance eps) as [alpha_data beta_data].
  simpl in Hab. simpl.
  assert (off < length (data output)) as Hoff.
  { rewrite Hlen, numel_split by done. fold N C S. subst off.
    assert (n * S + i + 1 ≤ N * S) by nia. nia. }
  destruct (bool_decide (C ≠ 1)) eqn:HC1.
  - rewrite (foldl_ext_eq _
      (write_step (fun x : nat * nat * nat =>
                     x.1.1 * S * C + x.1.2 * C + x.2)
                  (fun x _ =>
                     let offset := x.1.1 * S * C + x.1.2 * C + x.2 in
                     (data input !!! offset * alpha_data !!! x.2
                      + beta_data !!! x.2)%sc)))
      by (by intros out [[n' i'] c']).
    assert (off = (fun x : nat * nat * nat =>
                     x.1.1 * S * C + x.1.2 * C + x.2) (n, i, c)) as Eoff
      by (subst off; simpl; lia).
    rewrite Eoff.
    rewrite (foldl_write_at
               (fun x : nat * nat * nat => x.1.1 * S * C + x.1.2 * C + x.2)
               _ _ (data output) (n, i, c)).
    + simpl. destruct Hab as [-> ->]. done.
    + apply NoDup_fmap_2_strong; [|apply NoDup_coords3].
      intros [[n1 i1] c1] [[n2 i2] c2] H1 H2 Heq. simpl in Heq.
      apply elem_of_coords3 in H1, H2.
      assert ((n1 * S + i1) * C + c1 = (n2 * S + i2) * C + c2) as Heq'
        by lia.
      apply mul_add_inj in Heq' as [Heq' ->]; [|lia..].
      apply mul_add_inj in Heq' as [-> ->]; [done|lia..].
    + by apply elem_of_coords3.
    + simpl. lia.
  - apply bool_decide_eq_false in HC1.
    assert (C = 1) as EC by (destruct (decide (C = 1)); [done|tauto]).
    assert (c = 0) as -> by lia.
    rewrite (foldl_ext_eq _
      (write_step (fun x : nat * nat => x.1 * S + x.2)
                  (fun x _ =>
                     let offset := x.1 * S + x.2 in
                     (data input !!! offset * alpha_data !!! 0
                      + beta_data !!! 0)%sc)))
      by (by intros out [n' i']).
    assert (off = (fun x : nat * nat => x.1 * S + x.2) (n, i)) as Eoff
      by (subst off; simpl; lia).
    rewrite Eoff.
    rewrite (foldl_write_at (fun x : nat * nat => x.1 * S + x.2)
               _ _ (data output) (n, i)).
    + simpl. destruct Hab as [-> ->]. done.
    + apply NoDup_fmap_2_strong; [|apply NoDup_coords2].
      intros [n1 i1] [n2 i2] H1 H2 Heq. simpl in Heq.
      apply elem_of_coords2 in H1, H2.
      apply mul_add_inj in Heq as [-> ->]; [done|lia..].
    + by apply elem_of_coords2.
    + simpl. lia.
Qed.

Lemma channels_last_shape {T} `{Scalar T} (output input : Tensor T)
    weight bias mean variance eps :
  let r := batch_norm_cpu_inference_channels_last output input weight bias
             mean variance eps in
  sizes r = sizes output ∧ format r = format output.
Proof.
  simpl. unfold batch_norm_cpu_inference_channels_last.
  by destruct (batch_norm_cpu_inference_collect_linear_and_constant_terms
                 _ _ _ _ _ _ _ _).
Qed.

(** C5, as stated, fails on doubles: with input [1], mean [3], variance
    [3], epsilon [0] and neither weight nor bias, the fused form
    [input * alpha + beta] the fast path computes and the unfused form
    [(input - mean) * invstd * weight + bias] are different doubles. *)
Lemma fused_form_differs_on_doubles :
  let input := channels_last_double [1; 2; 1] [1; 1]%float in
  let mean := cpu_double [2] [3; 3]%float in
  let variance := cpu_double [2] [3; 3]%float in
  let output :=
    batch_norm_cpu_inference_channels_last
      (empty_like input ChannelsLast) input None None mean variance
      0%float in
  let invstd := (sc1 / ssqrt (at1 variance 0 + 0%float))%sc in
  get output 0 0 0 = (-1.1547005383792519)%float
  ∧ transform_element (get input 0 0 0) (at1 mean 0) invstd sc1 sc0
    = (-1.1547005383792517)%float
  ∧ get output 0 0 0
    ≠ transform_element (get input 0 0 0) (at1 mean 0) invstd sc1 sc0.
Proof.
  split; [vm_compute; reflexivity|]. split; [vm_compute; reflexivity|].
  intros Heq. vm_compute in Heq.
  apply (f_equal (fun x => PrimFloat.eqb x (-1.1547005383792519)%float))
    in Heq.
  vm_compute in Heq. discriminate.
Qed.

(** C5, amended.  For every channel [c] the collecting loop of the
    inference fast path computes [alpha[c] = inv_var * weight] and
    [beta[c] = bias - mean[c] * inv_var * weight], with
    [inv_var = 1 / sqrt(var[c] + eps)], weight [1] and bias [0] when
    absent, and the channels-last fast path writes
    [input * alpha[c] + beta[c]] at every element.  In exact arithmetic
    [beta[c] = bias - mean[c] * alpha[c]] and the element written equals
    the unfused [(input - mean[c]) * inv_var * weight + bias] of the
    generic path; on doubles the two forms agree only up to rounding. *)
Theorem fused_coefficients :
  (∀ (T : Type) (HT : Scalar T) (output input : Tensor T)
     (weight bias : option (Tensor T)) (mean variance : Tensor T)
     (eps : T) (n c i : nat),
     well_formed input → format input = ChannelsLast →
     format output = ChannelsLast → sizes output = sizes input →
     length (data output) = numel input →
     size input 1 ≤ numel mean → length (data mean) = numel mean →
     size input 1 ≤ length (data variance) →
     opt_entries input weight → opt_entries input bias →
     n < size input 0 → c < size input 1 → i < inner input →
     let inv_var := (sc1 / ssqrt (at1 variance c + eps))%sc in
     let weight_v := match weight with Some w => at1 w c | None => sc1 end in
     let bias_v := match bias with Some b => at1 b c | None => sc0 end in
     let ab := batch_norm_cpu_inference_collect_linear_and_constant_terms
                 (data (empty_like mean Contiguous))
                 (data (empty_like mean Contiguous)) (size input 1)
                 weight bias mean variance eps in
     let alpha := ab.1 !!! c in
     let beta := ab.2 !!! c in
     alpha = (inv_var * weight_v)%sc
     ∧ beta = (bias_v - at1 mean c * inv_var * weight_v)%sc
     ∧ get (batch_norm_cpu_inference_channels_last output input weight
              bias mean variance eps) n c i
       = (get input n c i * alpha + beta)%sc)
  ∧ (∀ (output input : Tensor R) (weight bias : option (Tensor R))
       (mean variance : Tensor R) (eps : R) (n c i : nat),
     well_formed input → format input = ChannelsLast →
     format output = ChannelsLast → sizes output = sizes input →
     length (data output) = numel input →
     size input 1 ≤ numel mean → length (data mean) = numel mean →
     size input 1 ≤ length (data variance) →
     opt_entries input weight → opt_entries input bias →
     n < size input 0 → c < size input 1 → i < inner input →
     let inv_var := (sc1 / ssqrt (at1 variance c + eps))%sc in
     let weight_v := match weight with Some w => at1 w c | None => sc1 end in
     let bias_v := match bias with Some b => at1 b c | None => sc0 end in
     let alpha := (inv_var * weight_v)%sc in
     let beta := (bias_v - at1 mean c * inv_var * weight_v)%sc in
     beta = (bias_v - at1 mean c * alpha)%sc
     ∧ (get input n c i * alpha + beta)%sc
       = transform_element (get input n c i) (at1 mean c) inv_var
           weight_v bias_v
     ∧ get (batch_norm_cpu_inference_channels_last output input weight
              bias mean variance eps) n c i
       = transform_element (get input n c i) (at1 mean c) inv_var
           weight_v bias_v).
Proof.
  assert (∀ (T : Type) (HT : Scalar T) (output input : Tensor T)
     (weight bias : option (Tensor T)) (mean variance : Tensor T)
     (eps : T) (n c i : nat),
     well_formed input → format input = ChannelsLast →
     format output = ChannelsLast → sizes output = sizes input →
     length (data output) = numel input →
     size input 1 ≤ numel mean → length (data mean) = numel mean →
     size input 1 ≤ length (data variance) →
     opt_entries input weight → opt_entries input bias →
     n < size input 0 → c < size input 1 → i < inner input →
     let ab := batch_norm_cpu_inference_collect_linear_and_constant_terms
                 (data (empty_like mean Contiguous))
                 (data (empty_like mean Contiguous)) (size input 1)
                 weight bias mean variance eps in
     ab.1 !!! c = fused_alpha weight variance eps c
     ∧ ab.2 !!! c = fused_beta weight bias mean variance eps c
     ∧ get (batch_norm_cpu_inference_channels_last output input weight
              bias mean variance eps) n c i
       = (get input n c i * fused_alpha weight variance eps c
          + fused_beta weight bias mean variance eps c)%sc) as Hgen.
  { intros T HT output input weight bias mean variance eps n c i
      [Hd Hli] Hfi Hfo Hsz Hlen Hmean Hlm Hlv Hew Heb Hn Hc Hi ab.
    assert (size input 1 ≤ length (data (empty_like mean Contiguous)))
      as Hal.
    { unfold empty_like, empty. simpl. by rewrite length_replicate. }
    destruct (collect_at weight bias mean variance eps
                (data (empty_like mean Contiguous))
                (data (empty_like mean Contiguous)) (size input 1) c
                Hc Hal Hal) as [Ha Hb].
    split; [exact Ha|]. split; [exact Hb|].
    destruct (channels_last_shape output input weight bias mean variance
                eps) as [Es Ef].
    unfold get, offset, inner, size in *.
    rewrite Es, Ef, Hfo, Hfi, Hsz.
    apply (channels_last_at output input weight bias mean variance eps
             n c i Hd Hlen Hmean Hn Hc Hi). }
  split.
  - intros T HT output input weight bias mean variance eps n c i
      Hwf Hfi Hfo Hsz Hlen Hmean Hlm Hlv Hew Heb Hn Hc Hi inv_var weight_v
      bias_v ab alpha beta.
    destruct (Hgen T HT output input weight bias mean variance eps n c i
                Hwf Hfi Hfo Hsz Hlen Hmean Hlm Hlv Hew Heb Hn Hc Hi)
      as (Ha & Hb & Hg).
    subst alpha beta ab. rewrite Ha, Hb.
    split; [by destruct weight|]. split; [by destruct weight, bias|].
    exact Hg.
  - intros output input weight bias mean variance eps n c i
      Hwf Hfi Hfo Hsz Hlen Hmean Hlm Hlv Hew Heb Hn Hc Hi inv_var weight_v
      bias_v alpha beta.
    destruct (Hgen R _ output input weight bias mean variance eps n c i
                Hwf Hfi Hfo Hsz Hlen Hmean Hlm Hlv Hew Heb Hn Hc Hi)
      as (_ & _ & Hg).
    assert ((get input n c i * alpha + beta)%sc
            = transform_element (get input n c i) (at1 mean c) inv_var
                weight_v bias_v) as Hid.
    { unfold transform_element, alpha, beta. simpl. ring. }
    split; [unfold beta, alpha; simpl; ring|]. split; [exact Hid|].
    rewrite Hg, <- Hid. unfold alpha, beta, fused_alpha, fused_beta,
      inv_var_of, weight_v_of, bias_v_of, inv_var, weight_v, bias_v, at1.
    done.
Qed.

Lemma fused_coefficients_witness :
  (let input := channels_last_double [1; 2; 2] [1; 2; 3; 4]%float in
   let output := empty_like input ChannelsLast in
   let weight := cpu_double [2] [2; 5]%float in
   let mean := cpu_double [2] [1; 3]%float in
   let variance := cpu_double [2] [4; 9]%float in
   let inv_var := (sc1 / ssqrt (at1 variance 1 + 0%float))%sc in
   let weight_v := at1 weight 1 in
   let bias_v : float := sc0 in
   let ab := batch_norm_cpu_inference_collect_linear_and_constant_terms
               (data (empty_like mean Contiguous))
               (data (empty_like mean Contiguous)) (size input 1)
               (Some weight) None mean variance 0%float in
   let alpha := ab.1 !!! 1 in
   let beta := ab.2 !!! 1 in
   alpha = (inv_var * weight_v)%sc
   ∧ beta = (bias_v - at1 mean 1 * inv_var * weight_v)%sc
   ∧ get (batch_norm_cpu_inference_channels_last output input
            (Some weight) None mean variance 0%float) 0 1 1
     = (get input 0 1 1 * alpha + beta)%sc)
  ∧ (let input := channels_last_real [1; 2; 1] [1%R; 1%R] in
     let output := empty_like input ChannelsLast in
     let mean := cpu_real [2] [3%R; 3%R] in
     let variance := cpu_real [2] [3%R; 3%R] in
     let inv_var := (sc1 / ssqrt (at1 variance 0 + 0%R))%sc in
     let alpha := (inv_var * sc1)%sc in
     let beta := (sc0 - at1 mean 0 * inv_var * sc1)%sc in
     beta = (sc0 - at1 mean 0 * alpha)%sc
     ∧ (get input 0 0 0 * alpha + beta)%sc
       = transform_element (get input 0 0 0) (at1 mean 0) inv_var sc1 sc0
     ∧ get (batch_norm_cpu_inference_channels_last output input None None
              mean variance 0%R) 0 0 0
       = transform_element (get input 0 0 0) (at1 mean 0) inv_var sc1 sc0).
Proof.
  split.
  - apply (proj1 fused_coefficients float _
             (empty_like (channels_last_double [1; 2; 2] [1; 2; 3; 4]%float)
                ChannelsLast)
             (channels_last_double [1; 2; 2] [1; 2; 3; 4]%float)
             (Some (cpu_double [2] [2; 5]%float)) None
             (cpu_double [2] [1; 3]%float) (cpu_double [2] [4; 9]%float)
             0%float 0 1 1).
    + split; vm_compute; [lia|reflexivity].
    + reflexivity.
    + reflexivity.
    + reflexivity.
    + reflexivity.
    + vm_compute. lia.
    + reflexivity.
    + vm_compute. lia.
    + vm_compute. lia.
    + exact I.
    + vm_compute. lia.
    + vm_compute. lia.
    + vm_compute. lia.
  - apply (proj2 fused_coefficients
             (empty_like (channels_last_real [1; 2; 1] [1%R; 1%R])
                ChannelsLast)
             (channels_last_real [1; 2; 1] [1%R; 1%R]) None None
             (cpu_real [2] [3%R; 3%R]) (cpu_real [2] [3%R; 3%R]) 0%R
             0 0 0).
    + split; vm_compute; [lia|reflexivity].
    + reflexivity.
    + reflexivity.
    + reflexivity.
    + reflexivity.
    + vm_compute. lia.
    + reflexivity.
    + vm_compute. lia.
    + exact I.
    + exact I.
    + vm_compute. lia.
    + vm_compute. lia.
    + vm_compute. lia.
Defined.

Lemma validation_precedes_strategies_witness :
  let input := cpu_double [1; 3; 1] [1; 2; 3]%float in
  let weight := Some (cpu_double [2] [1; 1]%float) in
  let running_mean := Some (cpu_double [3] [0; 0; 0]%float) in
  let running_var := Some (cpu_double [3] [1; 1; 1]%float) in
  ∃ msg,
    check_parameters input weight None running_mean running_var false
    = Err msg
    ∧ _batch_norm_impl_index true 0%float 8000%Z true
        (fun out _ _ _ _ _ _ => out)
        (fun _ _ _ rm rv _ _ _ => (Err "cudnn", (None, None)))
        (fun _ _ _ rm rv _ _ _ => (Err "miopen", (None, None)))
        (fun _ _ _ rm rv _ _ _ => (Err "cuda", (None, None)))
        input weight None running_mean running_var false 0.1%float
        0.00001%float true
      = (Err msg, (running_mean, running_var)).
Proof.
  apply (proj1 (validation_precedes_strategies true 0%float 8000%Z true
           (fun out _ _ _ _ _ _ => out)
           (fun _ _ _ rm rv _ _ _ => (Err "cudnn", (None, None)))
           (fun _ _ _ rm rv _ _ _ => (Err "miopen", (None, None)))
           (fun _ _ _ rm rv _ _ _ => (Err "cuda", (None, None)))
           (cpu_double [1; 3; 1] [1; 2; 3]%float)
           (Some (cpu_double [2] [1; 1]%float)) None
           (Some (cpu_double [3] [0; 0; 0]%float))
           (Some (cpu_double [3] [1; 1; 1]%float)) false 0.1%float
           0.00001%float true ltac:(vm_compute; lia))).
  left. vm_compute. lia.
Defined.

(** * Further properties of the code *)

(** ** Per-channel parameters on the CPU *)

Lemma checkBackend_cpu {T} `{Scalar T} name (input : Tensor T)
    weight bias rm rv :
  is_cuda input = false →
  channel_vector input weight → channel_vector input bias →
  running_vector input rm → running_vector input rv →
  checkBackend name [Some input; weight; bias; rm; rv] = Ok ().
Proof.
  intros Hcpu Hw Hb Hrm Hrv. unfold checkBackend.
  assert (forallb (fun t : option (Tensor T) =>
            match t with Some t => negb (is_cuda t) | None => true end)
            [Some input; weight; bias; rm; rv] = true) as ->; [|done].
  simpl. rewrite Hcpu. simpl.
  destruct weight as [w|], bias as [b|], rm as [m|], rv as [v|];
    simpl in *; repeat match goal with
                       | Hx : _ ∧ _ |- _ => destruct Hx as [-> ?]
                       end; done.
Qed.



Lemma check_parameters_channel_vectors {T} `{Scalar T} (input : Tensor T)
    (weight bias rm rv : option (Tensor T)) (training : bool) :
  channel_vector input weight → channel_vector input bias →
  channel_vector input rm → channel_vector input rv →
  (training = false → defined rm = true ∧ defined rv = true) →
  check_parameters input weight bias rm rv training = Ok ().
Proof.
  intros Hw Hb Hrm Hrv Hdef.
  apply (check_parameters_spec input weight bias rm rv training).
  unfold count_mismatch, missing_in_evaluation.
  intros [Hx|[Hx|[Hx|[Hx|[Hx|Hx]]]]].
  - destruct weight as [t|]; [|done].
    by rewrite (channel_vector_numel input t) in Hx.
  - destruct bias as [t|]; [|done].
    by rewrite (channel_vector_numel input t) in Hx.
  - destruct rm as [t|]; [|done].
    by rewrite (channel_vector_numel input t) in Hx.
  - destruct rv as [t|]; [|done].
    by rewrite (channel_vector_numel input t) in Hx.
  - destruct Hx as [-> ->]. by destruct (Hdef eq_refl).
  - destruct Hx as [-> ->]. by destruct (Hdef eq_refl).
Qed.

(** ** The selector on a CPU input, and the tag it returns *)

Section SelectorPaths.
Context {T : Type} `{Scalar T}.
Variable compiledWithCuDNN : bool.
Variable batchnormMinEpsilonCuDNN : T.
Variable versionCuDNN : Z.
Variable compiledWithMIOpen : bool.
Variable batch_norm_cpu_inference_contiguous_stub :
  Tensor T → Tensor T → option (Tensor T) → option (Tensor T) →
  Tensor T → Tensor T → T → Tensor T.
Variable cudnn_batch_norm :
  Tensor T → Tensor T → Tensor T → option (Tensor T) → option (Tensor T) →
  bool → T → T → forward4 T.
Variable miopen_batch_norm :
  Tensor T → Tensor T → Tensor T → option (Tensor T) → option (Tensor T) →
  bool → T → T → forward3 T.
Variable batch_norm_cuda :
  Tensor T → option (Tensor T) → option (Tensor T) →
  option (Tensor T) → option (Tensor T) → bool → T → T → forward3 T.

Lemma use_cudnn_cpu (input : Tensor T) weight bias rm rv training eps ce :
  is_cuda input = false →
  use_cudnn compiledWithCuDNN batchnormMinEpsilonCuDNN versionCuDNN
    input weight bias rm rv training eps ce = false.
Proof. intros Hc. unfold use_cudnn. by rewrite Hc. Qed.

Lemma use_miopen_cpu (input : Tensor T) weight bias rm rv training ce :
  is_cuda input = false →
  use_miopen compiledWithMIOpen input weight bias rm rv training ce = false.
Proof. intros Hc. unfold use_miopen. by rewrite Hc. Qed.

(** what [_batch_norm_impl_index] comes to on a CPU input that passed
    the parameter check *)
Lemma impl_index_cpu (input : Tensor T) weight bias rm rv training
    momentum eps ce :
  is_cuda input = false →
  check_parameters input weight bias rm rv training = Ok () →
  _batch_norm_impl_index compiledWithCuDNN batchnormMinEpsilonCuDNN
    versionCuDNN compiledWithMIOpen
    batch_norm_cpu_inference_contiguous_stub cudnn_batch_norm
    miopen_batch_norm batch_norm_cuda
    input weight bias rm rv training momentum eps ce
  = let r := batch_norm_cpu batch_norm_cpu_inference_contiguous_stub
               input weight bias rm rv training momentum eps in
    ((fun o3 : Tensor T * option (Tensor T) * option (Tensor T) =>
        (o3.1.1, o3.1.2, o3.2, empty [0] false kByte Contiguous, 0%Z))
       <$> r.1, r.2).
Proof.
  intros Hc Hok. unfold _batch_norm_impl_index. rewrite Hok.
  rewrite use_cudnn_cpu, use_miopen_cpu by done.
  unfold native_batch_norm. rewrite Hc.
  destruct (batch_norm_cpu _ _ _ _ _ _ _ _ _) as [[[[o sm] sv]|m] st];
    reflexivity.
Qed.

(** X3.  A CPU input that passes the parameter check is handled by
    [batch_norm_cpu], whatever the accelerator hooks report and whatever
    [cudnn_enabled] is: [_batch_norm_impl_index] leaves the running
    statistics as [batch_norm_cpu] leaves them, fails with its failure,
    and on success returns its three tensors together with an empty
    byte tensor as reserve and the tag [0]. *)
Theorem cpu_input_takes_native_path (input : Tensor T)
    (weight bias running_mean running_var : option (Tensor T))
    (training : bool) (momentum eps : T) (cudnn_enabled : bool) :
  is_cuda input = false →
  check_parameters input weight bias running_mean running_var training
  = Ok () →
  let r := _batch_norm_impl_index compiledWithCuDNN
             batchnormMinEpsilonCuDNN versionCuDNN compiledWithMIOpen
             batch_norm_cpu_inference_contiguous_stub cudnn_batch_norm
             miopen_batch_norm batch_norm_cuda
             input weight bias running_mean running_var training momentum
             eps cudnn_enabled in
  let native := batch_norm_cpu batch_norm_cpu_inference_contiguous_stub
                  input weight bias running_mean running_var training
                  momentum eps in
  r.2 = native.2
  ∧ (∀ msg, native.1 = Err msg → r.1 = Err msg)
  ∧ (∀ output save_mean save_invstd,
       native.1 = Ok (output, save_mean, save_invstd) →
       ∃ reserve,
         r.1 = Ok (output, save_mean, save_invstd, reserve, 0%Z)
         ∧ numel reserve = 0 ∧ scalar_type reserve = kByte).
Proof.
  intros Hc Hok r native. subst r native.
  rewrite impl_index_cpu by done. cbv zeta.
  destruct (batch_norm_cpu _ _ _ _ _ _ _ _ _) as [[[[o sm] sv]|m] st];
    simpl.
  - split; [done|]. split; [done|].
    intros output save_mean save_var [= <- <- <-]. eauto.
  - split; [done|]. split; [by intros msg [= <-]|]. done.
Qed.

Variable batch_norm_backward_cuda :
  Tensor T → Tensor T → option (Tensor T) → option (Tensor T) →
  option (Tensor T) → option (Tensor T) → option (Tensor T) →
  bool → T → bool * bool * bool → backward3 T.
Variable cudnn_batch_norm_backward :
  Tensor T → Tensor T → option (Tensor T) → option (Tensor T) →
  option (Tensor T) → option (Tensor T) → option (Tensor T) →
  T → Tensor T → backward3 T.
Variable miopen_batch_norm_backward :
  Tensor T → Tensor T → option (Tensor T) → option (Tensor T) →
  option (Tensor T) → option (Tensor T) → option (Tensor T) →
  T → backward3 T.

(** X4.  The tag a successful [_batch_norm_impl_index] returns names the
    strategy that ran: [1] when the cuDNN conditions held, [2] when they
    did not and the MIOpen conditions held, [0] otherwise.  Handed to
    [_batch_norm_impl_index_backward], it selects the backward of that
    same backend and never reaches the assertion on unsupported tags. *)
Theorem forward_tag_selects_matching_backward (input : Tensor T)
    (weight bias running_mean running_var : option (Tensor T))
    (training : bool) (momentum eps : T) (cudnn_enabled : bool)
    (output : Tensor T) (save_mean save_var : option (Tensor T))
    (reserve : Tensor T) (impl_index : Z) :
  (_batch_norm_impl_index compiledWithCuDNN batchnormMinEpsilonCuDNN
     versionCuDNN compiledWithMIOpen
     batch_norm_cpu_inference_contiguous_stub cudnn_batch_norm
     miopen_batch_norm batch_norm_cuda
     input weight bias running_mean running_var training momentum eps
     cudnn_enabled).1
  = Ok (output, save_mean, save_var, reserve, impl_index) →
  let cudnn := use_cudnn compiledWithCuDNN batchnormMinEpsilonCuDNN
                 versionCuDNN input weight bias running_mean running_var
                 training eps cudnn_enabled in
  let miopen := use_miopen compiledWithMIOpen input weight bias
                  running_mean running_var training cudnn_enabled in
  impl_index = (if cudnn then 1 else if miopen then 2 else 0)%Z
  ∧ ∀ (input' grad_output : Tensor T)
      (weight' running_mean' running_var' save_mean' save_var'
       : option (Tensor T))
      (train : bool) (epsilon : T) (output_mask : bool * bool * bool)
      (reservedSpace : Tensor T),
      _batch_norm_impl_index_backward batch_norm_backward_cuda
        cudnn_batch_norm_backward miopen_batch_norm_backward
        impl_index input' grad_output weight' running_mean' running_var'
        save_mean' save_var' train epsilon output_mask reservedSpace
      = if cudnn then
          cudnn_batch_norm_backward input' grad_output weight'
            running_mean' running_var' save_mean' save_var' epsilon
            reservedSpace
        else if miopen then
          miopen_batch_norm_backward input' grad_output weight'
            running_mean' running_var' save_mean' save_var' epsilon
        else
          native_batch_norm_backward batch_norm_backward_cuda
            grad_output input' weight' running_mean' running_var'
            save_mean' save_var' train epsilon output_mask.
Proof.
  intros Hfwd cudnn miopen.
  assert (impl_index = (if cudnn then 1 else if miopen then 2 else 0)%Z)
    as ->.
  { revert Hfwd. unfold _batch_norm_impl_index. fold cudnn miopen.
    destruct (check_parameters _ _ _ _ _ _); [|done].
    destruct cudnn eqn:Ec.
    - assert (defined weight = true ∧ defined bias = true) as [Hw Hb].
      { subst cudnn. unfold use_cudnn in Ec.
        repeat (apply andb_prop in Ec; destruct Ec as [Ec ?]). done. }
      destruct weight as [w|]; [|done]. destruct bias as [b|]; [|done].
      simpl.
      destruct (cudnn_batch_norm _ _ _ _ _ _ _ _)
        as [[[[[o sm] sv] rs]|m] st]; simpl; [|done].
      by intros [= _ _ _ _ <-].
    - destruct miopen eqn:Em.
      + assert (defined weight = true ∧ defined bias = true) as [Hw Hb].
        { subst miopen. unfold use_miopen in Em.
          repeat (apply andb_prop in Em; destruct Em as [Em ?]). done. }
        destruct weight as [w|]; [|done]. destruct bias as [b|]; [|done].
        simpl.
        destruct (miopen_batch_norm _ _ _ _ _ _ _ _)
          as [[[[o sm] sv]|m] st]; simpl; [|done].
        by intros [= _ _ _ _ <-].
      + destruct (native_batch_norm _ _ _ _ _ _ _ _ _ _)
          as [[[[o sm] sv]|m] st]; simpl; [|done].
        by intros [= _ _ _ _ <-]. }
  split; [done|].
  intros. unfold _batch_norm_impl_index_backward.
  by destruct cudnn, miopen.
Qed.
End SelectorPaths.

Lemma cpu_input_takes_native_path_witness :
  let input := cpu_double [2; 1; 1] [3; 5]%float in
  (impl_index_cpu_double input None None None None true 0.5%float 0%float
     true).2
  = (batch_norm_cpu stub_keeps_output input None None None None true
       0.5%float 0%float).2.
Proof.
  exact (proj1 (cpu_input_takes_native_path true 0%float 8000%Z true
           stub_keeps_output cudnn_unavailable miopen_unavailable
           cuda_unavailable (cpu_double [2; 1; 1] [3; 5]%float)
           None None None None true 0.5%float 0%float true
           eq_refl eq_refl)).
Defined.

Lemma forward_tag_selects_matching_backward_witness :
  let input := cpu_double [1; 1; 1] [3]%float in
  let running_mean := Some (cpu_double [1] [0]%float) in
  let running_var := Some (cpu_double [1] [1]%float) in
  0%Z = (if use_cudnn true 0%float 8000%Z input None None running_mean
              running_var false 0%float true
         then 1
         else if use_miopen true input None None running_mean running_var
                   false true
              then 2 else 0)%Z.
Proof.
  refine (proj1 (forward_tag_selects_matching_backward true 0%float 8000%Z
           true stub_keeps_output cudnn_unavailable miopen_unavailable
           cuda_unavailable backward_unavailable
           cudnn_backward_unavailable miopen_backward_unavailable
           (cpu_double [1; 1; 1] [3]%float) None None
           (Some (cpu_double [1] [0]%float))
           (Some (cpu_double [1] [1]%float)) false 0.5%float 0%float true
           (cpu_double [1; 1; 1] [0]%float) None None
           (empty [0] false kByte Contiguous) 0%Z _)).
  vm_compute. reflexivity.
Defined.

(** ** The entry point [batch_norm] *)

Section EntryFacts.
Context {T : Type} `{Scalar T}.
Variable compiledWithCuDNN : bool.
Variable batchnormMinEpsilonCuDNN : T.
Variable versionCuDNN : Z.
Variable compiledWithMIOpen : bool.
Variable batch_norm_cpu_inference_contiguous_stub :
  Tensor T → Tensor T → option (Tensor T) → option (Tensor T) →
  Tensor T → Tensor T → T → Tensor T.
Variable cudnn_batch_norm :
  Tensor T → Tensor T → Tensor T → option (Tensor T) → option (Tensor T) →
  bool → T → T → forward4 T.
Variable miopen_batch_norm :
  Tensor T → Tensor T → Tensor T → option (Tensor T) → option (Tensor T) →
  bool → T → T → forward3 T.
Variable batch_norm_cuda :
  Tensor T → option (Tensor T) → option (Tensor T) →
  option (Tensor T) → option (Tensor T) → bool → T → T → forward3 T.
Variable index0 : Tensor T → result (Tensor T).
Variable at_mul : Tensor T → Tensor T → result (Tensor T).
Variable at_add : Tensor T → Tensor T → result (Tensor T).

(** X5.  [batch_norm] on an input without elements validates nothing and
    runs no strategy: the running statistics are left as received, the
    result does not depend on the running statistics, the mode, the
    momentum, epsilon or [cudnn_enabled], and without weight and bias it
    is the input itself (its clone). *)
Theorem batch_norm_empty_input (input : Tensor T)
    (weight bias running_mean running_var : option (Tensor T))
    (training : bool) (momentum eps : T) (cudnn_enabled : bool) :
  numel input = 0 →
  let r := batch_norm compiledWithCuDNN batchnormMinEpsilonCuDNN
             versionCuDNN compiledWithMIOpen
             batch_norm_cpu_inference_contiguous_stub cudnn_batch_norm
             miopen_batch_norm batch_norm_cuda index0 at_mul at_add
             input weight bias running_mean running_var training momentum
             eps cudnn_enabled in
  r.2 = (running_mean, running_var)
  ∧ (weight = None → bias = None → r.1 = Ok input)
  ∧ (∀ (running_mean' running_var' : option (Tensor T)) (training' : bool)
       (momentum' eps' : T) (cudnn_enabled' : bool),
       (batch_norm compiledWithCuDNN batchnormMinEpsilonCuDNN
          versionCuDNN compiledWithMIOpen
          batch_norm_cpu_inference_contiguous_stub cudnn_batch_norm
          miopen_batch_norm batch_norm_cuda index0 at_mul at_add
          input weight bias running_mean' running_var' training'
          momentum' eps' cudnn_enabled').1 = r.1).
Proof.
  intros Hn r. subst r. unfold batch_norm.
  rewrite !bool_decide_eq_true_2 by done. simpl.
  split; [done|]. split; [by intros -> ->|].
  done.
Qed.

(** a non-empty CPU input with well-shaped parameters goes from
    [batch_norm] to [batch_norm_cpu] *)
Lemma batch_norm_cpu_path (input : Tensor T) weight bias rm rv training
    momentum eps ce :
  numel input ≠ 0 → is_cuda input = false →
  channel_vector input weight → channel_vector input bias →
  channel_vector input rm → channel_vector input rv →
  (training = false → defined rm = true ∧ defined rv = true) →
  batch_norm compiledWithCuDNN batchnormMinEpsilonCuDNN versionCuDNN
    compiledWithMIOpen batch_norm_cpu_inference_contiguous_stub
    cudnn_batch_norm miopen_batch_norm batch_norm_cuda index0 at_mul
    at_add input weight bias rm rv training momentum eps ce
  = let r := batch_norm_cpu batch_norm_cpu_inference_contiguous_stub
               input weight bias rm rv training momentum eps in
    ((fun o3 : Tensor T * option (Tensor T) * option (Tensor T) => o3.1.1)
       <$> r.1, r.2).
Proof.
  intros Hn Hcpu Hw Hb Hrm Hrv Hdef. unfold batch_norm.
  rewrite bool_decide_eq_false_2 by done.
  rewrite impl_index_cpu
    by (done || by apply check_parameters_channel_vectors).
  cbv zeta.
  by destruct (batch_norm_cpu _ _ _ _ _ _ _ _ _) as [[[[o sm] sv]|m] st].
Qed.
End EntryFacts.

Lemma batch_norm_empty_input_witness :
  (batch_norm_cpu_double (cpu_double [0; 2; 1] []) None None None None
     false 0.5%float 0%float true).2 = (None, None).
Proof.
  exact (proj1 (batch_norm_empty_input true 0%float 8000%Z true
           stub_keeps_output cudnn_unavailable miopen_unavailable
           cuda_unavailable index_unavailable arithmetic_unavailable
           arithmetic_unavailable (cpu_double [0; 2; 1] []) None None
           None None false 0.5%float 0%float true eq_refl)).
Defined.

(** ** Evaluation-mode forward on the CPU *)




(** X7.  An evaluation call of [batch_norm_cpu] on a channels-last input
    of four axes, with more than one channel and an image of more than
    one element (so that the input is not contiguous in row-major order
    as well), and with contiguous parameters and running statistics of
    the element type of the input, takes the channels-last fast path: it succeeds, returns undefined saved
    statistics, leaves the running statistics untouched, and its output,
    channels-last and of the shape of the input, is at every element
    [x * alpha[c] + beta[c]] with the fused coefficients
    [alpha[c] = (1 / sqrt(running_var[c] + eps)) * weight[c]] and
    [beta[c] = bias[c] - running_mean[c] * (1 / sqrt(running_var[c] + eps))
               * weight[c]]. *)
Theorem evaluation_forward_channels_last (T : Type) (HT : Scalar T)
    (stub : Tensor T → Tensor T → option (Tensor T) → option (Tensor T) →
            Tensor T → Tensor T → T → Tensor T)
    (input : Tensor T) (weight bias : option (Tensor T))
    (running_mean running_var : Tensor T) (momentum eps : T)
    (n c s : nat) :
  well_formed input → format input = ChannelsLast →
  dim input = 4 → 1 < size input 1 → 1 < inner input →
  is_cuda input = false → floating_type (scalar_type input) = true →
  accessor_vector input weight → accessor_vector input bias →
  accessor_vector input (Some running_mean) →
  accessor_vector input (Some running_var) →
  operands_contiguous weight bias (Some running_mean) (Some running_var)
  = true →
  n < size input 0 → c < size input 1 → s < inner input →
  ∃ output,
    batch_norm_cpu stub input weight bias (Some running_mean)
      (Some running_var) false momentum eps
    = (Ok (output, None, None), (Some running_mean, Some running_var))
    ∧ sizes output = sizes input ∧ format output = ChannelsLast
    ∧ get output n c s
      = (get input n c s * fused_alpha weight running_var eps c
         + fused_beta weight bias running_mean running_var eps c)%sc.
Proof.
  intros [Hd Hlen] Hfmt Hd4 HC Himg Hcpu Hty Hw Hb Hrm Hrv Hcont Hn Hc Hs.
  apply accessor_vector_channel in Hw, Hb, Hrm, Hrv.
  unfold batch_norm_cpu.
  rewrite checkBackend_cpu by auto using channel_vector_running.
  rewrite Hty. simpl negb. cbv iota.
  unfold batch_norm_cpu_transform_input_template.
  unfold operands_contiguous in Hcont. simpl in Hcont.
  apply andb_prop in Hcont as [Hcont Hcv].
  apply andb_prop in Hcont as [Hcont Hcm].
  apply andb_prop in Hcont as [Hcw Hcb].
  unfold is_contiguous at 1, is_contiguous_channels_last.
  rewrite Hfmt, Hcw, Hcb. simpl. rewrite Hcm, Hcv. simpl.
  set (out := batch_norm_cpu_inference_channels_last _ _ _ _ _ _ _).
  destruct (channels_last_shape (empty_like input ChannelsLast) input
              weight bias running_mean running_var eps) as [Hsz Hf].
  fold out in Hsz, Hf. simpl in Hsz, Hf.
  exists out. split; [done|]. split; [done|]. split; [done|].
  unfold get, offset. rewrite Hf, Hfmt. unfold size at 1, inner at 1.
  rewrite Hsz. fold (size input 1) (inner input).
  subst out. apply channels_last_at; try done.
  - unfold empty_like, empty. simpl. by rewrite length_replicate.
  - by rewrite (channel_vector_numel input running_mean).
Qed.

Lemma evaluation_forward_channels_last_witness :
  let input := channels_last_double [1; 2; 2; 1] [3; 5; 7; 9]%float in
  let running_mean := cpu_double [2] [1; 2]%float in
  let running_var := cpu_double [2] [4; 9]%float in
  ∃ output,
    batch_norm_cpu stub_keeps_output input None None (Some running_mean)
      (Some running_var) false 0.5%float 0%float
    = (Ok (output, None, None), (Some running_mean, Some running_var))
    ∧ sizes output = sizes input ∧ format output = ChannelsLast
    ∧ get output 0 1 1
      = (get input 0 1 1 * fused_alpha None running_var 0%float 1
         + fused_beta None None running_mean running_var 0%float 1)%sc.
Proof.
  apply (evaluation_forward_channels_last float _ stub_keeps_output
           (channels_last_double [1; 2; 2; 1] [3; 5; 7; 9]%float) None
           None (cpu_double [2] [1; 2]%float)
           (cpu_double [2] [4; 9]%float) 0.5%float 0%float 0 1 1).
  - split; vm_compute; [lia|reflexivity].
  - reflexivity.
  - reflexivity.
  - vm_compute. lia.
  - vm_compute. lia.
  - reflexivity.
  - reflexivity.
  - exact I.
  - exact I.
  - vm_compute. repeat split; reflexivity.
  - vm_compute. repeat split; reflexivity.
  - reflexivity.
  - vm_compute. lia.
  - vm_compute. lia.
  - vm_compute. lia.
Defined.

(** ** Training-mode forward on the CPU *)

(** a training call of [batch_norm_cpu] whose weight is not a vector
    fails after the statistics routine ran *)
Lemma training_failure_after_statistics (T : Type) (HT : Scalar T)
    (stub : Tensor T → Tensor T → option (Tensor T) → option (Tensor T) →
            Tensor T → Tensor T → T → Tensor T)
    (input weight : Tensor T) (bias : option (Tensor T))
    (running_mean running_var : Tensor T) (momentum eps : T) (c : nat) :
  is_cuda input = false → floating_type (scalar_type input) = true →
  is_cuda weight = false → dim weight ≠ 1 →
  channel_vector input bias →
  channel_vector input (Some running_mean) →
  channel_vector input (Some running_var) →
  c < size input 1 →
  let count := (Z.of_nat (numel input) / Z.of_nat (size input 1))%Z in
  let mean := channel_mean input c in
  let unbiased := (var_sum input mean c / of_int64 (count - 1))%sc in
  ∃ msg running_mean' running_var',
    batch_norm_cpu stub input (Some weight) bias (Some running_mean)
      (Some running_var) true momentum eps
    = (Err msg, (Some running_mean', Some running_var'))
    ∧ at1 running_mean' c
      = (momentum * mean + (sc1 - momentum) * at1 running_mean c)%sc
    ∧ at1 running_var' c
      = (momentum * unbiased + (sc1 - momentum) * at1 running_var c)%sc.
Proof.
  intros Hcpu Hty Hwc Hwd Hb Hrm Hrv Hc count mean unbiased.
  destruct (update_stats_template_spec InvStd input (Some running_mean)
              (Some running_var) momentum eps c Hc)
    as (_ & _ & Hm & Hv).
  { intros t [= <-]. by destruct (channel_vector_running input _ Hrm). }
  { intros t [= <-]. by destruct (channel_vector_running input _ Hrv). }
  destruct (update_stats_template_shapes InvStd input (Some running_mean)
              (Some running_var) momentum eps) as [Hmean Hsz].
  unfold batch_norm_cpu, checkBackend.
  assert (forallb (fun t : option (Tensor T) =>
            match t with Some t => negb (is_cuda t) | None => true end)
            [Some input; Some weight; bias; Some running_mean;
             Some running_var] = true) as ->.
  { simpl. rewrite Hcpu, Hwc. destruct Hrm as [-> _], Hrv as [-> _].
    destruct bias as [b|]; [destruct Hb as [-> _]|]; done. }
  rewrite Hty. simpl negb. cbv iota.
  destruct (batch_norm_cpu_update_stats_template InvStd input
              (Some running_mean) (Some running_var) momentum eps)
    as [[[save_mean save_invstd] rm'] rv'] eqn:Er.
  simpl in Hm, Hv, Hmean, Hsz.
  destruct rm' as [rm'|]; [|discriminate Hm].
  destruct rv' as [rv'|]; [|discriminate Hv].
  simpl in Hm, Hv. injection Hm as Hm. injection Hv as Hv.
  unfold batch_norm_cpu_transform_input_template. simpl.
  unfold as_nd.
  assert (dim save_mean = 1 ∧ size save_mean 0 = size input 1) as [-> ->].
  { subst save_mean. done. }
  assert (dim save_invstd = 1 ∧ size save_invstd 0 = size input 1)
    as [-> ->].
  { unfold dim, size. by rewrite Hsz. }
  rewrite (bool_decide_eq_true_2 (1 = 1)) by done.
  rewrite (bool_decide_eq_true_2 (size input 1 = size input 1)) by done.
  simpl. rewrite (bool_decide_eq_false_2 (dim weight = 1)) by done. simpl.
  eexists _, rm', rv'. split; [reflexivity|]. done.
Qed.

Section FailureAfterStatistics.
Context {T : Type} `{Scalar T}.
Variable compiledWithCuDNN : bool.
Variable batchnormMinEpsilonCuDNN : T.
Variable versionCuDNN : Z.
Variable compiledWithMIOpen : bool.
Variable batch_norm_cpu_inference_contiguous_stub :
  Tensor T → Tensor T → option (Tensor T) → option (Tensor T) →
  Tensor T → Tensor T → T → Tensor T.
Variable cudnn_batch_norm :
  Tensor T → Tensor T → Tensor T → option (Tensor T) → option (Tensor T) →
  bool → T → T → forward4 T.
Variable miopen_batch_norm :
  Tensor T → Tensor T → Tensor T → option (Tensor T) → option (Tensor T) →
  bool → T → T → forward3 T.
Variable batch_norm_cuda :
  Tensor T → option (Tensor T) → option (Tensor T) →
  option (Tensor T) → option (Tensor T) → bool → T → T → forward3 T.

(** X8.  A weight with the right number of elements but not one axis
    passes the parameter check of [_batch_norm_impl_index], and a
    training call on the CPU then fails in the forward transform, at the
    assertion that the weight is a vector; by then the statistics routine
    has run, and the running statistics the failed call leaves are the
    blended ones: [momentum * mean[c] + (1 - momentum) * running_mean[c]]
    and [momentum * unbiased_var[c] + (1 - momentum) * running_var[c]].
    The statement is for a [double] input, whose accumulation type is
    [double] again, and for running statistics that the accessor of the
    statistics routine accepts. *)
Theorem training_failure_leaves_updated_statistics
    (input weight : Tensor T) (bias : option (Tensor T))
    (running_mean running_var : Tensor T) (momentum eps : T)
    (cudnn_enabled : bool) (c : nat) :
  well_formed input →
  is_cuda input = false → scalar_type input = kDouble →
  is_cuda weight = false → dim weight ≠ 1 → numel weight = size input 1 →
  accessor_vector input bias →
  accessor_vector input (Some running_mean) →
  accessor_vector input (Some running_var) →
  c < size input 1 →
  let count := (Z.of_nat (numel input) / Z.of_nat (size input 1))%Z in
  let mean := mean_over_channel input c in
  let unbiased :=
    (squares_over_channel input mean c / of_int64 (count - 1))%sc in
  check_parameters input (Some weight) bias (Some running_mean)
    (Some running_var) true = Ok ()
  ∧ ∃ msg running_mean' running_var',
      _batch_norm_impl_index compiledWithCuDNN batchnormMinEpsilonCuDNN
        versionCuDNN compiledWithMIOpen
        batch_norm_cpu_inference_contiguous_stub cudnn_batch_norm
        miopen_batch_norm batch_norm_cuda
        input (Some weight) bias (Some running_mean) (Some running_var)
        true momentum eps cudnn_enabled
      = (Err msg, (Some running_mean', Some running_var'))
      ∧ at1 running_mean' c
        = (momentum * mean + (sc1 - momentum) * at1 running_mean c)%sc
      ∧ at1 running_var' c
        = (momentum * unbiased + (sc1 - momentum) * at1 running_var c)%sc.
Proof.
  intros Hwf Hcpu Hty Hwc Hwd Hwn Hb Hrm Hrv Hc count mean unbiased.
  subst mean unbiased. rewrite <- channel_mean_over, <- var_sum_over.
  apply double_is_floating in Hty.
  apply accessor_vector_channel in Hb, Hrm, Hrv.
  assert (check_parameters input (Some weight) bias (Some running_mean)
            (Some running_var) true = Ok ()) as Hok.
  { apply (check_parameters_spec input (Some weight) bias
             (Some running_mean) (Some running_var) true).
    unfold count_mismatch, missing_in_evaluation.
    intros [Hx|[Hx|[Hx|[Hx|[Hx|Hx]]]]]; try done.
    - destruct bias as [t|]; [|done].
      by rewrite (channel_vector_numel input t) in Hx.
    - by rewrite (channel_vector_numel input running_mean) in Hx.
    - by rewrite (channel_vector_numel input running_var) in Hx.
    - by destruct Hx.
    - by destruct Hx. }
  split; [exact Hok|].
  rewrite impl_index_cpu by done. cbv zeta.
  destruct (training_failure_after_statistics T _
              batch_norm_cpu_inference_contiguous_stub input weight bias
              running_mean running_var momentum eps c)
    as (msg & rm' & rv' & -> & Hm & Hv); try done.
  by exists msg, rm', rv'.
Qed.
End FailureAfterStatistics.

Lemma training_failure_leaves_updated_statistics_witness :
  let input := cpu_double [2; 1; 1] [3; 5]%float in
  let weight := cpu_double [1; 1] [2]%float in
  let running_mean := cpu_double [1] [0]%float in
  let running_var := cpu_double [1] [1]%float in
  let mean := mean_over_channel input 0 in
  let unbiased :=
    (squares_over_channel input mean 0 / of_int64 (2 - 1))%sc in
  check_parameters input (Some weight) None (Some running_mean)
    (Some running_var) true = Ok ()
  ∧ ∃ msg running_mean' running_var',
      impl_index_cpu_double input (Some weight) None (Some running_mean)
        (Some running_var) true 0.5%float 0%float true
      = (Err msg, (Some running_mean', Some running_var'))
      ∧ at1 running_mean' 0
        = (0.5%float * mean + (sc1 - 0.5%float) * at1 running_mean 0)%sc
      ∧ at1 running_var' 0
        = (0.5%float * unbiased
           + (sc1 - 0.5%float) * at1 running_var 0)%sc.
Proof.
  apply (training_failure_leaves_updated_statistics true 0%float 8000%Z
           true stub_keeps_output cudnn_unavailable miopen_unavailable
           cuda_unavailable (cpu_double [2; 1; 1] [3; 5]%float)
           (cpu_double [1; 1] [2]%float) None (cpu_double [1] [0]%float)
           (cpu_double [1] [1]%float) 0.5%float 0%float true 0).
  - split; vm_compute; [lia|reflexivity].
  - reflexivity.
  - reflexivity.
  - reflexivity.
  - vm_compute. lia.
  - reflexivity.
  - exact I.
  - vm_compute. repeat split; reflexivity.
  - vm_compute. repeat split; reflexivity.
  - vm_compute. lia.
Defined.



(** ** The outputs of the backward kernel *)

(** X10.  The backward kernel allocates exactly the gradients its mask
    selects: with a weight, the call succeeds, the input gradient is
    present exactly when [mask[0]] is set and has the shape of the
    input, and the weight and bias gradients are present exactly when
    [mask[1]] and [mask[2]] are set and have the shape of the weight.
    Without a weight the call succeeds when neither parameter gradient is
    selected, and fails when one is.  The statement is for the
    instantiation at [double] on an input with at least one channel,
    with the statistics of the mode present (the saved ones in training
    mode, the running ones in evaluation mode) and every per-channel
    operand one the accessors of the kernel accept. *)
Theorem backward_outputs_follow_mask (T : Type) (HT : Scalar T)
    (grad_out_ input : Tensor T)
    (weight running_mean running_var save_mean save_invstd
     : option (Tensor T))
    (train : bool) (eps : T) (mask0 mask1 mask2 : bool) :
  backward_operands grad_out_ input weight running_mean running_var
    save_mean save_invstd →
  0 < size input 1 →
  (if train then is_Some save_mean ∧ is_Some save_invstd
   else is_Some running_mean ∧ is_Some running_var) →
  let r := batch_norm_backward_cpu_template grad_out_ input weight
             running_mean running_var save_mean save_invstd train eps
             (mask0, mask1, mask2) in
  (∀ wt, weight = Some wt →
     ∃ grad_input grad_weight grad_bias,
       r = Ok (grad_input, grad_weight, grad_bias)
       ∧ (sizes <$> grad_input
          = if mask0 then Some (sizes input) else None)
       ∧ (sizes <$> grad_weight
          = if mask1 then Some (sizes wt) else None)
       ∧ (sizes <$> grad_bias
          = if mask2 then Some (sizes wt) else None))
  ∧ (weight = None → mask1 = false → mask2 = false →
     ∃ grad_input,
       r = Ok (grad_input, None, None)
       ∧ sizes <$> grad_input
         = if mask0 then Some (sizes input) else None)
  ∧ (weight = None → mask1 || mask2 = true → ∃ msg, r = Err msg).
Proof.
  intros ([Hd _] & _ & _ & _ & _ & _ & Hsz & _) HC Hstats r. subst r. unfold batch_norm_backward_cpu_template.
  set (gi0 := if mask0 then Some (empty_like input Contiguous) else None).
  assert (sizes <$> (if mask0 then
       (fun g => foldl (fun g f => grad_input_channel grad_out_ input weight
          running_mean running_var save_mean save_invstd train eps
          (Z.of_nat (numel input) / Z.of_nat (size input 1))
          (at_sum grad_out_) f g) g (seq 0 (size input 1))) <$> gi0
     else gi0) = if mask0 then Some (sizes input) else None) as Hgi.
  { subst gi0. destruct mask0; [|done]. simpl. f_equal.
    apply (channel_loop_fillable
             (grad_input_channel grad_out_ input weight running_mean
                running_var save_mean save_invstd train eps
                (Z.of_nat (numel input) / Z.of_nat (size input 1))
                (at_sum grad_out_)) (sizes input)).
    - intros f g'. apply grad_input_channel_fillable.
    - by apply empty_like_fillable. }
  split; [|split].
  - intros wt ->.
    destruct mask1, mask2; simpl; rewrite backward_fold; simpl;
      eexists _, _, _; (split; [reflexivity|]);
      (split; [exact Hgi|]);
      cbn [fmap option_fmap option_map];
      rewrite ?(proj1 (foldl_set_step_shape _ _ _)); done.
  - intros -> -> ->. simpl. rewrite backward_fold. simpl.
    eexists. split; [reflexivity|].
    exact Hgi.
  - intros -> Hm. destruct mask1; simpl; [eauto|].
    destruct mask2; simpl; [eauto|done].
Qed.

Lemma backward_outputs_follow_mask_witness :
  let input := cpu_double [2; 1; 1] [3; 5]%float in
  let grad_out := cpu_double [2; 1; 1] [1; 1]%float in
  let weight := cpu_double [1] [2]%float in
  let save_mean := cpu_double [1] [4]%float in
  let save_invstd := cpu_double [1] [1]%float in
  ∃ grad_input grad_weight grad_bias,
    batch_norm_backward_cpu_template grad_out input (Some weight) None
      None (Some save_mean) (Some save_invstd) true 0%float
      (true, true, false)
    = Ok (grad_input, grad_weight, grad_bias)
    ∧ sizes <$> grad_input = Some (sizes input)
    ∧ sizes <$> grad_weight = Some (sizes weight)
    ∧ sizes <$> grad_bias = None.
Proof.
  refine (proj1 (backward_outputs_follow_mask float _
           (cpu_double [2; 1; 1] [1; 1]%float)
           (cpu_double [2; 1; 1] [3; 5]%float)
           (Some (cpu_double [1] [2]%float)) None None
           (Some (cpu_double [1] [4]%float))
           (Some (cpu_double [1] [1]%float))
           true 0%float true true false _ _ _) _ eq_refl).
  - vm_compute. repeat split; reflexivity || lia.
  - vm_compute. lia.
  - split; eexists; reflexivity.
Defined.

(** ** The axes the reductions run over *)

Lemma reduce_dims_loop (m k : nat) :
  k ≤ m →
  foldl (fun rd i => <[i - 1 := Z.of_nat i]> rd)
        (0%Z :: replicate m 0%Z) (seq 2 k)
  = 0%Z :: (Z.of_nat <$> seq 2 k) ++ replicate (m - k) 0%Z.
Proof.
  induction k as [|k IH]; intros Hk.
  { simpl. by rewrite Nat.sub_0_r. }
  rewrite seq_S, foldl_snoc, IH by lia.
  replace (2 + k - 1) with (S k) by lia. simpl.
  rewrite fmap_app. simpl. rewrite <- app_assoc. f_equal.
  rewrite insert_app_r_alt by (rewrite length_fmap, length_seq; lia).
  rewrite length_fmap, length_seq, Nat.sub_diag.
  replace (m - k) with (S (m - S k)) by lia. done.
Qed.

(** X11.  For an input of at least two axes, the [reduce_dims] the
    statistics and backward kernels build is [0, 2, 3, ..., ndim - 1]:
    [ndim - 1] distinct axes, every axis of the input but the channel
    axis [1]. *)
Theorem reduce_dims_skip_channel_axis (ndim : nat) :
  2 ≤ ndim →
  batch_norm_reduce_dims ndim = 0%Z :: (Z.of_nat <$> seq 2 (ndim - 2))
  ∧ length (batch_norm_reduce_dims ndim) = ndim - 1
  ∧ NoDup (batch_norm_reduce_dims ndim)
  ∧ ∀ d : Z, d ∈ batch_norm_reduce_dims ndim
             ↔ (0 ≤ d < Z.of_nat ndim)%Z ∧ d ≠ 1%Z.
Proof.
  intros Hn.
  assert (batch_norm_reduce_dims ndim
          = 0%Z :: (Z.of_nat <$> seq 2 (ndim - 2))) as ->.
  { unfold batch_norm_reduce_dims.
    replace (ndim - 1) with (S (ndim - 2)) by lia. simpl.
    rewrite reduce_dims_loop by done.
    by rewrite Nat.sub_diag, app_nil_r. }
  split; [done|]. split.
  { simpl. rewrite length_fmap, length_seq. lia. }
  split.
  { apply NoDup_cons. split.
    - intros (i & Hi & Hin)%list_elem_of_fmap. apply elem_of_seq in Hin. lia.
    - apply NoDup_fmap; [apply Nat2Z.inj'|apply NoDup_seq]. }
  intros d. rewrite elem_of_cons, list_elem_of_fmap. split.
  - intros [->|(i & -> & Hin)]; [lia|]. apply elem_of_seq in Hin. lia.
  - intros [Hd Hne]. destruct (decide (d = 0%Z)) as [->|Hz]; [by left|].
    right. exists (Z.to_nat d). split; [lia|]. apply elem_of_seq. lia.
Qed.

Lemma reduce_dims_skip_channel_axis_witness :
  batch_norm_reduce_dims 4 = [0; 2; 3]%Z.
Proof.
  exact (proj1 (reduce_dims_skip_channel_axis 4 ltac:(lia))).
Defined.

Lemma delete_seq (d n : nat) :
  d < n → delete d (seq 0 n) = seq 0 d ++ seq (S d) (n - S d).
Proof.
  intros Hd. rewrite delete_take_drop, take_seq, drop_seq.
  by rewrite Nat.min_l by lia.
Qed.

(** X12.  For an axis [dim] within [[-ndim, ndim - 1]], the [reduce_dims]
    of [renorm_out] are [ndim - 1] distinct axes, every axis of the input
    but [dim] itself, a negative [dim] counted from the last axis; an
    axis outside that range is rejected. *)
Theorem renorm_reduces_every_other_axis (dim_ : Z) (ndim : nat) :
  ((- Z.of_nat ndim ≤ dim_ < Z.of_nat ndim)%Z →
     ∃ reduce_dims,
       renorm_reduce_dims dim_ ndim = Ok reduce_dims
       ∧ length reduce_dims = ndim - 1
       ∧ NoDup reduce_dims
       ∧ ∀ a : Z, a ∈ reduce_dims
                  ↔ (0 ≤ a < Z.of_nat ndim)%Z
                    ∧ a ≠ (dim_ `mod` Z.of_nat ndim)%Z)
  ∧ (¬ (- Z.of_nat ndim ≤ dim_ < Z.of_nat ndim)%Z →
     ∃ msg, renorm_reduce_dims dim_ ndim = Err msg).
Proof.
  unfold renorm_reduce_dims, maybe_wrap_dim. split.
  - intros Hr. rewrite bool_decide_eq_true_2 by done. simpl.
    set (d := Z.to_nat (if bool_decide (dim_ < 0)%Z
                        then dim_ + Z.of_nat ndim else dim_)%Z).
    assert (d < ndim ∧ Z.of_nat d = (dim_ `mod` Z.of_nat ndim)%Z)
      as [Hd Hmod].
    { subst d. case_bool_decide.
      - split; [lia|]. rewrite Z2Nat.id by lia.
        apply (Z.mod_unique_pos _ _ (-1)); lia.
      - split; [lia|]. rewrite Z2Nat.id by lia.
        apply (Z.mod_unique_pos _ _ 0); lia. }
    rewrite <- Hmod. clearbody d.
    eexists. split; [reflexivity|].
    rewrite <- list_fmap_delete, delete_seq by done.
    split. { rewrite length_fmap, length_app, !length_seq. lia. }
    split.
    { apply NoDup_fmap; [apply Nat2Z.inj'|].
      apply NoDup_app. split; [apply NoDup_seq|].
      split; [|apply NoDup_seq].
      intros x Hx Hx'. apply elem_of_seq in Hx, Hx'. lia. }
    intros a. rewrite list_elem_of_fmap. split.
    + intros (i & -> & Hin). apply elem_of_app in Hin.
      rewrite !elem_of_seq in Hin. lia.
    + intros [Ha Hne]. exists (Z.to_nat a). split; [lia|].
      apply elem_of_app. rewrite !elem_of_seq. lia.
  - intros Hr. rewrite bool_decide_eq_false_2 by done. simpl. eauto.
Qed.

Lemma renorm_reduces_every_other_axis_witness :
  ∃ reduce_dims,
    renorm_reduce_dims (-1) 3 = Ok reduce_dims
    ∧ length reduce_dims = 3 - 1
    ∧ NoDup reduce_dims
    ∧ ∀ a : Z, a ∈ reduce_dims
               ↔ (0 ≤ a < Z.of_nat 3)%Z ∧ a ≠ ((-1) `mod` Z.of_nat 3)%Z.
Proof.
  apply (proj1 (renorm_reduces_every_other_axis (-1) 3)). lia.
Defined.

Section RenormOutFacts.
Context {T : Type} `{Scalar T}.
Variable toAccumulateType : ScalarType → ScalarType.
Variable toValueType : ScalarType → ScalarType.
Variable linalg_vector_norm :
  Tensor T → T → list Z → bool → option ScalarType → result (Tensor T).
Variable renorm_scale_factor_stub : Tensor T → Tensor T → T → Tensor T.
Variable mul_outf : Tensor T → Tensor T → Tensor T → result (Tensor T).

(** X13.  [renorm_out] treats a negative axis as counted from the last
    one: for [dim] within [[-ndim, ndim - 1]] the call is the call on
    [dim mod ndim], whatever the norm, scaling and multiplication kernels
    are; for an axis outside that range it fails before any kernel
    runs. *)
Theorem renorm_out_axis (self : Tensor T) (p : c10_Scalar T) (dim_ : Z)
    (maxnorm : c10_Scalar T) (out : Tensor T) :
  let ndim := Z.of_nat (dim self) in
  let run := renorm_out_impl toAccumulateType toValueType
               linalg_vector_norm renorm_scale_factor_stub mul_outf
               self p in
  ((- ndim ≤ dim_ < ndim)%Z →
     run dim_ maxnorm out = run (dim_ `mod` ndim)%Z maxnorm out)
  ∧ (¬ (- ndim ≤ dim_ < ndim)%Z → ∃ msg, run dim_ maxnorm out = Err msg).
Proof.
  intros ndim run. subst run ndim.
  unfold renorm_out_impl, renorm_reduce_dims, maybe_wrap_dim.
  fold (dim self). split.
  - intros Hr.
    assert ((if bool_decide (dim_ < 0)%Z
             then dim_ + Z.of_nat (dim self) else dim_)%Z
            = (dim_ `mod` Z.of_nat (dim self))%Z) as Hwrap.
    { case_bool_decide.
      - apply (Z.mod_unique_pos _ _ (-1)); lia.
      - apply (Z.mod_unique_pos _ _ 0); lia. }
    rewrite Hwrap.
    assert (0 < Z.of_nat (dim self))%Z as Hpos by lia.
    pose proof (Z.mod_pos_bound dim_ _ Hpos) as Hm.
    set (d := (dim_ `mod` Z.of_nat (dim self))%Z) in *.
    rewrite (bool_decide_eq_true_2
               (- Z.of_nat (dim self) ≤ dim_ < Z.of_nat (dim self))%Z)
      by done.
    rewrite (bool_decide_eq_true_2
               (- Z.of_nat (dim self) ≤ d < Z.of_nat (dim self))%Z)
      by lia.
    rewrite (bool_decide_eq_false_2 (d < 0)%Z) by lia.
    reflexivity.
  - intros Hr.
    rewrite (bool_decide_eq_false_2
               (- Z.of_nat (dim self) ≤ dim_ < Z.of_nat (dim self))%Z)
      by done.
    simpl. eauto.
Qed.
End RenormOutFacts.

Lemma renorm_out_axis_witness :
  let self := cpu_double [2; 2] [1; 2; 3; 4]%float in
  let run := renorm_out_impl (fun ty => ty) (fun ty => ty)
               (fun t _ _ _ _ => Ok t) (fun factor _ _ => factor)
               (fun t _ _ => Ok t) self (ScalarDouble 2%float) in
  run (-1)%Z (ScalarDouble 1%float) self
  = run ((-1) `mod` Z.of_nat (dim self))%Z (ScalarDouble 1%float) self.
Proof.
  apply (proj1 (renorm_out_axis (fun ty => ty) (fun ty => ty)
           (fun t _ _ _ _ => Ok t) (fun factor _ _ => factor)
           (fun t _ _ => Ok t) (cpu_double [2; 2] [1; 2; 3; 4]%float)
           (ScalarDouble 2%float) (-1)%Z (ScalarDouble 1%float)
           (cpu_double [2; 2] [1; 2; 3; 4]%float))).
  unfold dim. simpl. lia.
Defined.

(** ** The statistics routine, call after call *)

Section RunningFrame.
Context {T : Type} `{Scalar T}.

Lemma update_stats_running_shape VT (input : Tensor T) rm rv momentum eps :
  let r := batch_norm_cpu_update_stats_template VT input rm rv momentum eps in
  (∀ t, rm = Some t →
     ∃ t', r.1.2 = Some t' ∧ sizes t' = sizes t ∧ is_cuda t' = is_cuda t
           ∧ length (data t') = length (data t))
  ∧ (∀ t, rv = Some t →
     ∃ t', r.2 = Some t' ∧ sizes t' = sizes t ∧ is_cuda t' = is_cuda t
           ∧ length (data t') = length (data t))
  ∧ (rm = None → r.1.2 = None) ∧ (rv = None → r.2 = None).
Proof.
  simpl. unfold batch_norm_cpu_update_stats_template.
  rewrite update_stats_fold. simpl.
  split; [|split; [|split]].
  - intros t ->. simpl. eexists. split; [done|].
    rewrite foldl_set_step_data. simpl. by rewrite foldl_write_length.
  - intros t ->. simpl. eexists. split; [done|].
    rewrite foldl_set_step_data. simpl. by rewrite foldl_write_length.
  - by intros ->.
  - by intros ->.
Qed.

Lemma update_stats_saved_independent VT (input : Tensor T) rm rv rm' rv'
    momentum momentum' eps :
  (batch_norm_cpu_update_stats_template VT input rm rv momentum eps).1.1
  = (batch_norm_cpu_update_stats_template VT input rm' rv' momentum' eps).1.1.
Proof.
  unfold batch_norm_cpu_update_stats_template.
  by rewrite !update_stats_fold.
Qed.
End RunningFrame.

Lemma update_stats_running_format {T} `{Scalar T} VT (input : Tensor T)
    rm rv momentum eps :
  let r := batch_norm_cpu_update_stats_template VT input rm rv momentum eps in
  (∀ t, rm = Some t →
     ∃ t', r.1.2 = Some t' ∧ sizes t' = sizes t ∧ format t' = format t)
  ∧ (∀ t, rv = Some t →
     ∃ t', r.2 = Some t' ∧ sizes t' = sizes t ∧ format t' = format t).
Proof.
  simpl. unfold batch_norm_cpu_update_stats_template.
  rewrite update_stats_fold. simpl. split.
  - intros t ->. simpl. eexists. split; [done|].
    by rewrite foldl_set_step_data.
  - intros t ->. simpl. eexists. split; [done|].
    by rewrite foldl_set_step_data.
Qed.

(** X14.  Two calls of [batch_norm_update_stats_cpu] in a row on the same
    input return the same batch statistics, and apply the blend to the
    running statistics twice: with [blend x old = momentum * x
    + (1 - momentum) * old], entry [c] of the running mean ends as
    [blend mean[c] (blend mean[c] running_mean[c])] and entry [c] of the
    running variance as
    [blend unbiased_var[c] (blend unbiased_var[c] running_var[c])].
    The statement is for a [double] input, whose accumulation type is
    [double] again, and for running statistics that the accessor of the
    routine accepts; the first call leaves their shape and type as they
    are. *)
Theorem update_stats_twice (T : Type) (HT : Scalar T) (input : Tensor T)
    (running_mean running_var : Tensor T) (momentum : T) (c : nat) :
  well_formed input →
  is_cuda input = false → scalar_type input = kDouble →
  accessor_vector input (Some running_mean) →
  accessor_vector input (Some running_var) →
  c < size input 1 →
  let count := (Z.of_nat (numel input) / Z.of_nat (size input 1))%Z in
  let mean := mean_over_channel input c in
  let unbiased :=
    (squares_over_channel input mean c / of_int64 (count - 1))%sc in
  let blend x old := (momentum * x + (sc1 - momentum) * old)%sc in
  let first := batch_norm_update_stats_cpu input (Some running_mean)
                 (Some running_var) momentum in
  let second := batch_norm_update_stats_cpu input first.2.1 first.2.2
                  momentum in
  second.1 = first.1
  ∧ (fun t => at1 t c) <$> second.2.1
    = Some (blend mean (blend mean (at1 running_mean c)))
  ∧ (fun t => at1 t c) <$> second.2.2
    = Some (blend unbiased (blend unbiased (at1 running_var c))).
Proof.
  intros Hwf Hcpu Hty Hrm Hrv Hc count mean unbiased blend first second.
  subst mean unbiased. rewrite <- channel_mean_over, <- var_sum_over.
  set (mean := channel_mean input c).
  set (unbiased := (var_sum input mean c / of_int64 (count - 1))%sc).
  apply double_is_floating in Hty.
  pose proof (accessor_vector_length input _ _ Hrm eq_refl) as Hlm.
  pose proof (accessor_vector_length input _ _ Hrv eq_refl) as Hlv.
  subst first second. unfold batch_norm_update_stats_cpu. rewrite Hty.
  destruct (update_stats_running_shape Var input (Some running_mean)
              (Some running_var) momentum sc0) as (Hs1 & Hs2 & _).
  destruct (Hs1 _ eq_refl) as (m1 & Em1 & _ & _ & Hl1).
  destruct (Hs2 _ eq_refl) as (v1 & Ev1 & _ & _ & Hl2).
  destruct (update_stats_template_spec Var input (Some running_mean)
              (Some running_var) momentum sc0 c Hc) as (_ & _ & Hb1 & Hb2).
  { by intros t [= <-]. } { by intros t [= <-]. }
  pose proof (update_stats_saved_independent Var input (Some running_mean)
                (Some running_var) (Some m1) (Some v1) momentum momentum
                sc0) as Hind.
  destruct (batch_norm_cpu_update_stats_template Var input
              (Some running_mean) (Some running_var) momentum sc0)
    as [[[sm1 sv1] rm1] rv1].
  simpl in Em1, Ev1, Hb1, Hb2, Hind. subst rm1 rv1.
  injection Hb1 as Hb1. injection Hb2 as Hb2.
  destruct (update_stats_template_spec Var input (Some m1) (Some v1)
              momentum sc0 c Hc) as (_ & _ & Hc1 & Hc2).
  { intros t [= <-]. lia. } { intros t [= <-]. lia. }
  cbn [fst snd].
  destruct (batch_norm_cpu_update_stats_template Var input (Some m1)
              (Some v1) momentum sc0) as [[[sm2 sv2] rm2] rv2].
  simpl in Hc1, Hc2, Hind. cbn [fst snd].
  split; [by rewrite Hind|].
  rewrite Hc1, Hc2. simpl. subst blend mean unbiased count. simpl.
  by rewrite Hb1, Hb2.
Qed.

Lemma update_stats_twice_witness :
  let input := cpu_double [2; 1; 1] [3; 5]%float in
  let running_mean := cpu_double [1] [0]%float in
  let running_var := cpu_double [1] [1]%float in
  let mean := mean_over_channel input 0 in
  let unbiased :=
    (squares_over_channel input mean 0 / of_int64 (2 - 1))%sc in
  let blend x old := (0.5%float * x + (sc1 - 0.5%float) * old)%sc in
  let first := batch_norm_update_stats_cpu input (Some running_mean)
                 (Some running_var) 0.5%float in
  let second := batch_norm_update_stats_cpu input first.2.1 first.2.2
                  0.5%float in
  second.1 = first.1
  ∧ (fun t => at1 t 0) <$> second.2.1
    = Some (blend mean (blend mean (at1 running_mean 0)))
  ∧ (fun t => at1 t 0) <$> second.2.2
    = Some (blend unbiased (blend unbiased (at1 running_var 0))).
Proof.
  apply (update_stats_twice float _ (cpu_double [2; 1; 1] [3; 5]%float)
           (cpu_double [1] [0]%float) (cpu_double [1] [1]%float)
           0.5%float 0).
  - split; vm_compute; [lia|reflexivity].
  - reflexivity.
  - reflexivity.
  - vm_compute. repeat split; reflexivity.
  - vm_compute. repeat split; reflexivity.
  - vm_compute. lia.
Defined.

(** ** Instance normalisation *)

Section InstanceLemmas.
Context {T : Type} `{Scalar T}.
Implicit Types input t : Tensor T.

Lemma sizes_split input :
  2 ≤ dim input →
  sizes input = size input 0 :: size input 1 :: drop 2 (sizes input).
Proof.
  unfold dim, size. destruct (sizes input) as [|a [|b l]]; simpl; try lia.
  done.
Qed.

Lemma contiguous_shape input :
  sizes (contiguous input Contiguous) = sizes input
  ∧ format (contiguous input Contiguous) = Contiguous
  ∧ is_cuda (contiguous input Contiguous) = is_cuda input
  ∧ scalar_type (contiguous input Contiguous) = scalar_type input.
Proof. unfold contiguous. by case_bool_decide. Qed.

Lemma row_major_decode (C S b c s : nat) :
  c < C → s < S →
  let j := (b * C + c) * S + s in
  j / (C * S) = b ∧ (j / S) `mod` C = c ∧ j `mod` S = s.
Proof.
  intros Hc Hs j. subst j.
  assert (((b * C + c) * S + s) / S = b * C + c) as E1.
  { symmetry. apply (Nat.div_unique _ S _ s); lia. }
  rewrite E1. split; [|split].
  - symmetry. apply (Nat.div_unique _ (C * S) _ (c * S + s)); nia.
  - symmetry. apply (Nat.mod_unique _ C b c); lia.
  - symmetry. apply (Nat.mod_unique _ S (b * C + c) s); lia.
Qed.

(** [contiguous] keeps every element at its coordinates *)
Lemma contiguous_data_at input b c s :
  2 ≤ dim input → format input ≠ Contiguous →
  b < size input 0 → c < size input 1 → s < inner input →
  data (contiguous input Contiguous)
    !!! ((b * size input 1 + c) * inner input + s)
  = get input b c s.
Proof.
  intros Hd Hf Hb Hc Hs. unfold contiguous.
  rewrite bool_decide_eq_false_2 by done. simpl.
  assert ((b * size input 1 + c) * inner input + s < numel input) as Hlt.
  { rewrite numel_split by done. by apply row_major_lt. }
  erewrite (list_lookup_total_fmap _ (seq 0 (numel input)))
    by (by rewrite length_seq).
  rewrite lookup_total_seq_lt by done. simpl.
  destruct (row_major_decode (size input 1) (inner input) b c s Hc Hs)
    as (-> & -> & ->).
  done.
Qed.

Lemma instance_view_ok input :
  2 ≤ dim input → instance_view input = Ok (as_instances input).
Proof.
  intros Hd. unfold instance_view, view, as_instances.
  destruct (contiguous_shape input) as (Hsz & Hf & Hc & Hty).
  unfold is_contiguous. rewrite Hf, Hc, Hty.
  rewrite (bool_decide_eq_true_2 (Contiguous = Contiguous)) by done.
  assert (<[0:=1]> (<[1:=size input 0 * size input 1]> (sizes input))
          = 1 :: size input 0 * size input 1 :: drop 2 (sizes input)) as ->.
  { rewrite (sizes_split input Hd) at 1. done. }
  rewrite bool_decide_eq_true_2; [done|].
  unfold numel. rewrite Hsz. rewrite (sizes_split input Hd) at 2.
  simpl. lia.
Qed.

Lemma as_instances_dims input :
  2 ≤ dim input →
  size (as_instances input) 0 = 1
  ∧ size (as_instances input) 1 = size input 0 * size input 1
  ∧ inner (as_instances input) = inner input
  ∧ numel (as_instances input) = numel input
  ∧ 2 ≤ dim (as_instances input).
Proof.
  intros Hd. split; [done|]. split; [done|]. split; [done|].
  split; [|unfold dim; simpl; lia].
  rewrite (numel_split input) by done.
  unfold numel, as_instances, inner. simpl. lia.
Qed.

(** the reshape turns instance [(i, j)] into channel [i * c + j] of the
    one batch entry *)
Lemma as_instances_get input i j s :
  2 ≤ dim input → length (data input) = numel input →
  i < size input 0 → j < size input 1 → s < inner input →
  get (as_instances input) 0 (i * size input 1 + j) s = get input i j s.
Proof.
  intros Hd Hl Hi Hj Hs. unfold get at 1, offset.
  destruct (as_instances_dims input Hd) as (_ & -> & -> & _).
  change (format (as_instances input)) with Contiguous. cbv iota.
  change (data (as_instances input))
    with (data (contiguous input Contiguous)).
  replace (0 * (size input 0 * size input 1) + (i * size input 1 + j))
    with (i * size input 1 + j) by lia.
  destruct (decide (format input = Contiguous)) as [Hf|Hf].
  - unfold contiguous. rewrite bool_decide_eq_true_2 by done.
    unfold get, offset. by rewrite Hf.
  - by apply contiguous_data_at.
Qed.

Lemma channel_coords_single t :
  size t 0 = 1 → channel_coords t = (fun s => (0, s)) <$> seq 0 (inner t).
Proof.
  intros H1. unfold channel_coords. rewrite H1. simpl.
  rewrite app_nil_r. induction (seq 0 (inner t)) as [|x l IH]; [done|].
  by rewrite bind_cons, fmap_cons, IH.
Qed.

Lemma foldl_fmap_list {A B C} (f : A → B → A) (g : C → B) (a : A)
    (l : list C) :
  foldl f a (g <$> l) = foldl (fun a x => f a (g x)) a l.
Proof. revert a. induction l as [|x l IH]; intros a; simpl; [done|]. apply IH. Qed.

Lemma as_instances_channel_sum input i j :
  2 ≤ dim input → length (data input) = numel input →
  i < size input 0 → j < size input 1 →
  channel_sum (as_instances input) (i * size input 1 + j)
  = instance_sum input i j.
Proof.
  intros Hd Hl Hi Hj. unfold channel_sum, instance_sum.
  destruct (as_instances_dims input Hd) as (H0 & _ & Hin & _).
  rewrite channel_coords_single by done. rewrite Hin, foldl_fmap_list.
  apply foldl_ext_in. intros a s Hs%elem_of_seq.
  rewrite as_instances_get by (done || lia). done.
Qed.

Lemma as_instances_channel_mean input i j :
  2 ≤ dim input → length (data input) = numel input →
  i < size input 0 → j < size input 1 →
  channel_mean (as_instances input) (i * size input 1 + j)
  = instance_mean input i j.
Proof.
  intros Hd Hl Hi Hj. unfold channel_mean, instance_mean.
  rewrite as_instances_channel_sum by done.
  destruct (as_instances_dims input Hd) as (-> & _ & -> & _).
  by rewrite Nat.mul_1_l.
Qed.

Lemma as_instances_var_sum input mean i j :
  2 ≤ dim input → length (data input) = numel input →
  i < size input 0 → j < size input 1 →
  var_sum (as_instances input) mean (i * size input 1 + j)
  = instance_var_sum input mean i j.
Proof.
  intros Hd Hl Hi Hj. unfold var_sum, serial_reduce, instance_var_sum.
  destruct (as_instances_dims input Hd) as (H0 & _ & Hin & _).
  rewrite channel_coords_single by done. rewrite Hin, foldl_fmap_list.
  apply foldl_ext_in. intros a s Hs%elem_of_seq.
  rewrite as_instances_get by (done || lia). done.
Qed.

Lemma as_instances_count input :
  2 ≤ dim input → numel input ≠ 0 →
  (Z.of_nat (numel (as_instances input))
   / Z.of_nat (size (as_instances input) 1))%Z
  = Z.of_nat (inner input).
Proof.
  intros Hd Hn.
  destruct (as_instances_dims input Hd) as (_ & -> & _ & -> & _).
  rewrite numel_split in * by done.
  rewrite Nat2Z.inj_mul. symmetry. apply Z.div_unique_exact; lia.
Qed.

Lemma lookup_total_join_replicate (l : list T) (b i j : nat) :
  i < b → j < length l →
  mjoin (replicate b l) !!! (i * length l + j) = l !!! j.
Proof.
  revert i. induction b as [|b IH]; intros i Hi Hj; [lia|]. simpl.
  destruct i as [|i].
  - simpl. by rewrite lookup_total_app_l.
  - rewrite lookup_total_app_r by lia.
    replace (S i * length l + j - length l) with (i * length l + j) by lia.
    apply IH; lia.
Qed.

Lemma length_join_replicate (l : list T) (b : nat) :
  length (mjoin (replicate b l)) = b * length l.
Proof. induction b as [|b IH]; simpl; [done|]. rewrite length_app. lia. Qed.

Lemma repeat_if_defined_ok input (t : option (Tensor T)) b :
  channel_vector input t →
  repeat_if_defined t b = Ok (repeated b <$> t).
Proof.
  destruct t as [t|]; [|done]. intros (_ & Hd & _ & _).
  simpl. unfold repeat. by rewrite bool_decide_eq_true_2 by lia.
Qed.

Lemma repeated_channel_vector input (t : option (Tensor T)) :
  2 ≤ dim input → channel_vector input t →
  channel_vector (as_instances input) (repeated (size input 0) <$> t).
Proof.
  intros Hdi Ht. destruct t as [t|]; [|done].
  pose proof (channel_vector_numel input t Ht) as Hn.
  destruct Ht as (Hc & Hd & Hs & Hl). simpl.
  destruct (as_instances_dims input Hdi) as (_ & -> & _).
  unfold repeated, dim, size, numel. simpl.
  rewrite length_join_replicate. fold (numel t). rewrite Hl, Hn.
  repeat split; try done; lia.
Qed.

Lemma repeated_at input (t : Tensor T) i j :
  channel_vector input (Some t) → i < size input 0 → j < size input 1 →
  at1 (repeated (size input 0) t) (i * size input 1 + j) = at1 t j.
Proof.
  intros Ht Hi Hj. pose proof (channel_vector_numel input t Ht) as Hn.
  destruct Ht as (Hc & Hd & Hs & Hl). unfold at1, repeated. simpl.
  rewrite <- Hn, <- Hl. apply lookup_total_join_replicate; lia.
Qed.

End InstanceLemmas.

Lemma update_from_repeated_ok {T} `{Scalar T} (b c : nat) (t t_ : Tensor T) :
  dim t = 1 → size t 0 = c →
  sizes t_ = [b * c] → format t_ = Contiguous →
  update_from_repeated b c (Some t) (Some t_)
  = Ok (Some (with_data t
                ((fun j => batch_average b
                             (fun i => data t_ !!! (i * c + j)))
                 <$> seq 0 c))).
Proof.
  intros Hd Hs Hsz Hf. unfold update_from_repeated, view.
  unfold is_contiguous. rewrite Hf.
  rewrite (bool_decide_eq_true_2 (Contiguous = Contiguous)) by done.
  rewrite bool_decide_eq_true_2
    by (unfold numel; rewrite Hsz; simpl; lia).
  simpl. unfold copy_, mean0. simpl.
  rewrite bool_decide_eq_true_2.
  2:{ unfold dim, size in *. destruct (sizes t) as [|a [|a' l]];
        simpl in *; try lia. by subst. }
  done.
Qed.

Lemma with_data_at {T} `{Scalar T} (t : Tensor T) (g : nat → T) (c j : nat) :
  j < c → at1 (with_data t (g <$> seq 0 c)) j = g j.
Proof.
  intros Hj. unfold at1, with_data. simpl.
  rewrite (list_lookup_total_fmap g (seq 0 c) j)
    by (rewrite length_seq; lia).
  by rewrite lookup_total_seq_lt.
Qed.

Lemma batch_average_ext {T} `{Scalar T} (b : nat) (f g : nat → T) :
  (∀ i, i < b → f i = g i) → batch_average b f = batch_average b g.
Proof.
  intros Hfg. unfold batch_average. f_equal.
  apply foldl_ext_in. intros a i Hi%elem_of_seq. rewrite Hfg; [done|lia].
Qed.

Lemma view_row_major {T} `{Scalar T} (t : Tensor T) (sz : list nat) :
  format t = Contiguous → foldr Nat.mul 1 sz = numel t →
  view t sz = Ok (mkTensor sz (is_cuda t) (scalar_type t) Contiguous (data t)).
Proof.
  intros Hf Hn. unfold view, is_contiguous. rewrite Hf.
  by rewrite !bool_decide_eq_true_2.
Qed.

Lemma get_view_instances {T} `{Scalar T} (out input : Tensor T) cu ty
    (i j s : nat) :
  format out = Contiguous → sizes out = sizes (as_instances input) →
  get (mkTensor (sizes input) cu ty Contiguous (data out)) i j s
  = get out 0 (i * size input 1 + j) s.
Proof.
  intros Hf Hsz. unfold get, offset. simpl. rewrite Hf. f_equal.
  unfold size, inner. rewrite Hsz. simpl. by rewrite drop_0.
Qed.



Section InstanceNormFacts.
Context {T : Type} `{Scalar T}.
Variable compiledWithCuDNN : bool.
Variable batchnormMinEpsilonCuDNN : T.
Variable versionCuDNN : Z.
Variable compiledWithMIOpen : bool.
Variable batch_norm_cpu_inference_contiguous_stub :
  Tensor T → Tensor T → option (Tensor T) → option (Tensor T) →
  Tensor T → Tensor T → T → Tensor T.
Variable cudnn_batch_norm :
  Tensor T → Tensor T → Tensor T → option (Tensor T) → option (Tensor T) →
  bool → T → T → forward4 T.
Variable miopen_batch_norm :
  Tensor T → Tensor T → Tensor T → option (Tensor T) → option (Tensor T) →
  bool → T → T → forward3 T.
Variable batch_norm_cuda :
  Tensor T → option (Tensor T) → option (Tensor T) →
  option (Tensor T) → option (Tensor T) → bool → T → T → forward3 T.
Variable index0 : Tensor T → result (Tensor T).
Variable at_mul : Tensor T → Tensor T → result (Tensor T).
Variable at_add : Tensor T → Tensor T → result (Tensor T).

(** what a training call of [instance_norm] on well-shaped CPU operands
    comes to *)
Lemma instance_norm_train_cpu (input : Tensor T) weight bias rm rv
    momentum eps ce :
  well_formed input → numel input ≠ 0 →
  is_cuda input = false → floating_type (scalar_type input) = true →
  channel_vector input weight → channel_vector input bias →
  channel_vector input rm → channel_vector input rv →
  let b := size input 0 in
  let c := size input 1 in
  let v := as_instances input in
  let r := batch_norm_cpu_update_stats_template InvStd v
             (repeated b <$> rm) (repeated b <$> rv) momentum eps in
  let out := broadcast_kernel v r.1.1.1 r.1.1.2 (repeated b <$> weight)
               (repeated b <$> bias) in
  instance_norm compiledWithCuDNN batchnormMinEpsilonCuDNN versionCuDNN
    compiledWithMIOpen batch_norm_cpu_inference_contiguous_stub
    cudnn_batch_norm miopen_batch_norm batch_norm_cuda index0 at_mul
    at_add input weight bias rm rv true momentum eps ce
  = match update_from_repeated b c rm r.1.2 with
    | Err m => (Err m, (rm, rv))
    | Ok rm' =>
        match update_from_repeated b c rv r.2 with
        | Err m => (Err m, (rm', rv))
        | Ok rv' => (view out (sizes input), (rm', rv'))
        end
    end.
Proof.
  intros [Hd Hl] Hn Hcpu Hty Hw Hb Hrm Hrv b c v r out.
  subst out r v. unfold instance_norm. simpl negb. cbv iota.
  rewrite bool_decide_eq_false_2 by lia.
  rewrite !(repeat_if_defined_ok input) by done.
  rewrite instance_view_ok by done.
  cbn [mbind result_bind]. fold b c.
  destruct (as_instances_dims input Hd) as (Hv0 & Hv1 & Hvi & Hvn & Hvd).
  rewrite batch_norm_cpu_path;
    [|by rewrite Hvn|done|by apply repeated_channel_vector..|done].
  rewrite batch_norm_cpu_train
    by first [ done
             | by apply repeated_channel_vector
             | apply channel_vector_running;
               by apply repeated_channel_vector ].
  cbv zeta. cbn [fst snd fmap result_fmap].
  destruct (batch_norm_cpu_update_stats_template _ _ _ _ _ _)
    as [[[sm si] rm_] rv_]. cbn [fst snd].
  done.
Qed.

(** the running statistic a training call of [instance_norm] leaves *)
Lemma update_from_repeated_train (input : Tensor T) rm rv momentum eps
    (stat : option (Tensor T)) (pick : Tensor T * Tensor T
      * option (Tensor T) * option (Tensor T) → option (Tensor T)) :
  2 ≤ dim input →
  channel_vector input stat →
  let b := size input 0 in
  let c := size input 1 in
  let r := batch_norm_cpu_update_stats_template InvStd (as_instances input)
             (repeated b <$> rm) (repeated b <$> rv) momentum eps in
  (∀ t, stat = Some t →
     ∃ t', pick r = Some t' ∧ sizes t' = sizes (repeated b t)
           ∧ format t' = format (repeated b t)) →
  (stat = None → pick r = None) →
  ∃ stat',
    update_from_repeated b c stat (pick r) = Ok stat'
    ∧ ∀ j, j < c →
        (fun t => at1 t j) <$> stat'
        = (fun t => batch_average b (fun i => at1 t (i * c + j)))
            <$> pick r.
Proof.
  intros Hd Hs b c r Hsome Hnone. destruct stat as [t|].
  - destruct (Hsome t eq_refl) as (t' & -> & Hsz & Hf).
    pose proof (channel_vector_numel input t Hs) as Hn.
    destruct Hs as (_ & Hdt & Hst & _).
    rewrite (update_from_repeated_ok b c t t') ; [|done|done| |done].
    2:{ rewrite Hsz. unfold repeated. simpl. by rewrite Hn. }
    eexists. split; [done|]. intros j Hj. simpl.
    by rewrite with_data_at.
  - rewrite Hnone by done. exists None. done.
Qed.

(** X15.  A training call of [instance_norm] on well-shaped CPU operands
    normalises every instance, an entry of the batch in a channel, by
    its own statistics: the call succeeds, the output has the shape of
    the input, and its element [(i, j, s)] is
    [((x - mean) * invstd) * weight[j] + bias[j]], where [mean] is the
    mean of the elements of instance [(i, j)], [invstd] is [InvStd] of
    their biased variance, and weight and bias, [1] and [0] when absent,
    are those of channel [j] for every entry of the batch.  The
    statement is for a [double] input, whose accumulation type is
    [double] again, and for parameters and running statistics of the
    type of the input. *)
Theorem instance_norm_normalises_each_instance (input : Tensor T)
    (weight bias running_mean running_var : option (Tensor T))
    (momentum eps : T) (cudnn_enabled : bool) (i j s : nat) :
  well_formed input →
  is_cuda input = false → scalar_type input = kDouble →
  accessor_vector input weight → accessor_vector input bias →
  accessor_vector input running_mean → accessor_vector input running_var →
  i < size input 0 → j < size input 1 → s < inner input →
  let mean := instance_mean input i j in
  let invstd :=
    InvStd (instance_var_sum input mean i j
            / of_int64 (Z.of_nat (inner input)))%sc eps in
  ∃ output,
    (instance_norm compiledWithCuDNN batchnormMinEpsilonCuDNN versionCuDNN
       compiledWithMIOpen batch_norm_cpu_inference_contiguous_stub
       cudnn_batch_norm miopen_batch_norm batch_norm_cuda index0 at_mul
       at_add input weight bias running_mean running_var true momentum eps
       cudnn_enabled).1 = Ok output
    ∧ sizes output = sizes input
    ∧ get output i j s
      = transform_element (get input i j s) mean invstd
          (match weight with Some w => at1 w j | None => sc1 end)
          (match bias with Some b => at1 b j | None => sc0 end).
Proof.
  intros Hwf Hcpu Hty Hw Hb Hrm Hrv Hi Hj Hs mean invstd.
  apply double_is_floating in Hty.
  apply accessor_vector_channel in Hw, Hb, Hrm, Hrv.
  pose proof Hwf as [Hd Hl].
  assert (numel input ≠ 0) as Hn.
  { rewrite numel_split by done.
    assert (0 < size input 0 * size input 1 * inner input); [|lia].
    repeat apply Nat.mul_pos_pos; lia. }
  rewrite instance_norm_train_cpu by done. cbv zeta.
  destruct (update_stats_running_format InvStd (as_instances input)
              (repeated (size input 0) <$> running_mean)
              (repeated (size input 0) <$> running_var)
              momentum eps) as [Hfm Hfv].
  destruct (update_stats_running_shape InvStd (as_instances input)
              (repeated (size input 0) <$> running_mean)
              (repeated (size input 0) <$> running_var)
              momentum eps) as (_ & _ & Hnm & Hnv).
  destruct (update_from_repeated_train input running_mean running_var
              momentum eps running_mean (fun r => r.1.2) Hd Hrm)
    as (rm' & Erm & _).
  { intros t ->. apply (Hfm _ eq_refl). }
  { intros ->. by apply Hnm. }
  destruct (update_from_repeated_train input running_mean running_var
              momentum eps running_var (fun r => r.2) Hd Hrv)
    as (rv' & Erv & _).
  { intros t ->. apply (Hfv _ eq_refl). }
  { intros ->. by apply Hnv. }
  cbv beta in Erm, Erv. rewrite Erm, Erv. clear Erm Erv Hfm Hfv Hnm Hnv.
  set (b := size input 0). set (c := size input 1).
  set (v := as_instances input).
  set (r := batch_norm_cpu_update_stats_template InvStd v
              (repeated b <$> running_mean) (repeated b <$> running_var)
              momentum eps).
  destruct (as_instances_dims input Hd) as (Hv0 & Hv1 & Hvi & Hvn & Hvd).
  fold v in Hv0, Hv1, Hvi, Hvn, Hvd.
  set (out := broadcast_kernel v r.1.1.1 r.1.1.2 (repeated b <$> weight)
                (repeated b <$> bias)).
  rewrite (view_row_major out (sizes input)); [|done|].
  2:{ change (foldr Nat.mul 1 (sizes input)) with (numel input).
      rewrite <- Hvn. done. }
  cbn [fst]. eexists. split; [reflexivity|]. split; [done|].
  assert (i * c + j < size v 1) as Hk by (rewrite Hv1; subst b c; nia).
  rewrite get_view_instances by done. fold c.
  subst out. rewrite broadcast_kernel_at by (done || lia).
  destruct (update_stats_template_spec InvStd v
              (repeated b <$> running_mean) (repeated b <$> running_var)
              momentum eps (i * c + j) Hk) as (Hmean & Hsvt & _).
  { intros t Ht.
    pose proof (channel_vector_running v _
                  (repeated_channel_vector input running_mean Hd Hrm)) as Hx.
    fold b in Hx. rewrite Ht in Hx. apply Hx. }
  { intros t Ht.
    pose proof (channel_vector_running v _
                  (repeated_channel_vector input running_var Hd Hrv)) as Hx.
    fold b in Hx. rewrite Ht in Hx. apply Hx. }
  fold r in Hmean, Hsvt. rewrite Hmean, Hsvt.
  subst v c. rewrite as_instances_get, as_instances_channel_mean,
    as_instances_var_sum, as_instances_count by done.
  fold mean invstd. f_equal.
  - destruct weight as [w|]; [|done]. simpl. by apply repeated_at.
  - destruct bias as [w|]; [|done]. simpl. by apply repeated_at.
Qed.

(** X16.  A training call of [instance_norm] on well-shaped CPU operands
    leaves in entry [j] of each running statistic the average over the
    batch of the blends of the instances of channel [j]: the mean over
    [i] of [momentum * mean(i, j) + (1 - momentum) * running_mean[j]],
    and of [momentum * unbiased_var(i, j)
    + (1 - momentum) * running_var[j]], where the unbiased variance of
    an instance divides by the number of its elements minus one.  The
    statement is for a [double] input, whose accumulation type is
    [double] again, and for parameters and running statistics of the
    type of the input. *)
Theorem instance_norm_averages_running_statistics (input : Tensor T)
    (weight bias : option (Tensor T)) (running_mean running_var : Tensor T)
    (momentum eps : T) (cudnn_enabled : bool) (j : nat) :
  well_formed input → numel input ≠ 0 →
  is_cuda input = false → scalar_type input = kDouble →
  accessor_vector input weight → accessor_vector input bias →
  accessor_vector input (Some running_mean) →
  accessor_vector input (Some running_var) →
  j < size input 1 →
  let b := size input 0 in
  let count := Z.of_nat (inner input) in
  let blend x old := (momentum * x + (sc1 - momentum) * old)%sc in
  let unbiased i :=
    (instance_var_sum input (instance_mean input i j) i j
     / of_int64 (count - 1))%sc in
  ∃ running_mean' running_var',
    (instance_norm compiledWithCuDNN batchnormMinEpsilonCuDNN versionCuDNN
       compiledWithMIOpen batch_norm_cpu_inference_contiguous_stub
       cudnn_batch_norm miopen_batch_norm batch_norm_cuda index0 at_mul
       at_add input weight bias (Some running_mean) (Some running_var)
       true momentum eps cudnn_enabled).2
    = (Some running_mean', Some running_var')
    ∧ at1 running_mean' j
      = batch_average b
          (fun i => blend (instance_mean input i j) (at1 running_mean j))
    ∧ at1 running_var' j
      = batch_average b
          (fun i => blend (unbiased i) (at1 running_var j)).
Proof.
  intros Hwf Hn Hcpu Hty Hw Hb Hrm Hrv Hj b count blend unbiased.
  apply double_is_floating in Hty.
  apply accessor_vector_channel in Hw, Hb, Hrm, Hrv.
  pose proof Hwf as [Hd Hl].
  rewrite instance_norm_train_cpu by done. cbv zeta.
  destruct (update_stats_running_format InvStd (as_instances input)
              (repeated (size input 0) <$> Some running_mean)
              (repeated (size input 0) <$> Some running_var)
              momentum eps) as [Hfm Hfv].
  destruct (update_from_repeated_train input (Some running_mean)
              (Some running_var) momentum eps (Some running_mean)
              (fun r => r.1.2) Hd Hrm) as (rm' & Erm & Hm).
  { intros t [= <-]. apply (Hfm _ eq_refl). }
  { done. }
  destruct (update_from_repeated_train input (Some running_mean)
              (Some running_var) momentum eps (Some running_var)
              (fun r => r.2) Hd Hrv) as (rv' & Erv & Hv).
  { intros t [= <-]. apply (Hfv _ eq_refl). }
  { done. }
  cbv beta in Erm, Erv, Hm, Hv. rewrite Erm, Erv. specialize (Hm j Hj).
  specialize (Hv j Hj). clear Erm Erv.
  destruct (Hfm _ eq_refl) as (tm & Etm & _).
  destruct (Hfv _ eq_refl) as (tv & Etv & _). clear Hfm Hfv.
  destruct (as_instances_dims input Hd) as (Hv0 & Hv1 & Hvi & Hvn & Hvd).
  assert (∀ i, i < size input 0 →
    at1 tm (i * size input 1 + j)
    = blend (instance_mean input i j) (at1 running_mean j)
    ∧ at1 tv (i * size input 1 + j)
      = blend (unbiased i) (at1 running_var j)) as Hat.
  { intros i Hi.
    assert (i * size input 1 + j < size (as_instances input) 1) as Hk
      by (rewrite Hv1; nia).
    destruct (update_stats_template_spec InvStd (as_instances input)
              (repeated (size input 0) <$> Some running_mean)
              (repeated (size input 0) <$> Some running_var)
              momentum eps (i * size input 1 + j) Hk) as (_ & _ & Hbm & Hbv).
    { intros t [= <-].
      apply (channel_vector_running (as_instances input) _
               (repeated_channel_vector input (Some running_mean) Hd Hrm)). }
    { intros t [= <-].
      apply (channel_vector_running (as_instances input) _
               (repeated_channel_vector input (Some running_var) Hd Hrv)). }
    rewrite Etm in Hbm. rewrite Etv in Hbv.
    injection Hbm as Hbm. injection Hbv as Hbv.
    rewrite Hbm, Hbv.
    rewrite as_instances_channel_mean, as_instances_var_sum,
      as_instances_count, !(repeated_at input) by done.
    done. }
  rewrite Etm in Hm. rewrite Etv in Hv.
  destruct rm' as [rm'|]; [|discriminate Hm].
  destruct rv' as [rv'|]; [|discriminate Hv].
  injection Hm as Hm. injection Hv as Hv.
  exists rm', rv'. split; [done|]. rewrite Hm, Hv. fold b. subst b.
  split; apply batch_average_ext; intros i Hi; by apply Hat.
Qed.


(** an empty batch without affine parameters *)
Lemma instance_norm_empty (input running_mean running_var : Tensor T)
    (use_input_stats : bool) (momentum eps : T) (cudnn_enabled : bool)
    (j : nat) :
  2 ≤ dim input → size input 0 = 0 →
  dim running_mean = 1 → size running_mean 0 = size input 1 →
  dim running_var = 1 → size running_var 0 = size input 1 →
  j < size input 1 →
  ∃ output running_mean' running_var',
    instance_norm compiledWithCuDNN batchnormMinEpsilonCuDNN versionCuDNN
      compiledWithMIOpen batch_norm_cpu_inference_contiguous_stub
      cudnn_batch_norm miopen_batch_norm batch_norm_cuda index0 at_mul
      at_add input None None (Some running_mean) (Some running_var)
      use_input_stats momentum eps cudnn_enabled
    = (Ok output, (Some running_mean', Some running_var'))
    ∧ sizes output = sizes input
    ∧ at1 running_mean' j = (sc0 / of_int64 0)%sc
    ∧ at1 running_var' j = (sc0 / of_int64 0)%sc.
Proof.
  intros Hd Hb Hdm Hsm Hdv Hsv Hj.
  unfold instance_norm. simpl defined. rewrite orb_true_r. simpl negb.
  cbv iota. rewrite bool_decide_eq_false_2 by lia.
  simpl repeat_if_defined. unfold repeat.
  rewrite !bool_decide_eq_true_2 by lia.
  rewrite instance_view_ok by done.
  cbn [mbind result_bind fmap result_fmap].
  destruct (as_instances_dims input Hd) as (Hv0 & Hv1 & Hvi & Hvn & Hvd).
  assert (numel input = 0) as Hn.
  { rewrite numel_split by done. rewrite Hb. done. }
  unfold batch_norm. rewrite bool_decide_eq_true_2 by (by rewrite Hvn).
  cbn [mbind result_bind]. rewrite Hb.
  rewrite (update_from_repeated_ok 0 (size input 1) running_mean);
    [|done..].
  rewrite (update_from_repeated_ok 0 (size input 1) running_var);
    [|done..].
  rewrite view_row_major; [|done|by rewrite Hvn].
  eexists _, _, _. split; [reflexivity|]. split; [done|].
  by rewrite !with_data_at.
Qed.
End InstanceNormFacts.

Lemma instance_norm_normalises_each_instance_witness :
  let input := cpu_double [2; 1; 2] [1; 3; 5; 9]%float in
  let weight := Some (cpu_double [1] [2]%float) in
  let mean := instance_mean input 1 0 in
  let invstd :=
    InvStd (instance_var_sum input mean 1 0 / of_int64 (Z.of_nat 2))%sc
           0%float in
  ∃ output,
    (instance_norm_cpu_double input weight None None None true 0.5%float
       0%float true).1 = Ok output
    ∧ sizes output = sizes input
    ∧ get output 1 0 1
      = transform_element (get input 1 0 1) mean invstd 2%float sc0.
Proof.
  apply (instance_norm_normalises_each_instance true 0%float 8000%Z true
           stub_keeps_output cudnn_unavailable miopen_unavailable
           cuda_unavailable index_unavailable arithmetic_unavailable
           arithmetic_unavailable
           (cpu_double [2; 1; 2] [1; 3; 5; 9]%float)
           (Some (cpu_double [1] [2]%float)) None None None 0.5%float
           0%float true 1 0 1).
  - split; vm_compute; [lia|reflexivity].
  - reflexivity.
  - reflexivity.
  - vm_compute. repeat split; reflexivity.
  - exact I.
  - exact I.
  - exact I.
  - vm_compute. lia.
  - vm_compute. lia.
  - vm_compute. lia.
Defined.

Lemma instance_norm_averages_running_statistics_witness :
  let input := cpu_double [2; 1; 2] [1; 3; 5; 9]%float in
  let running_mean := cpu_double [1] [0]%float in
  let running_var := cpu_double [1] [1]%float in
  let blend x old := (0.5%float * x + (sc1 - 0.5%float) * old)%sc in
  let unbiased i :=
    (instance_var_sum input (instance_mean input i 0) i 0
     / of_int64 (Z.of_nat 2 - 1))%sc in
  ∃ running_mean' running_var',
    (instance_norm_cpu_double input None None (Some running_mean)
       (Some running_var) true 0.5%float 0%float true).2
    = (Some running_mean', Some running_var')
    ∧ at1 running_mean' 0
      = batch_average 2
          (fun i => blend (instance_mean input i 0) (at1 running_mean 0))
    ∧ at1 running_var' 0
      = batch_average 2
          (fun i => blend (unbiased i) (at1 running_var 0)).
Proof.
  apply (instance_norm_averages_running_statistics true 0%float 8000%Z
           true stub_keeps_output cudnn_unavailable miopen_unavailable
           cuda_unavailable index_unavailable arithmetic_unavailable
           arithmetic_unavailable
           (cpu_double [2; 1; 2] [1; 3; 5; 9]%float) None None
           (cpu_double [1] [0]%float) (cpu_double [1] [1]%float)
           0.5%float 0%float true 0).
  - split; vm_compute; [lia|reflexivity].
  - vm_compute. lia.
  - reflexivity.
  - reflexivity.
  - exact I.
  - exact I.
  - vm_compute. repeat split; reflexivity.
  - vm_compute. repeat split; reflexivity.
  - vm_compute. lia.
Defined.



(** X18.  [instance_norm] on an empty batch, without weight and bias and
    with both running statistics, succeeds in either mode and returns a
    tensor of the shape of the input, and it overwrites every entry of
    the running statistics with the mean of no values, [0 / 0]: on
    doubles, a NaN. *)
Theorem instance_norm_empty_batch :
  (∀ (T : Type) (HT : Scalar T)
     (compiledWithCuDNN : bool) (batchnormMinEpsilonCuDNN : T)
     (versionCuDNN : Z) (compiledWithMIOpen : bool)
     (batch_norm_cpu_inference_contiguous_stub :
        Tensor T → Tensor T → option (Tensor T) → option (Tensor T) →
        Tensor T → Tensor T → T → Tensor T)
     (cudnn_batch_norm :
        Tensor T → Tensor T → Tensor T → option (Tensor T) →
        option (Tensor T) → bool → T → T → forward4 T)
     (miopen_batch_norm :
        Tensor T → Tensor T → Tensor T → option (Tensor T) →
        option (Tensor T) → bool → T → T → forward3 T)
     (batch_norm_cuda :
        Tensor T → option (Tensor T) → option (Tensor T) →
        option (Tensor T) → option (Tensor T) → bool → T → T → forward3 T)
     (index0 : Tensor T → result (Tensor T))
     (at_mul at_add : Tensor T → Tensor T → result (Tensor T))
     (input running_mean running_var : Tensor T)
     (use_input_stats : bool) (momentum eps : T) (cudnn_enabled : bool)
     (j : nat),
     2 ≤ dim input → size input 0 = 0 →
     dim running_mean = 1 → size running_mean 0 = size input 1 →
     dim running_var = 1 → size running_var 0 = size input 1 →
     j < size input 1 →
     ∃ output running_mean' running_var',
       instance_norm compiledWithCuDNN batchnormMinEpsilonCuDNN
         versionCuDNN compiledWithMIOpen
         batch_norm_cpu_inference_contiguous_stub cudnn_batch_norm
         miopen_batch_norm batch_norm_cuda index0 at_mul at_add
         input None None (Some running_mean) (Some running_var)
         use_input_stats momentum eps cudnn_enabled
       = (Ok output, (Some running_mean', Some running_var'))
       ∧ sizes output = sizes input
       ∧ at1 running_mean' j = (sc0 / of_int64 0)%sc
       ∧ at1 running_var' j = (sc0 / of_int64 0)%sc)
  ∧ PrimFloat.is_nan (sc0 / of_int64 0)%sc = true.
Proof.
  split; [|by vm_compute].
  intros. by apply instance_norm_empty.
Qed.

Lemma instance_norm_empty_batch_witness :
  let input := cpu_double [0; 2; 1] [] in
  let running_mean := cpu_double [2] [0.5; 0.25]%float in
  let running_var := cpu_double [2] [1; 1]%float in
  ∃ output running_mean' running_var',
    instance_norm_cpu_double input None None (Some running_mean)
      (Some running_var) true 0.1%float 0%float true
    = (Ok output, (Some running_mean', Some running_var'))
    ∧ sizes output = sizes input
    ∧ at1 running_mean' 1 = (sc0 / of_int64 0)%sc
    ∧ at1 running_var' 1 = (sc0 / of_int64 0)%sc.
Proof.
  apply (proj1 instance_norm_empty_batch float _ true 0%float 8000%Z true
           stub_keeps_output cudnn_unavailable miopen_unavailable
           cuda_unavailable index_unavailable arithmetic_unavailable
           arithmetic_unavailable (cpu_double [0; 2; 1] [])
           (cpu_double [2] [0.5; 0.25]%float)
           (cpu_double [2] [1; 1]%float) true 0.1%float 0%float true 1).
  - vm_compute. lia.
  - reflexivity.
  - reflexivity.
  - reflexivity.
  - reflexivity.
  - reflexivity.
  - vm_compute. lia.
Defined.

(** ** Invariants of training mode in exact arithmetic *)

Lemma length_bind_const {A B} (f : A → list B) (l : list A) (n : nat) :
  (∀ x, length (f x) = n) → length (l ≫= f) = length l * n.
Proof.
  intros Hf. induction l as [|x l IH]; [done|].
  rewrite bind_cons, length_app, IH, Hf. simpl. lia.
Qed.

Lemma length_channel_coords {T} `{Scalar T} (t : Tensor T) :
  length (channel_coords t) = size t 0 * inner t.
Proof.
  unfold channel_coords.
  rewrite (length_bind_const _ _ (inner t)); [by rewrite length_seq|].
  intros b. rewrite (length_bind_const _ _ 1); [|done].
  rewrite length_seq. lia.
Qed.

Lemma foldl_Rplus_linear {A} (f : A → R) (k c0 : R) (l : list A) :
  foldl (fun acc p => (acc + (k * f p + c0))%R) 0%R l
  = (k * foldl (fun acc p => (acc + f p)%R) 0%R l
     + INR (length l) * c0)%R.
Proof.
  induction l as [|x l IH] using rev_ind; [simpl; lra|].
  rewrite !foldl_snoc, IH, length_app, plus_INR. simpl. lra.
Qed.

Lemma foldl_Rplus_sub {A} (f g : A → R) (l : list A) :
  foldl (fun acc p => (acc + (f p - g p))%R) 0%R l
  = (foldl (fun acc p => (acc + f p)%R) 0%R l
     - foldl (fun acc p => (acc + g p)%R) 0%R l)%R.
Proof.
  induction l as [|x l IH] using rev_ind; [simpl; lra|].
  rewrite !foldl_snoc, IH. lra.
Qed.

Lemma channel_count {T} `{Scalar T} (input : Tensor T) :
  2 ≤ dim input → numel input ≠ 0 →
  (Z.of_nat (numel input) / Z.of_nat (size input 1))%Z
  = Z.of_nat (size input 0 * inner input).
Proof.
  intros Hd Hn. rewrite numel_split in * by done.
  assert (size input 1 ≠ 0) by (destruct (size input 1); lia).
  symmetry. apply Z.div_unique_exact; lia.
Qed.



(** every element of one channel of the input gradient of a training
    call *)
Lemma training_grad_input_channel {T} `{Scalar T}
    (grad_out_ input : Tensor T)
    (weight running_mean running_var : option (Tensor T))
    (save_mean save_invstd : Tensor T) (eps : T) (mask1 mask2 : bool)
    (c : nat) :
  well_formed input → well_formed grad_out_ →
  sizes grad_out_ = sizes input →
  (mask1 || mask2 = true → is_Some weight) →
  c < size input 1 →
  let n := of_int64 (Z.of_nat (numel input) / Z.of_nat (size input 1)) in
  let mean := at1 save_mean c in
  let invstd := at1 save_invstd c in
  let w := match weight with Some wt => at1 wt c | None => sc1 end in
  let sum := channel_sum grad_out_ c in
  let dotp := dotp input grad_out_ mean c in
  ∃ grad_input grad_weight grad_bias,
    batch_norm_backward_cpu_template grad_out_ input weight running_mean
      running_var (Some save_mean) (Some save_invstd) true eps
      (true, mask1, mask2)
    = Ok (Some grad_input, grad_weight, grad_bias)
    ∧ sizes grad_input = sizes input
    ∧ ∀ b s, b < size input 0 → s < inner input →
        get grad_input b c s
        = (((get grad_out_ b c s - sum / n)
            - (get input b c s - mean) * (dotp * invstd * invstd / n))
           * invstd * w)%sc.
Proof.
  intros [Hd Hlen] [Hdg Hleng] Hsz Hmask Hc n mean invstd w sum dotp0.
  unfold batch_norm_backward_cpu_template.
  assert (∃ gw gb,
    (if mask1 then Some <$> empty_like_opt weight else Ok None) = Ok gw
    ∧ (if mask2 then Some <$> empty_like_opt weight else Ok None) = Ok gb)
    as (gw & gb & -> & ->).
  { destruct weight as [wt|].
    - destruct mask1, mask2; simpl; eauto.
    - destruct mask1, mask2; simpl in *; eauto;
        destruct Hmask as [? ?]; done. }
  simpl. rewrite backward_fold. simpl.
  eexists _, _, _. split; [reflexivity|].
  pose proof (empty_like_fillable input Hd) as Hfill.
  set (step := grad_input_channel grad_out_ input weight running_mean
                 running_var (Some save_mean) (Some save_invstd) true eps
                 (Z.of_nat (numel input) / Z.of_nat (size input 1))
                 (at_sum grad_out_)).
  assert (∀ g : Tensor T, fillable (sizes input) g →
            size g 1 = size input 1 ∧ size g 0 = size input 0
            ∧ inner g = inner input) as Hdims.
  { intros g [_ Eg]. unfold size, inner. by rewrite Eg. }
  split.
  { apply (channel_loop_fillable step (sizes input)); [|done].
    intros f g. apply grad_input_channel_fillable. }
  intros b s Hb Hs.
  rewrite (channel_loop_at step
             (fun f b s =>
                ((get grad_out_ b f s
                  - at1 (at_sum grad_out_) f
                    / of_int64 (Z.of_nat (numel input)
                                / Z.of_nat (size input 1))
                  - (get input b f s - at1 save_mean f)
                    * (dotp input grad_out_ (at1 save_mean f) f
                       * at1 save_invstd f * at1 save_invstd f
                       / of_int64 (Z.of_nat (numel input)
                                   / Z.of_nat (size input 1))))
                 * at1 save_invstd f
                 * match weight with Some wt => at1 wt f | None => sc1 end)%sc)
             (sizes input)).
  - rewrite at_sum_at1; [done|]. unfold size. by rewrite Hsz.
  - intros f g. apply grad_input_channel_fillable.
  - intros f g b' s' Hg Hf Hb' Hs'. subst step.
    rewrite grad_input_channel_train_at; done.
  - intros f g b' c' s' Hg Hf Hc' Hs' Hne. subst step.
    apply grad_input_channel_other; done.
  - done.
  - destruct (Hdims _ Hfill) as (-> & _ & _). done.
  - done.
  - destruct (Hdims _ Hfill) as (_ & -> & _). done.
  - destruct (Hdims _ Hfill) as (_ & _ & ->). done.
Qed.

(** X20.  In exact arithmetic, when the saved mean of a channel is the
    mean of the input over that channel, as the forward pass saved it,
    the input gradient a training-mode backward call computes sums to
    zero over the channel, whatever the saved inverse standard deviation
    and the weight are.  The operands are ones the accessors of the
    kernel accept, and the mask selects the weight or the bias gradient
    only when the weight is present. *)
Theorem training_input_gradient_sums_to_zero
    (grad_out_ input : Tensor R)
    (weight running_mean running_var : option (Tensor R))
    (save_mean save_invstd : Tensor R) (eps : R) (mask1 mask2 : bool)
    (c : nat) :
  backward_operands grad_out_ input weight running_mean running_var
    (Some save_mean) (Some save_invstd) →
  numel input ≠ 0 →
  (mask1 || mask2 = true → is_Some weight) →
  c < size input 1 →
  at1 save_mean c = mean_over_channel input c →
  ∃ grad_input grad_weight grad_bias,
    batch_norm_backward_cpu_template grad_out_ input weight running_mean
      running_var (Some save_mean) (Some save_invstd) true eps
      (true, mask1, mask2)
    = Ok (Some grad_input, grad_weight, grad_bias)
    ∧ sum_over_channel grad_input c = 0%R.
Proof.
  intros (Hwf & _ & _ & Hwfg & _ & _ & Hsz & _) Hn Hmask Hc Hmean.
  rewrite <- channel_mean_over in Hmean.
  destruct (training_grad_input_channel grad_out_ input weight
              running_mean running_var save_mean save_invstd eps mask1
              mask2 c Hwf Hwfg Hsz Hmask Hc)
    as (gi & gw & gb & Heq & Hgs & Hat).
  exists gi, gw, gb. split; [exact Heq|].
  rewrite <- channel_sum_over.
  destruct Hwf as [Hd Hl].
  rewrite channel_count in Hat by done. rewrite <- INR_IZR_INZ in Hat.
  cbv zeta in Hat. rewrite Hmean in Hat.
  set (n := INR (size input 0 * inner input)) in *.
  assert (n ≠ 0%R) as Hn0.
  { apply not_0_INR. rewrite numel_split in Hn by done.
    destruct (size input 0), (size input 1), (inner input); lia. }
  set (mu := channel_mean input c) in *.
  set (k := (dotp input grad_out_ mu c * at1 save_invstd c
             * at1 save_invstd c / n)%R) in *.
  set (iw := (at1 save_invstd c
              * match weight with Some wt => at1 wt c | None => 1 end)%R).
  set (sx := foldl (fun acc p => (acc + get input p.1 c p.2)%R) 0%R
                   (channel_coords input)).
  set (sg := foldl (fun acc p => (acc + get grad_out_ p.1 c p.2)%R) 0%R
                   (channel_coords input)).
  assert (channel_sum grad_out_ c = sg) as Hsg.
  { unfold channel_sum.
    rewrite (channel_coords_sizes input grad_out_) by done.
    apply foldl_ext_eq. by intros a [b s]. }
  assert (mu = (sx / n)%R) as Hmu.
  { subst mu. unfold channel_mean. simpl. rewrite <- INR_IZR_INZ.
    fold n. f_equal. unfold channel_sum. apply foldl_ext_eq.
    by intros a [b s]. }
  assert (channel_sum gi c
          = foldl (fun acc p =>
                     (acc + (iw * (get grad_out_ p.1 c p.2 - k * get input p.1 c p.2)
                             + iw * (k * mu - sg / n)))%R) 0%R
                  (channel_coords input)) as ->.
  { unfold channel_sum.
    rewrite (channel_coords_sizes input gi) by done.
    apply foldl_ext_in. intros a [b s] Hin.
    apply elem_of_channel_coords in Hin as [Hb' Hs'].
    rewrite Hat by done. rewrite Hsg. subst iw k. simpl.
    destruct weight; simpl; unfold Rdiv; ring. }
  rewrite (foldl_Rplus_linear
             (fun p => (get grad_out_ p.1 c p.2 - k * get input p.1 c p.2)%R)).
  rewrite (foldl_Rplus_sub (fun p => get grad_out_ p.1 c p.2)
             (fun p => (k * get input p.1 c p.2)%R)).
  assert (foldl (fun acc p => (acc + k * get input p.1 c p.2)%R) 0%R
                (channel_coords input) = (k * sx)%R) as ->.
  { transitivity
      (foldl (fun acc p => (acc + (k * get input p.1 c p.2 + 0))%R) 0%R
             (channel_coords input)).
    - apply foldl_ext_eq. intros a p. lra.
    - rewrite (foldl_Rplus_linear (fun p => get input p.1 c p.2)).
      fold sx. lra. }
  fold sg. rewrite length_channel_coords. fold n. rewrite Hmu.
  field. done.
Qed.

Lemma training_input_gradient_sums_to_zero_witness :
  let input := cpu_real [2; 1; 1] [3; 5]%R in
  let grad_out := cpu_real [2; 1; 1] [1; 2]%R in
  let save_mean := cpu_real [1] [4]%R in
  let save_invstd := cpu_real [1] [1]%R in
  ∃ grad_input grad_weight grad_bias,
    batch_norm_backward_cpu_template grad_out input None None None
      (Some save_mean) (Some save_invstd) true 0%R (true, false, false)
    = Ok (Some grad_input, grad_weight, grad_bias)
    ∧ sum_over_channel grad_input 0 = 0%R.
Proof.
  apply (training_input_gradient_sums_to_zero
           (cpu_real [2; 1; 1] [1; 2]%R) (cpu_real [2; 1; 1] [3; 5]%R)
           None None None (cpu_real [1] [4]%R) (cpu_real [1] [1]%R) 0%R
           false false 0).
  - unfold backward_operands, well_formed, accessor_vector, dim, numel.
    simpl. repeat split; reflexivity || lia.
  - vm_compute. lia.
  - simpl. discriminate.
  - vm_compute. lia.
  - cbn. change (Z.of_nat 2) with 2%Z. lra.
Defined.
